(** * Panasonic CONT metadata codec: a shallow embedding

    The development follows the three Python modules of the repository:

    - [reveng.py]: [readFile16], [extractChars];
    - [panasonicMeta.py]: [printCont] (the decoder) with its helpers
      [identifySource], [readContTimestamp], [filetimeToTimestamp], and
      [buildMetadata] (the encoder) with [makeWindowsFiletime],
      [makeContTimestamp] and the block assembler;
    - [pCont.py]: the older [prettyPrint] scan, which shares the cursor
      arithmetic of [printCont].

    Python values are modelled as follows.  An [int] is a [Z]; a [bytes]
    object is a list of [Z] in [0, 255]; an [array('H')] is a list of [Z] in
    [0, 65535] indexed by [nat]; a [str] is the list of its code points; a
    [float] is a binary64 number, kept as the integer number of units of
    2^-1074 it is worth (section [Float64]).  An exception aborts the
    computation: fallible code lives in [result], and code that prints lives
    in the writer-and-error monad [M], so that the lines already printed
    when an exception is raised are part of the outcome.  Printing itself
    can fail: standard output is a text stream whose encoder refuses some
    code points (class [Console]), and [print] raises [UnicodeEncodeError]
    on a text that holds one. *)

From Stdlib Require Import ZArith Lia String Ascii Bool.
From stdpp Require Import base list.

Local Open Scope Z_scope.

(** ** Exceptions and results *)

Inductive exn : Type :=
| IndexError      (* sequence index out of range *)
| ValueError      (* datetime field out of range, odd-sized buffer *)
| OverflowError   (* date value out of range, float too large *)
| StructError     (* struct.error: value does not fit the format *)
| EOFError        (* array.fromfile: not enough items *)
| OSError         (* missing template file *)
| SystemExit      (* sys.exit(1) *)
| UnicodeEncodeError. (* print: a code point the console cannot encode *)

Inductive result (A : Type) : Type :=
| Ok (a : A)
| Raise (e : exn)
| Diverge.        (* loop fuel exhausted; shown unreachable below *)

Arguments Ok {A} a.
Arguments Raise {A} e.
Arguments Diverge {A}.

Definition bindR {A B} (r : result A) (f : A -> result B) : result B :=
  match r with
  | Ok a => f a
  | Raise e => Raise e
  | Diverge => Diverge
  end.

Notation "'let!' x ':=' r 'in' k" := (bindR r (fun x => k))
  (at level 10, x pattern, r at level 100, k at level 200).

Definition is_raise {A} (r : result A) : Prop := exists e, r = Raise e.

(** Python text: a [str] is the list of its code points. *)
Definition str := list Z.

Definition pystr (s : string) : str :=
  map (fun a => Z.of_N (N_of_ascii a)) (list_ascii_of_string s).

Arguments pystr s%_string.

(** Sequence indexing [data[k]] for [k >= 0] and slicing [data[a:b]] for
    [0 <= a]: an index past the end raises, a slice is clipped. *)
Definition idx (data : list Z) (k : nat) : result Z :=
  match data !! k with
  | Some w => Ok w
  | None => Raise IndexError
  end.

Definition slice (data : list Z) (a b : nat) : list Z :=
  take (b - a) (drop a data).

(** ** Binary64 arithmetic

    Every finite binary64 number is an integer multiple of 2^-1074; a
    [pyfloat] is that integer.  Rounding is to nearest, ties to even, on 53
    significant bits, which is what IEEE multiplication, the division of two
    Python ints and the conversion of an int to a float all perform on their
    exact result. *)
Module Float64.

Definition pyfloat := Z.

Definition unit_exp : Z := 1074.
Definition one : Z := 2 ^ unit_exp.
Definition huge : Z := 2 ^ (1024 + unit_exp).

(** round half to even of the rational [n / d], [d > 0] *)
Definition rhe (n d : Z) : Z :=
  let q := n / d in
  let r := n mod d in
  if 2 * r <? d then q
  else if d <? 2 * r then q + 1
  else if Z.even q then q else q + 1.

(** nearest float to [a / b] units, for [a >= 0], [b > 0] *)
Definition round53_pos (a b : Z) : Z :=
  let s := Z.max (Z.log2 (a / b) - 52) 0 in
  rhe a (b * 2 ^ s) * 2 ^ s.

Definition round53 (a b : Z) : Z :=
  if a <? 0 then - round53_pos (- a) b else round53_pos a b.

(** the float nearest to the rational [num / den], [den > 0];
    [None] stands for an infinity *)
Definition of_rat (num den : Z) : option pyfloat :=
  let x := round53 (num * one) den in
  if Z.abs x <? huge then Some x else None.

(** [float(n)] for a Python int *)
Definition of_int (n : Z) : option pyfloat := of_rat n 1.

(** [n / d] on Python ints (true division): correctly rounded;
    a quotient too large for a float raises *)
Definition truediv (n d : Z) : result pyfloat :=
  match (if 0 <? d then of_rat n d else of_rat (- n) (- d)) with
  | Some x => Ok x
  | None => Raise OverflowError
  end.

(** [x * y] on floats: [None] is an infinite product *)
Definition mul (x y : pyfloat) : option pyfloat :=
  let x := round53 (x * y) one in
  if Z.abs x <? huge then Some x else None.

(** [int(x)]: truncation toward zero *)
Definition to_int (x : pyfloat) : Z := Z.quot x one.

(** [math.floor(x)] *)
Definition floor (x : pyfloat) : Z := x / one.

(** rounding to the nearest integer, ties to even, as the [timedelta]
    constructor does with a float number of microseconds *)
Definition round_int (x : pyfloat) : Z := rhe x one.

End Float64.

(** ** Calendar values: Python's [datetime] and [timedelta]

    The proleptic Gregorian arithmetic of the [datetime] module: the
    constructor's field checks, the day ordinal of a date and its inverse,
    and the addition of a number of microseconds to a [datetime]. *)
Module PyDatetime.

Record datetime : Type := mkDatetime {
  year : Z; month : Z; day : Z;
  hour : Z; minute : Z; second : Z; microsecond : Z
}.

Definition is_leap (y : Z) : bool :=
  (y mod 4 =? 0) && (negb (y mod 100 =? 0) || (y mod 400 =? 0)).

Definition days_in_month_table (m : Z) : Z :=
  if m =? 2 then 28
  else if (m =? 4) || (m =? 6) || (m =? 9) || (m =? 11) then 30
  else 31.

Definition days_in_month (y m : Z) : Z :=
  if (m =? 2) && is_leap y then 29 else days_in_month_table m.

(** [_DAYS_BEFORE_MONTH[m]] *)
Definition days_before_month_table (m : Z) : Z :=
  match m with
  | 1 => 0 | 2 => 31 | 3 => 59 | 4 => 90 | 5 => 120 | 6 => 151
  | 7 => 181 | 8 => 212 | 9 => 243 | 10 => 273 | 11 => 304 | 12 => 334
  | _ => 0
  end.

Definition days_before_year (y : Z) : Z :=
  let y := y - 1 in y * 365 + y / 4 - y / 100 + y / 400.

Definition days_before_month (y m : Z) : Z :=
  days_before_month_table m + (if (2 <? m) && is_leap y then 1 else 0).

Definition ymd2ord (y m d : Z) : Z :=
  days_before_year y + days_before_month y m + d.

Definition MAXORDINAL : Z := 3652059.

Definition ord2ymd (n : Z) : Z * Z * Z :=
  let n := n - 1 in
  let n400 := n / 146097 in let n := n mod 146097 in
  let y := n400 * 400 + 1 in
  let n100 := n / 36524 in let n := n mod 36524 in
  let n4 := n / 1461 in let n := n mod 1461 in
  let n1 := n / 365 in let n := n mod 365 in
  let y := y + n100 * 100 + n4 * 4 + n1 in
  if (n1 =? 4) || (n100 =? 4) then (y - 1, 12, 31)
  else
    let leapyear := (n1 =? 3) && (negb (n4 =? 24) || (n100 =? 3)) in
    let m := Z.shiftr (n + 50) 5 in
    let preceding :=
      days_before_month_table m + (if (2 <? m) && leapyear then 1 else 0) in
    if n <? preceding then
      let m := m - 1 in
      let preceding :=
        preceding - (days_in_month_table m
                     + (if (m =? 2) && leapyear then 1 else 0)) in
      (y, m, n - preceding + 1)
    else (y, m, n - preceding + 1).

(** the checks of [datetime.datetime(y, m, d, hh, mm, ss)] *)
Definition valid_fields (y m d hh mm ss : Z) : bool :=
  (1 <=? y) && (y <=? 9999) && (1 <=? m) && (m <=? 12)
  && (1 <=? d) && (d <=? days_in_month y m)
  && (0 <=? hh) && (hh <=? 23) && (0 <=? mm) && (mm <=? 59)
  && (0 <=? ss) && (ss <=? 59).

Definition make (y m d hh mm ss : Z) : result datetime :=
  if valid_fields y m d hh mm ss
  then Ok (mkDatetime y m d hh mm ss 0)
  else Raise ValueError.

Definition valid (t : datetime) : Prop :=
  valid_fields (year t) (month t) (day t) (hour t) (minute t) (second t)
    = true
  /\ 0 <= microsecond t < 1000000.

Definition usec_per_day : Z := 86400 * 1000000.

(** microseconds elapsed since the start of ordinal day 0 *)
Definition to_usec (t : datetime) : Z :=
  ymd2ord (year t) (month t) (day t) * usec_per_day
  + ((hour t * 3600 + minute t * 60 + second t) * 1000000 + microsecond t).

(** [t + timedelta(microseconds=us)]: a [timedelta] keeps at most
    999999999 days, and the sum has to stay within years 1..9999 *)
Definition add_usec (t : datetime) (us : Z) : result datetime :=
  if 999999999 <? Z.abs (us / usec_per_day) then Raise OverflowError
  else
    let total := to_usec t + us in
    let days := total / usec_per_day in
    let rest := total mod usec_per_day in
    if (0 <? days) && (days <=? MAXORDINAL) then
      let '(y, m, d) := ord2ymd days in
      let secs := rest / 1000000 in
      Ok (mkDatetime y m d (secs / 3600) ((secs mod 3600) / 60)
            (secs mod 60) (rest mod 1000000))
    else Raise OverflowError.

(** [datetime.utcfromtimestamp(t)] for a whole number of seconds [t]:
    the calendar reading of a Unix time *)
Definition utc_of_unix (t : Z) : result datetime :=
  add_usec (mkDatetime 1970 1 1 0 0 0 0) (t * 1000000).

End PyDatetime.

Import Float64 PyDatetime.

(** ** [reveng.py] *)

Inductive endian : Type := Little | Big.

Definition endian_eqb (a b : endian) : bool :=
  match a, b with
  | Little, Little | Big, Big => true
  | _, _ => false
  end.

(** one item of an [array('H')] or [array('h')] read in the byte order of
    the machine *)
Definition item16 (sys : endian) (unsigned : bool) (b0 b1 : Z) : Z :=
  let u := match sys with
           | Little => b0 + 256 * b1
           | Big => b1 + 256 * b0
           end in
  if unsigned || (u <? 32768) then u else u - 65536.

(** [array.fromfile(f, count)] *)
Fixpoint fromfile (sys : endian) (unsigned : bool) (count : nat)
    (file : list Z) : result (list Z) :=
  match count with
  | O => Ok []
  | S c =>
      match file with
      | b0 :: b1 :: rest =>
          let! r := fromfile sys unsigned c rest in
          Ok (item16 sys unsigned b0 b1 :: r)
      | _ => Raise EOFError
      end
  end.

(** [array.byteswap()] on one 16-bit item *)
Definition byteswap16 (unsigned : bool) (v : Z) : Z :=
  let u := v mod 65536 in
  let w := (u mod 256) * 256 + u / 256 in
  if unsigned || (w <? 32768) then w else w - 65536.

(** [readFile16(filename, endian, unsigned)]; [file] is the content of
    the file, [sys] the byte order of the machine ([sys.byteorder]). *)
Definition readFile16 (sys : endian) (file : list Z) (endian_ : endian)
    (unsigned : bool) : result (list Z) :=
  let! count := truediv (Z.of_nat (length file)) 2 in
  let count := floor count in
  let! result := fromfile sys unsigned (Z.to_nat count) file in
  Ok (if endian_eqb endian_ sys then result
      else map (byteswap16 unsigned) result).

(** [extractChars(data)]: the body of the loop, then the loop.  [chr]
    raises [ValueError] outside [0, 0x10FFFF], which the loop turns into a
    question mark. *)
Definition extractChars_step (s : str) (a : Z) : str :=
  if a =? 0 then
    match last s with
    | Some c => if c =? 10 then s else s ++ [10]
    | None => s
    end
  else if (0 <=? a) && (a <? 1114112) then s ++ [a]
  else s ++ [63].

Definition extractChars (data : list Z) : str :=
  fold_left extractChars_step data [].

(** ** Printed output

    Each [print] statement of the decoder contributes one [item] that
    carries the values it prints; [printHex] and [printInts] contribute the
    sequence they dump.

    [sys.stdout] encodes what it is given.  A [Console] says which code
    points its encoder accepts; a [str] that holds any other code point
    makes the write raise [UnicodeEncodeError] before anything of that
    [str] is written.  With the UTF-8 encoder and its strict error handler,
    Python's default, these are the surrogates U+D800 to U+DFFF ([utf8]).
    The labels of the scripts are ASCII, and numbers and dates print as
    ASCII, which the console writes; only text taken from the data or from
    a file name can fail.  [print(label, text)] writes its arguments one
    after the other, so a failure on the text leaves the label on the
    stream ([Partial]); [print(text)] leaves nothing. *)

Class Console : Type := encodes : Z -> bool.

Definition utf8 : Console := fun c => (c <? 55296) || (57343 <? c).

Definition encodable `{Console} (s : str) : bool := forallb encodes s.

Inductive source : Type :=
| DirectlyImported
| SingleClipProject
| PreviousLibraryImport
| MultiClipProject
| UnknownValue (field : Z).

Inductive value : Type :=
| VInt (z : Z)
| VBin (z : Z)
| VPair (a b : Z)
| VStr (s : str)
| VDate (t : datetime)
| VSource (s : source).

Inductive item : Type :=
| Blank
| Rule
| Heading (s : string)
| Text (s : str)
| Field (label : string) (v : value)
| Partial (label : string)
| HexDump (ws : list Z)
| IntDump (ws : list Z).

Definition M (A : Type) : Type := (list item * result A)%type.

Definition ret {A} (a : A) : M A := ([], Ok a).

Definition bindM {A B} (m : M A) (f : A -> M B) : M B :=
  match m with
  | (o, Ok a) => let '(o', r) := f a in (o ++ o', r)
  | (o, Raise e) => (o, Raise e)
  | (o, Diverge) => (o, Diverge)
  end.

(** whether the console can write the item, and what a failing [print]
    has written before it raises *)
Definition printable `{Console} (it : item) : bool :=
  match it with
  | Text s | Field _ (VStr s) => encodable s
  | _ => true
  end.

Definition written (it : item) : list item :=
  match it with
  | Field l _ => [Partial l]
  | _ => []
  end.

Definition print `{Console} (it : item) : M unit :=
  if printable it then ([it], Ok tt)
  else (written it, Raise UnicodeEncodeError).

Definition lift {A} (r : result A) : M A := ([], r).

Definition when (b : bool) (m : M unit) : M unit := if b then m else ret tt.

Notation "x <- m ;; k" := (bindM m (fun x => k))
  (at level 100, m at next level, k at level 200, right associativity).
Notation "m ;;; k" := (bindM m (fun _ => k))
  (at level 100, k at level 200, right associativity).

Definition output {A} (m : M A) : list item := fst m.
Definition outcome {A} (m : M A) : result A := snd m.

(** ** [panasonicMeta.py]: the decoder *)
Section Decoder.

Context {stdout : Console}.

Local Open Scope string_scope.
Local Open Scope nat_scope.

Definition identifySource (field : Z) : source :=
  if (field =? 32)%Z then DirectlyImported
  else if (field =? 33)%Z then SingleClipProject
  else if (field =? 48)%Z then PreviousLibraryImport
  else if (field =? 49)%Z then MultiClipProject
  else UnknownValue field.

Definition readContTimestamp (data : list Z) : result datetime :=
  let! y := idx data 1 in
  let! mo := idx data 2 in
  let! d := idx data 4 in
  let! hh := idx data 5 in
  let! mm := idx data 6 in
  let! ss := idx data 7 in
  make y mo d hh mm ss.

Definition filetimeToTimestamp (data : list Z) : result datetime :=
  let! d3 := idx data 3 in
  let! d2 := idx data 2 in
  let! d1 := idx data 1 in
  let! d0 := idx data 0 in
  let filetime :=
    (Z.shiftl d3 48 + Z.shiftl d2 32 + Z.shiftl d1 16 + d0)%Z in
  let! usecs := truediv filetime 10 in
  add_usec (mkDatetime 1601 1 1 0 0 0 0) (round_int usecs).

(** The test of one candidate header length (line 94): a chained
    comparison, evaluated left to right and cut at the first failure. *)
Definition header_test (data : list Z) (n : nat) : result bool :=
  let! a := idx data n in
  let! b := idx data (n + 8) in
  if negb (a =? b)%Z then Ok false else
  let! c := idx data (n + 16) in
  if negb (b =? c)%Z then Ok false else
  let! d := idx data (n + 24) in
  if negb (c =? d)%Z then Ok false else
  let! e := idx data (n + 1) in
  let! f := idx data (n + 9) in
  Ok (e =? f)%Z.

(** [for n in range(...): if test: break]; after the loop [n] is the
    candidate that passed, or the last one tried. *)
Fixpoint header_loop (data : list Z) (range : list nat) (n : nat)
    : result nat :=
  match range with
  | [] => Ok n
  | c :: rest =>
      let! hit := header_test data c in
      if hit then Ok c else header_loop data rest c
  end.

Definition detect_header_length (data : list Z) : result nat :=
  header_loop data (seq 29 9) 0.

(** [while data[x] != 0: dt.append(data[x]); x += 1], run on the part
    of the sequence that starts at [x] *)
Fixpoint datestamp_loop (rest : list Z) (x : nat) (dt : list Z)
    : result (nat * list Z) :=
  match rest with
  | [] => Raise IndexError
  | w :: rest' =>
      if (w =? 0)%Z then Ok (x, dt)
      else datestamp_loop rest' (S x) (dt ++ [w])
  end.

(** [int(w / 2)] *)
Definition half (w : Z) : result nat :=
  let! q := truediv w 2 in Ok (Z.to_nat (to_int q)).

(** One turn of the tag dispatch (lines 175-235): the pointer after the
    per-tag update, before the final [i += 1]. *)
Definition scan_record (data : list Z) (unknown_fields : bool) (i : nat)
    (element : Z) : M nat :=
  if (element =? 22)%Z then
    r <- lift (datestamp_loop (drop (i + 2) data) (i + 2) []) ;;
    print (Field "Datestamp detected" (VStr (extractChars (snd r)))) ;;;
    ret (fst r)
  else if (element =? 1)%Z then
    print (Heading "Video File") ;;;
    print (HexDump (slice data (i + 1) (i + 8))) ;;;
    hi <- lift (idx data (i + 9)) ;;
    lo <- lift (idx data (i + 8)) ;;
    let m2ts_size := (Z.shiftl hi 16 + lo)%Z in
    file_date <- lift (filetimeToTimestamp (slice data (i + 12) (i + 16))) ;;
    let x := i + 17 in
    w <- lift (idx data (x - 1)) ;;
    str_len <- lift (half w) ;;
    let str_data := slice data x (x + str_len) in
    when (negb unknown_fields)
      (print (Field "File Size" (VInt m2ts_size)) ;;;
       print (Field "Creation Date" (VDate file_date)) ;;;
       print (Field "File Name" (VStr (extractChars str_data)))) ;;;
    ret (x + str_len)
  else if (element =? 2)%Z then
    print (Heading "Thumbnail file") ;;;
    print (HexDump (slice data (i + 1) (i + 8))) ;;;
    file_date <- lift (filetimeToTimestamp (slice data (i + 8) (i + 12))) ;;
    let x := i + 13 in
    w <- lift (idx data (x - 1)) ;;
    str_len <- lift (half w) ;;
    let str_data := slice data x (x + str_len) in
    when (negb unknown_fields)
      (print (Field "Creation Date" (VDate file_date)) ;;;
       print (Field "File Name" (VStr (extractChars str_data)))) ;;;
    ret (x + str_len)
  else if (element =? 4)%Z then
    print (Heading "XML file") ;;;
    file_date <- lift (filetimeToTimestamp (slice data (i + 2) (i + 6))) ;;
    let x := i + 7 in
    w <- lift (idx data (x - 1)) ;;
    str_len <- lift (half w) ;;
    let str_data := slice data x (x + str_len) in
    when (negb unknown_fields)
      (print (Field "Creation Date" (VDate file_date)) ;;;
       print (Field "File Name" (VStr (extractChars str_data)))) ;;;
    ret (x + str_len)
  else ret i.

(** The body of the [while] loop: dispatch, then [i += 1]. *)
Definition scan_next (data : list Z) (unknown_fields : bool) (i : nat)
    : M nat :=
  element <- lift (idx data i) ;;
  i <- scan_record data unknown_fields i element ;;
  ret (i + 1).

(** [while i < len(data): ...] *)
Fixpoint scan (fuel : nat) (data : list Z) (unknown_fields : bool)
    (i : nat) : M unit :=
  if i <? length data then
    match fuel with
    | O => lift Diverge
    | S fuel' =>
        i <- scan_next data unknown_fields i ;;
        scan fuel' data unknown_fields i
    end
  else ret tt.

(** [printCont(data, unknown_fields)] on an [array('H')] *)
Definition printCont (data : list Z) (unknown_fields : bool) : M unit :=
  when (negb unknown_fields)
    (print (Text (extractChars (slice data 0 7)))) ;;;
  n <- lift (detect_header_length data) ;;
  print Blank ;;;
  print (HexDump (slice data 7 n)) ;;;
  print (IntDump (slice data 7 n)) ;;;
  print Blank ;;;
  print (Heading "File Metadata") ;;;
  n <- (if negb unknown_fields then
          t <- lift (readContTimestamp (slice data n (n + 8))) ;;
          print (Field "Recorded" (VDate t)) ;;;
          t <- lift (readContTimestamp (slice data (n + 8) (n + 16))) ;;
          print (Field "Recorded (UTC)" (VDate t)) ;;;
          t <- lift (readContTimestamp (slice data (n + 16) (n + 24))) ;;
          print (Field "Last Modified" (VDate t)) ;;;
          t <- lift (readContTimestamp (slice data (n + 24) (n + 32))) ;;
          print (Field "File Created" (VDate t)) ;;;
          let n := n + 33 in
          hi <- lift (idx data (n + 1)) ;;
          lo <- lift (idx data n) ;;
          print (Field "File Size" (VInt (Z.shiftl hi 16 + lo))) ;;;
          ret (n + 2)
        else ret (n + 35)) ;;
  let x := n + 16 in
  print Blank ;;;
  print (HexDump (slice data (n + 2) (n + 5))) ;;;
  print (IntDump (slice data (n + 2) (n + 5))) ;;;
  w <- lift (idx data (n + 2)) ;; print (Field "Unknown Data 1" (VBin w)) ;;;
  w <- lift (idx data (n + 3)) ;; print (Field "Unknown Data 2" (VBin w)) ;;;
  w <- lift (idx data (n + 4)) ;; print (Field "Unknown Data 3" (VBin w)) ;;;
  print Blank ;;;
  w <- lift (idx data (n + 10)) ;; print (Field "Unknown" (VInt w)) ;;;
  w <- lift (idx data (n + 11)) ;; print (Field "Unknown Flag" (VInt w)) ;;;
  w <- lift (idx data (n + 12)) ;; print (Field "Unknown Const" (VInt w)) ;;;
  w <- lift (idx data (n + 13)) ;; print (Field "Unknown Const" (VInt w)) ;;;
  w <- lift (idx data (n + 14)) ;;
  print (Field "Origin (TBC)" (VSource (identifySource w))) ;;;
  when (negb unknown_fields)
    (print (Heading "Video stream (TBC)") ;;;
     w <- lift (idx data x) ;; print (Field "Unknown" (VInt w)) ;;;
     a <- lift (idx data (x + 2)) ;; b <- lift (idx data (x + 4)) ;;
     print (Field "Frame size" (VPair a b)) ;;;
     a <- lift (idx data (x + 6)) ;; b <- lift (idx data (x + 8)) ;;
     print (Field "Aspect ratio" (VPair a b)) ;;;
     w <- lift (idx data (x + 10)) ;; print (Field "Frame rate" (VInt w)) ;;;
     w <- lift (idx data (x + 12)) ;; print (Field "Unknown" (VInt w)) ;;;
     print (Heading "Audio stream (TBC)") ;;;
     w <- lift (idx data (x + 14)) ;; print (Field "Unknown" (VInt w)) ;;;
     w <- lift (idx data (x + 15)) ;; print (Field "Stream ID" (VInt w)) ;;;
     w <- lift (idx data (x + 16)) ;; print (Field "Unknown" (VInt w)) ;;;
     hi <- lift (idx data (x + 19)) ;; lo <- lift (idx data (x + 18)) ;;
     print (Field "Bitrate" (VInt (Z.shiftl hi 16 + lo))) ;;;
     w <- lift (idx data (x + 20)) ;; print (Field "Bitdepth" (VInt w)) ;;;
     w <- lift (idx data (x + 21)) ;; print (Field "Channels" (VInt w)) ;;;
     w <- lift (idx data (x + 22)) ;; print (Field "Frequency" (VInt w))) ;;;
  let dev_start := x + 22 + 4 in
  when (negb unknown_fields)
    (print (Heading "Header End Fields") ;;;
     print (HexDump (slice data (x + 21) dev_start)) ;;;
     print (Heading "Device Information") ;;;
     print Rule ;;;
     print (Text (extractChars (slice data dev_start (dev_start + 128)))) ;;;
     print (Text (extractChars
                    (slice data (dev_start + 128) (dev_start + 256)))) ;;;
     print Rule) ;;;
  scan (length data) data unknown_fields (dev_start + 256).

(** [printCont] on a [bytes] object: [array.array('H', data)] reads the
    items in the byte order of the machine and refuses an odd size. *)
Fixpoint array_H (sys : endian) (bytes : list Z) : result (list Z) :=
  match bytes with
  | [] => Ok []
  | b0 :: b1 :: rest =>
      let! r := array_H sys rest in Ok (item16 sys true b0 b1 :: r)
  | [_] => Raise ValueError
  end.

Definition printCont_bytes (sys : endian) (bytes : list Z)
    (unknown_fields : bool) : M unit :=
  data <- lift (array_H sys bytes) ;;
  printCont data unknown_fields.

(** [analyseCont] once the file is known to exist *)
Definition analyseCont (sys : endian) (file : list Z)
    (unknown_fields : bool) : M unit :=
  data <- lift (readFile16 sys file Little true) ;;
  printCont data unknown_fields.

End Decoder.

(** ** [panasonicMeta.py]: the encoder *)
Section Encoder.

Local Open Scope nat_scope.

(** The four [struct] formats of [buildMetadata]. *)
Inductive fmt : Type :=
| fmts   (* '<H' *)
| fmti   (* '<I' *)
| fmtl   (* '<Q' *)
| fmtc.  (* 'B'  *)

Definition fmt_size (f : fmt) : nat :=
  match f with fmts => 2 | fmti => 4 | fmtl => 8 | fmtc => 1 end.

Definition fmt_bound (f : fmt) : Z :=
  (match f with
   | fmts => 65536
   | fmti => 4294967296
   | fmtl => 18446744073709551616
   | fmtc => 256
   end)%Z.

Fixpoint le_bytes (n : nat) (v : Z) : list Z :=
  match n with
  | O => []
  | S n' => (v mod 256)%Z :: le_bytes n' (v / 256)%Z
  end.

(** [struct.pack(f, v)] for an int [v] *)
Definition struct_pack (f : fmt) (v : Z) : result (list Z) :=
  if (0 <=? v)%Z && (v <? fmt_bound f)%Z
  then Ok (le_bytes (fmt_size f) v)
  else Raise StructError.

(** A block of [file_structure]: raw bytes, a string, a list of ints or
    one int, with the ['prenul'] count ([0] when the key is absent) and
    the optional ['length']. *)
Inductive payload : Type :=
| Raw (b : list Z)
| Chars (f : fmt) (s : str)
| IntList (f : fmt) (l : list Z)
| Int (f : fmt) (z : Z).

Record element : Type := mkElement {
  edata : payload;
  prenul : nat;
  elength : option nat
}.

(** [for c in chars: data += struct.pack(fmt, c)] *)
Fixpoint pack_each (f : fmt) (l : list Z) (data : list Z)
    : result (list Z) :=
  match l with
  | [] => Ok data
  | c :: l' =>
      let! b := struct_pack f c in pack_each f l' (data ++ b)
  end.

(** The body of the assembling loop (lines 478-509). *)
Definition emit (data : list Z) (el : element) : result (list Z) :=
  let start := length data in
  let data := data ++ repeat 0%Z (prenul el) in
  let! data :=
    match edata el with
    | Raw b => Ok (data ++ b)
    | Chars f s => pack_each f s data
    | IntList f l => pack_each f l data
    | Int f z => let! b := struct_pack f z in Ok (data ++ b)
    end in
  let diff := length data - start in
  Ok match elength el with
     | Some len =>
         if diff <? len then data ++ repeat 0%Z (len - diff) else data
     | None => data
     end.

Fixpoint assemble (file_structure : list element) (data : list Z)
    : result (list Z) :=
  match file_structure with
  | [] => Ok data
  | el :: rest => let! data := emit data el in assemble rest data
  end.

(** [makeWindowsFiletime(unix_time)] for a float [unix_time] *)
Definition makeWindowsFiletime (unix_time : pyfloat) : result Z :=
  match mul unix_time (10000000 * one)%Z with
  | Some x => Ok (116444736000000000 + to_int x)%Z
  | None => Raise OverflowError
  end.

Definition makeContTimestamp (dt : datetime) (x : Z) : list Z :=
  [year dt; month dt; x; day dt; hour dt; minute dt; second dt].

(** The parameters the CONT file is built from: the [params] dictionary
    together with the file names and creation times [file_structure]
    refers to. *)
Record ContParams : Type := mkContParams {
  file_name : str;
  tmb_file : str;
  pmpd_file : str;
  file_size : Z;
  record_dt : datetime;
  record_dt_utc : datetime;
  file_modified : datetime;
  file_created : datetime;
  audio_stream : Z;
  audio_bitrate : Z;
  audio_bitdepth : Z;
  audio_channels : Z;
  audio_frequency : Z;
  record_str : str;
  m2ts_creation_date : pyfloat;
  tmb_creation_date : pyfloat;
  pmpd_creation_date : pyfloat
}.

Definition camera_header : list Z :=
  [0x0a; 0x00; 0x00; 0x00; 0x00; 0x10; 0x01; 0x00; 0x00; 0x00; 0x00; 0x01;
   0x05; 0x00; 0x00; 0x00; 0x01; 0x00; 0x00; 0x00; 0x4c; 0x00; 0x00; 0x00;
   0x02; 0x00; 0x00; 0x00; 0xe4; 0x02; 0x00; 0x00; 0x05; 0x00; 0x00; 0x00;
   0xfe; 0x02; 0x00; 0x00; 0x06; 0x00; 0x00; 0x00; 0x50; 0x03; 0x00; 0x00;
   0x0a; 0x00; 0x00; 0x00; 0xd6; 0x03]%Z.

Definition brand : str := pystr "Panasonic".

Definition device : str :=
  pystr "01" ++ [0%Z] ++ pystr "HC-V210/V110" ++ [0%Z]
  ++ pystr "00" ++ [0%Z] ++ pystr "00".

Definition file_structure (p : ContParams) : result (list element) :=
  let blk d := mkElement d 0 None in
  let pre n d := mkElement d n None in
  let! m2ts_filetime := makeWindowsFiletime (m2ts_creation_date p) in
  let! tmb_filetime := makeWindowsFiletime (tmb_creation_date p) in
  let! pmpd_filetime := makeWindowsFiletime (pmpd_creation_date p) in
  Ok [
    (* File format header *)
    blk (Chars fmts (pystr "P_Cont_"));
    blk (Chars fmtc [10; 67; 111; 110; 116; 10]%Z);
    (* Unidentified binary data *)
    blk (Raw camera_header);
    (* Recording information *)
    pre 2 (IntList fmts (makeContTimestamp (record_dt p) 5));
    pre 2 (IntList fmts (makeContTimestamp (record_dt_utc p) 5));
    pre 2 (IntList fmts (makeContTimestamp (file_modified p) 5));
    pre 2 (IntList fmts (makeContTimestamp (file_created p) 5));
    (* Video file size in bytes *)
    pre 2 (Int fmti (file_size p));
    (* Unidentified binary data *)
    pre 4 (Raw [0x80%Z]);
    blk (Raw [0x10%Z]);
    blk (Int fmts 19064);
    blk (Int fmts 0);
    blk (IntList fmts [0; 0; 0; 0; 0]%Z);
    blk (IntList fmts [26570; 240]%Z);
    blk (IntList fmts [1; 256]%Z);
    (* Video stream fields *)
    blk (Raw [0x20; 0x00]%Z);
    pre 2 (Int fmts 0);
    pre 2 (Int fmts 1920);
    pre 2 (Int fmts 1080);
    pre 2 (Int fmts 16);
    pre 2 (Int fmts 9);
    pre 2 (Int fmts 25);
    pre 2 (Int fmts 1);
    (* Audio stream fields *)
    pre 2 (Int fmts 128);
    blk (Int fmts (audio_stream p));
    blk (Int fmts 1);
    pre 2 (Int fmti (audio_bitrate p));
    blk (Int fmts (audio_bitdepth p));
    blk (Int fmts (audio_channels p));
    blk (Int fmts (audio_frequency p));
    (* End of header *)
    pre 2 (Raw [0x04; 0x00; 0x00; 0x21]%Z);
    (* Brand *)
    mkElement (Chars fmts brand) 0 (Some 256);
    (* Device *)
    mkElement (Chars fmts device) 0 (Some 254);
    (* Datestamp *)
    pre 2 (Raw [0x16; 0x00]%Z);
    pre 2 (Chars fmts (record_str p));
    (* M2TS file *)
    pre 2 (Raw [0x01; 0x00]%Z);
    pre 2 (Raw [0x06; 0x03]%Z);
    blk (Raw (repeat 0%Z 8));
    pre 2 (Int fmti (file_size p));
    blk (Raw (repeat 0%Z 4));
    blk (Int fmtl m2ts_filetime);
    blk (Int fmts (2 * Z.of_nat (length (file_name p)) + 2));
    pre 2 (Chars fmts (file_name p));
    (* TMB file *)
    pre 2 (Raw [0x02; 0x00]%Z);
    pre 2 (Raw (repeat 0%Z 10));
    pre 2 (Int fmtl tmb_filetime);
    blk (Int fmts (2 * Z.of_nat (length (tmb_file p)) + 2));
    pre 2 (Chars fmts (tmb_file p));
    (* PMPD file *)
    pre 2 (Raw [0x04; 0x00]%Z);
    pre 2 (Int fmtl pmpd_filetime);
    blk (Int fmts (2 * Z.of_nat (length (pmpd_file p)) + 2));
    pre 2 (Chars fmts (pmpd_file p));
    (* End of file *)
    blk (Raw (repeat 0%Z 2))
  ].

(** The CONT buffer of [buildMetadata]: the blocks, assembled from an
    empty buffer. *)
Definition encode (p : ContParams) : result (list Z) :=
  let! blocks := file_structure p in
  assemble blocks [].

End Encoder.

(** ** [pCont.py]: the scan of [prettyPrint]

    [prettyPrint] prints strings through [reveng.printChars], which
    [reveng.py] does not define; it is a parameter here. *)
Section PCont.

Context {stdout : Console}.
Variable printChars : list Z -> M unit.

Local Open Scope string_scope.
Local Open Scope nat_scope.

Definition prettyPrint_record (data : list Z) (i : nat) (element : Z)
    : M nat :=
  if (element =? 22)%Z then
    r <- lift (datestamp_loop (drop (i + 2) data) (i + 2) []) ;;
    print (Heading "Datestamp detected") ;;;
    printChars (snd r) ;;;
    ret (fst r)
  else if (element =? 1)%Z then
    print (Heading "Video file") ;;;
    print (HexDump (slice data (i + 1) (i + 8))) ;;;
    hi <- lift (idx data (i + 9)) ;;
    lo <- lift (idx data (i + 8)) ;;
    print (Field "File size (bytes)" (VInt (Z.shiftl hi 16 + lo))) ;;;
    print (HexDump (slice data (i + 12) (i + 16))) ;;;
    let x := i + 17 in
    w <- lift (idx data (x - 1)) ;;
    str_len <- lift (half w) ;;
    printChars (slice data x (x + str_len)) ;;;
    ret (x + str_len)
  else if (element =? 2)%Z then
    print (Heading "Thumbnail file") ;;;
    print (HexDump (slice data (i + 1) (i + 8))) ;;;
    print (HexDump (slice data (i + 8) (i + 12))) ;;;
    let x := i + 13 in
    w <- lift (idx data (x - 1)) ;;
    str_len <- lift (half w) ;;
    printChars (slice data x (x + str_len)) ;;;
    ret (x + str_len)
  else if (element =? 4)%Z then
    print (Heading "XML file") ;;;
    print (HexDump (slice data (i + 2) (i + 6))) ;;;
    let x := i + 7 in
    w <- lift (idx data (x - 1)) ;;
    str_len <- lift (half w) ;;
    printChars (slice data x (x + str_len)) ;;;
    ret (x + str_len)
  else ret i.

Definition prettyPrint_next (data : list Z) (i : nat) : M nat :=
  element <- lift (idx data i) ;;
  i <- prettyPrint_record data i element ;;
  ret (i + 1).

Fixpoint prettyPrint_scan (fuel : nat) (data : list Z) (i : nat)
    : M unit :=
  if i <? length data then
    match fuel with
    | O => lift Diverge
    | S fuel' =>
        i <- prettyPrint_next data i ;;
        prettyPrint_scan fuel' data i
    end
  else ret tt.

End PCont.

(** ** [buildMetadata] and its host

    What [buildMetadata] asks of the operating system: the source file and
    its [stat] values, the conversion of a Unix time to local time, the two
    clock readings behind [tz_offset], the C library's [strftime], the
    template files, and the creation times of the two sidecar files once
    they are written.  The content of the sidecar files is not modelled. *)

Record host : Type := mkHost {
  h_path : str;                     (* m2ts_file, as given *)
  h_exists : bool;                  (* os.path.exists(m2ts_file) *)
  h_fname : str;                    (* os.path.basename(m2ts_file) *)
  h_fbase : str;                    (* os.path.splitext(fname)[0] *)
  h_creation_date : pyfloat;        (* fileCreationDate(m2ts_file) *)
  h_file_created : datetime;        (* datetime.fromtimestamp(...) *)
  h_file_modified : datetime;
  h_file_size : Z;                  (* os.path.getsize(m2ts_file) *)
  h_now : datetime;                 (* datetime.datetime.now() *)
  h_utcnow : datetime;              (* datetime.datetime.utcnow() *)
  h_strftime_dmy : datetime -> str; (* dt.strftime('%d.%m.%Y') *)
  h_tmb_template : bool;            (* the thumbnail template can be copied *)
  h_pmpd_template : option str;     (* the text of the XML template *)
  h_tmb_creation_date : pyfloat;    (* fileCreationDate(tmb_file) *)
  h_pmpd_creation_date : pyfloat    (* fileCreationDate(pmpd_file) *)
}.

Section BuildMetadata.

Context {stdout : Console}.

Local Open Scope string_scope.

Definition makeContDateString (h : host) (dt : datetime) : str :=
  h_strftime_dmy h dt.

(** Lines 316-342: the [params] dictionary.  A naive [datetime] has no
    [utcoffset()], so [tz_offset] is always the difference of the two
    clock readings. *)
Definition build_params (h : host) : result ContParams :=
  let tz_offset := (to_usec (h_now h) - to_usec (h_utcnow h))%Z in
  let! utc := add_usec (h_file_created h) (- tz_offset) in
  Ok {| file_name := h_fname h;
        tmb_file := (h_fbase h ++ pystr ".tmb")%list;
        pmpd_file := (h_fbase h ++ pystr ".pmpd")%list;
        file_size := h_file_size h;
        record_dt := h_file_created h;
        record_dt_utc := utc;
        file_modified := h_file_modified h;
        file_created := h_file_created h;
        audio_stream := 4352;
        audio_bitrate := 256000;
        audio_bitdepth := 16;
        audio_channels := 2;
        audio_frequency := 48000;
        record_str := makeContDateString h (h_file_created h);
        m2ts_creation_date := h_creation_date h;
        tmb_creation_date := h_tmb_creation_date h;
        pmpd_creation_date := h_pmpd_creation_date h |}.

(** [buildMetadata(m2ts_file, debug)]: the value is the buffer written
    to the CONT file.  With [debug] the buffer is decoded before it is
    written, so a failing decode leaves no CONT file.  The two messages
    that format a name into one string print as one [Text]. *)
Definition buildMetadata (sys : endian) (h : host) (debug : bool)
    : M (list Z) :=
  if negb (h_exists h) then
    print (Text (pystr "Error: file " ++ h_path h
                 ++ pystr " not found.")%list) ;;;
    lift (Raise SystemExit)
  else
    print (Text (pystr "Preparing metadata files for " ++ h_fname h
                 ++ pystr "...")%list) ;;;
    print (Heading "WARNING: Couldn't get UTC offset, so using local timezone offset") ;;;
    params <- lift (build_params h) ;;
    when debug (print (Heading "params")) ;;;
    (if h_tmb_template h then ret tt else lift (Raise OSError)) ;;;
    print (Field "Created thumbnail file from template"
             (VStr (tmb_file params))) ;;;
    match h_pmpd_template h with
    | None => lift (Raise OSError)
    | Some _ =>
        print (Field "Created PMPD file from template"
                 (VStr (pmpd_file params))) ;;;
        data <- lift (encode params) ;;
        when debug
          (print (HexDump data) ;;;
           printCont_bytes sys data false ;;;
           print Blank) ;;;
        print (Field "Created CONT file"
                 (VStr (h_fbase h ++ pystr ".cont")%list)) ;;;
        ret data
    end.

End BuildMetadata.

(** ** Vocabulary of the statements *)

Definition is_byte (b : Z) : Prop := 0 <= b < 256.
Definition is_word (w : Z) : Prop := 0 <= w < 65536.

(** The values printed under a label, and the bare strings, in order. *)
Definition fields (label : string) (report : list item) : list value :=
  flat_map (fun it =>
              match it with
              | Field l v => if String.eqb l label then [v] else []
              | _ => []
              end) report.

Definition texts (report : list item) : list str :=
  flat_map (fun it => match it with Text s => [s] | _ => [] end) report.

(** The consistency test of a candidate header length, as a property. *)
Definition consistent (data : list Z) (n : nat) : Prop :=
  exists a e : Z,
    data !! n = Some a /\ data !! (n + 8)%nat = Some a
    /\ data !! (n + 16)%nat = Some a /\ data !! (n + 24)%nat = Some a
    /\ data !! (n + 1)%nat = Some e /\ data !! (n + 9)%nat = Some e.

(** The items of a file in the byte order of the machine, and its 16-bit
    little-endian reading. *)
Fixpoint native_items (sys : endian) (unsigned : bool) (file : list Z)
    : list Z :=
  match file with
  | b0 :: b1 :: rest =>
      item16 sys unsigned b0 b1 :: native_items sys unsigned rest
  | _ => []
  end.

Fixpoint words_le (bytes : list Z) : list Z :=
  match bytes with
  | b0 :: b1 :: rest => (b0 + 256 * b1) :: words_le rest
  | _ => []
  end.

Definition le16 (ws : list Z) : list Z := flat_map (le_bytes 2) ws.

(** A Unix time in whole seconds, through [makeWindowsFiletime], the
    ['<Q'] packing, the 16-bit loader and [filetimeToTimestamp]. *)
Definition unix_roundtrip (sys : endian) (t : Z) : result datetime :=
  match of_int t with
  | Some unix_time =>
      let! filetime := makeWindowsFiletime unix_time in
      let! packed := struct_pack fmtl filetime in
      let! words := readFile16 sys packed Little true in
      filetimeToTimestamp words
  | None => Raise OverflowError
  end.

(** The outcome of printing a text taken from the data, and of printing
    the name [data[x : c]] of a file record, which [unknown_fields]
    leaves out. *)
Definition printed `{Console} (s : str) : result unit :=
  if encodable s then Ok tt else Raise UnicodeEncodeError.

Definition name_printed `{Console} (unknown_fields : bool) (data : list Z)
    (x c : nat) : result unit :=
  if unknown_fields then Ok tt else printed (extractChars (slice data x c)).

(** The cursor of a file record: the FILETIME is decoded, then the length
    word at [i + hdr - 1] gives the number of words of the name. *)
Definition file_record_cursor (data : list Z) (i hdr ft : nat)
    : result nat :=
  let! _ := filetimeToTimestamp (slice data (i + ft) (i + ft + 4)) in
  let! w := idx data (i + hdr - 1) in
  let! str_len := half w in
  Ok (i + hdr + str_len)%nat.

(** Where the cursor stands after a file record whose length word is [w]:
    just past the slice [data[x : x + w / 2]] of the name, plus one. *)
Definition file_cursor (data : list Z) (i hdr c : nat) : Prop :=
  exists (w : Z) (str_len : nat),
    data !! (i + hdr - 1)%nat = Some w
    /\ half w = Ok str_len
    /\ (is_word w -> str_len = Z.to_nat (w / 2))
    /\ c = (i + hdr + str_len + 1)%nat.

(** Where the cursor stands after one turn of the scan. *)
Definition cursor_after (data : list Z) (i : nat) (element : Z) (c : nat)
    : Prop :=
  (element = 22 ->
     exists z : nat,
       (i + 2 <= z)%nat /\ data !! z = Some 0
       /\ (forall k, (i + 2 <= k < z)%nat ->
             exists w, data !! k = Some w /\ w <> 0)
       /\ c = (z + 1)%nat)
  /\ (element = 1 -> file_cursor data i 17 c)
  /\ (element = 2 -> file_cursor data i 13 c)
  /\ (element = 4 -> file_cursor data i 7 c)
  /\ (element <> 22 -> element <> 1 -> element <> 2 -> element <> 4 ->
      c = (i + 1)%nat).

(** ** The word image of the encoder's buffer

    The 16-bit words of the buffer [encode] produces, written out block by
    block; [encode_image] below shows that this is what the assembler
    emits.  Word 369 is the leading zero of the datestamp tag. *)
Section Image.

Definition preamble_words : list Z :=
  [80; 95; 67; 111; 110; 116; 95;
   17162; 28271; 2676;
   10; 0; 4096; 1; 0; 256; 5; 0; 1; 0; 76; 0; 2; 0; 740; 0; 5; 0; 766;
   0; 6; 0; 848; 0; 10; 0; 982].

Definition ts_words (dt : datetime) : list Z :=
  0 :: makeContTimestamp dt 5.

Definition size_words (v : Z) : list Z := words_le (le_bytes 4 v).

Definition filetime_words (ft : Z) : list Z := words_le (le_bytes 8 ft).

Definition stream_words (p : ContParams) : list Z :=
  [0; 0; 4224; 19064; 0; 0; 0; 0; 0; 0; 26570; 240; 1; 256; 32;
   0; 0; 0; 1920; 0; 1080; 0; 16; 0; 9; 0; 25; 0; 1;
   0; 128; audio_stream p; 1; 0]
  ++ size_words (audio_bitrate p)
  ++ [audio_bitdepth p; audio_channels p; audio_frequency p; 0; 4; 8448].

Definition brand_block : list Z := brand ++ repeat 0 119.
Definition device_block : list Z := device ++ repeat 0 106.

(** words 0 to 113: everything before the brand *)
Definition fixed_words (p : ContParams) : list Z :=
  preamble_words
  ++ ts_words (record_dt p) ++ ts_words (record_dt_utc p)
  ++ ts_words (file_modified p) ++ ts_words (file_created p)
  ++ [0] ++ size_words (file_size p)
  ++ stream_words p.

Definition header_words (p : ContParams) : list Z :=
  fixed_words p ++ brand_block ++ device_block ++ [0].

(** length word, leading zero, characters *)
Definition name_field (name : str) : list Z :=
  [2 * Z.of_nat (length name) + 2; 0] ++ name.

Definition datestamp_words (s : str) : list Z := [22; 0] ++ s ++ [0].

Definition video_words (size ft : Z) (name : str) : list Z :=
  [1; 0; 774; 0; 0; 0; 0; 0] ++ size_words size ++ [0; 0]
  ++ filetime_words ft ++ name_field name ++ [0].

Definition tmb_words (ft : Z) (name : str) : list Z :=
  [2; 0; 0; 0; 0; 0; 0; 0] ++ filetime_words ft ++ name_field name ++ [0].

Definition pmpd_words (ft : Z) (name : str) : list Z :=
  [4; 0] ++ filetime_words ft ++ name_field name ++ [0].

Definition cont_words (p : ContParams) (ft_m2ts ft_tmb ft_pmpd : Z)
    : list Z :=
  header_words p
  ++ datestamp_words (record_str p)
  ++ video_words (file_size p) ft_m2ts (file_name p)
  ++ tmb_words ft_tmb (tmb_file p)
  ++ pmpd_words ft_pmpd (pmpd_file p).

(** a date as the decoder gives it back: without its microseconds *)
Definition whole_seconds (t : datetime) : datetime :=
  mkDatetime (year t) (month t) (day t) (hour t) (minute t) (second t) 0.

(** a computation whose output comes after the lines [o] *)
Definition prepend {A} (o : list item) (m : M A) : M A :=
  (o ++ fst m, snd m).

Local Open Scope string_scope.

Definition header_report (p : ContParams) : list item :=
  [Text (pystr "P_Cont_"); Blank;
   HexDump (drop 7 preamble_words); IntDump (drop 7 preamble_words);
   Blank; Heading "File Metadata";
   Field "Recorded" (VDate (whole_seconds (record_dt p)));
   Field "Recorded (UTC)" (VDate (whole_seconds (record_dt_utc p)));
   Field "Last Modified" (VDate (whole_seconds (file_modified p)));
   Field "File Created" (VDate (whole_seconds (file_created p)));
   Field "File Size" (VInt (file_size p)); Blank;
   HexDump [4224; 19064; 0]%Z; IntDump [4224; 19064; 0]%Z;
   Field "Unknown Data 1" (VBin 4224);
   Field "Unknown Data 2" (VBin 19064);
   Field "Unknown Data 3" (VBin 0); Blank;
   Field "Unknown" (VInt 26570); Field "Unknown Flag" (VInt 240);
   Field "Unknown Const" (VInt 1); Field "Unknown Const" (VInt 256);
   Field "Origin (TBC)" (VSource DirectlyImported);
   Heading "Video stream (TBC)"; Field "Unknown" (VInt 0);
   Field "Frame size" (VPair 1920 1080);
   Field "Aspect ratio" (VPair 16 9); Field "Frame rate" (VInt 25);
   Field "Unknown" (VInt 1); Heading "Audio stream (TBC)";
   Field "Unknown" (VInt 128); Field "Stream ID" (VInt (audio_stream p));
   Field "Unknown" (VInt 1); Field "Bitrate" (VInt (audio_bitrate p));
   Field "Bitdepth" (VInt (audio_bitdepth p));
   Field "Channels" (VInt (audio_channels p));
   Field "Frequency" (VInt (audio_frequency p));
   Heading "Header End Fields";
   HexDump [audio_channels p; audio_frequency p; 0; 4; 8448]%Z;
   Heading "Device Information"; Rule;
   Text (brand ++ [10%Z])%list;
   Text (pystr "01" ++ [10%Z] ++ pystr "HC-V210/V110" ++ [10%Z]
         ++ pystr "00" ++ [10%Z] ++ pystr "00" ++ [10%Z])%list;
   Rule].

Definition records_report (p : ContParams) (d_m2ts d_tmb d_pmpd : datetime)
    : list item :=
  [Field "Datestamp detected" (VStr (record_str p));
   Heading "Video File"; HexDump [0; 774; 0; 0; 0; 0; 0]%Z;
   Field "File Size" (VInt (file_size p));
   Field "Creation Date" (VDate d_m2ts);
   Field "File Name" (VStr (file_name p));
   Heading "Thumbnail file"; HexDump [0; 0; 0; 0; 0; 0; 0]%Z;
   Field "Creation Date" (VDate d_tmb);
   Field "File Name" (VStr (tmb_file p));
   Heading "XML file";
   Field "Creation Date" (VDate d_pmpd);
   Field "File Name" (VStr (pmpd_file p))].

(** The parameters of the scenario of the specification: the file
    [00019.M2TS] of 54321 bytes recorded on 2019-06-01 at 10:15:30, ten
    hours ahead of UTC. *)
Definition scenario : ContParams :=
  {| file_name := pystr "00019.M2TS";
     tmb_file := pystr "00019.tmb";
     pmpd_file := pystr "00019.pmpd";
     file_size := 54321;
     record_dt := mkDatetime 2019 6 1 10 15 30 0;
     record_dt_utc := mkDatetime 2019 6 1 0 15 30 0;
     file_modified := mkDatetime 2019 6 1 10 20 0 0;
     file_created := mkDatetime 2019 6 1 10 15 30 0;
     audio_stream := 4352;
     audio_bitrate := 256000;
     audio_bitdepth := 16;
     audio_channels := 2;
     audio_frequency := 48000;
     record_str := pystr "01.06.2019";
     m2ts_creation_date := 1559348130 * one;
     tmb_creation_date := 1559348200 * one;
     pmpd_creation_date := 1559348201 * one |}.

(** the buffer of a successful encoding *)
Definition buffer_of (r : result (list Z)) : list Z :=
  match r with Ok b => b | _ => [] end.

Definition scenario_bytes : list Z := buffer_of (encode scenario).

Definition scenario_words : list Z := words_le scenario_bytes.

End Image.

(** ** Readings taken from the specification's wording

    Two definitions that follow the words of the specification rather than
    the code, to compare with [readContTimestamp] and with the cursor of
    [scan_next]. *)

(** "(year, month, flag, day, hour, minute, second) taken in order from
    the record's first seven words, the eighth being trailing padding" *)
Definition spec_timestamp_layout (record : list Z) : result datetime :=
  let! y := idx record 0 in
  let! mo := idx record 1 in
  let! d := idx record 3 in
  let! hh := idx record 4 in
  let! mm := idx record 5 in
  let! ss := idx record 6 in
  make y mo d hh mm ss.

(** "to one word past the last filename character word": the name is the
    slice [data[x : x + str_len]], whose last word has index
    [x + str_len - 1]. *)
Definition spec_file_cursor (x str_len : nat) : nat :=
  ((x + str_len - 1) + 1)%nat.

(** A stream of 62 pairwise different words. *)
Definition ramp : list Z := map Z.of_nat (seq 0 62).

(** The bytes a block contributes before any ['length'] padding. *)
Definition block_content (el : element) : result (list Z) :=
  match edata el with
  | Raw b => Ok (repeat 0 (prenul el) ++ b)
  | Chars f s | IntList f s =>
      let! b := pack_each f s [] in Ok (repeat 0 (prenul el) ++ b)
  | Int f z =>
      let! b := struct_pack f z in Ok (repeat 0 (prenul el) ++ b)
  end.

(** The bytes of a list of blocks, block after block. *)
Fixpoint contents (blocks : list element) : result (list Z) :=
  match blocks with
  | [] => Ok []
  | el :: rest =>
      let! c := block_content el in
      let! r := contents rest in
      Ok (c ++ match elength el with
               | Some len => repeat 0 (len - length c)
               | None => []
               end ++ r)
  end.

(** The same bytes when every value fits its format, without the
    checks, and the condition that makes the checks pass. *)
Definition payload_bytes (d : payload) : list Z :=
  match d with
  | Raw b => b
  | Chars f s | IntList f s => flat_map (le_bytes (fmt_size f)) s
  | Int f z => le_bytes (fmt_size f) z
  end.

Definition payload_fits (d : payload) : Prop :=
  match d with
  | Raw b => True
  | Chars f s | IntList f s => Forall (fun v => 0 <= v < fmt_bound f) s
  | Int f z => 0 <= z < fmt_bound f
  end.

Definition block_bytes (el : element) : list Z :=
  let c := repeat 0 (prenul el) ++ payload_bytes (edata el) in
  c ++ match elength el with
       | Some len => repeat 0 (len - length c)
       | None => []
       end.

(** A character the decoder gives back unchanged: a code point of the
    basic plane other than NUL. *)
Definition is_char (c : Z) : Prop := 1 <= c < 65536.

(** Parameters the encoder accepts: dates that are dates, sizes and
    stream fields that fit their formats, names and date string without
    NUL, names short enough for their 16-bit length prefix. *)
Record wf_params (p : ContParams) : Prop := {
  wf_record_dt : valid (record_dt p);
  wf_record_dt_utc : valid (record_dt_utc p);
  wf_file_modified : valid (file_modified p);
  wf_file_created : valid (file_created p);
  wf_file_size : 0 <= file_size p < 4294967296;
  wf_audio_stream : is_word (audio_stream p);
  wf_audio_bitrate : 0 <= audio_bitrate p < 4294967296;
  wf_audio_bitdepth : is_word (audio_bitdepth p);
  wf_audio_channels : is_word (audio_channels p);
  wf_audio_frequency : is_word (audio_frequency p);
  wf_record_str : Forall is_char (record_str p);
  wf_file_name : Forall is_char (file_name p);
  wf_tmb_file : Forall is_char (tmb_file p);
  wf_pmpd_file : Forall is_char (pmpd_file p);
  wf_record_str_len : Z.of_nat (length (record_str p)) < 32767;
  wf_file_name_len : Z.of_nat (length (file_name p)) < 32767;
  wf_tmb_file_len : Z.of_nat (length (tmb_file p)) < 32767;
  wf_pmpd_file_len : Z.of_nat (length (pmpd_file p)) < 32767
}.

(** The timestamps for which the detection finds the header length 37 of
    the encoder's layout: the preamble holds the words 0, 6 at offsets 29,
    30 and 10, 0 at offsets 34, 35, which a recording year 6, or the hours
    of the first three timestamps all equal to 10 with a recording minute
    0, would match. *)
Definition header_found (p : ContParams) : Prop :=
  year (record_dt p) <> 6
  /\ ~ (hour (record_dt p) = 10 /\ hour (record_dt_utc p) = 10
        /\ hour (file_modified p) = 10 /\ minute (record_dt p) = 0).

(** The three creation times give FILETIMEs that fit 64 bits and that the
    decoder can turn into dates. *)
Definition filetime_ok (unix_time : pyfloat) (ft : Z) (d : datetime) : Prop :=
  makeWindowsFiletime unix_time = Ok ft
  /\ 0 <= ft < 18446744073709551616
  /\ filetimeToTimestamp (filetime_words ft) = Ok d.

(** [r] raises no exception outside [P]. *)
Definition raises_only {A} (P : exn -> Prop) (r : result A) : Prop :=
  forall e, r = Raise e -> P e.

(** The exceptions the decoder can end with: an index past the end, a
    date field out of range, a date or a float out of range, a text the
    console cannot write. *)
Definition decoder_exn (e : exn) : Prop :=
  e = IndexError \/ e = ValueError \/ e = OverflowError
  \/ e = UnicodeEncodeError.

(** The file records: tag, number of words before the name, offset of
    the FILETIME. *)
Definition file_records : list (Z * nat * nat) :=
  [(1, 17%nat, 12%nat); (2, 13%nat, 8%nat); (4, 7%nat, 2%nat)].

(** A payload with a value that does not fit its format. *)
Definition payload_overflows (d : payload) : Prop :=
  match d with
  | Raw b => False
  | Chars f s | IntList f s => Exists (fun v => ~ 0 <= v < fmt_bound f) s
  | Int f z => ~ 0 <= z < fmt_bound f
  end.

(** The blocks of a [file_structure] that could be built. *)
Definition blocks_of (r : result (list element)) : list element :=
  match r with Ok blocks => blocks | _ => [] end.

Definition scenario_blocks : list element :=
  blocks_of (file_structure scenario).

(** The scenario with a file name of 32767 characters, whose length in
    bytes, 65536 with the leading zero word, does not fit 16 bits. *)
Definition scenario_long_name : ContParams :=
  {| file_name := repeat 97 (Z.to_nat 32767);
     tmb_file := tmb_file scenario;
     pmpd_file := pmpd_file scenario;
     file_size := file_size scenario;
     record_dt := record_dt scenario;
     record_dt_utc := record_dt_utc scenario;
     file_modified := file_modified scenario;
     file_created := file_created scenario;
     audio_stream := audio_stream scenario;
     audio_bitrate := audio_bitrate scenario;
     audio_bitdepth := audio_bitdepth scenario;
     audio_channels := audio_channels scenario;
     audio_frequency := audio_frequency scenario;
     record_str := record_str scenario;
     m2ts_creation_date := m2ts_creation_date scenario;
     tmb_creation_date := tmb_creation_date scenario;
     pmpd_creation_date := pmpd_creation_date scenario |}.

(** A console that writes ASCII, and parameters whose texts the console
    can write: the decoder prints the date string and the three names. *)
Definition writes_ascii `{Console} : Prop :=
  forall c, 0 <= c < 128 -> encodes c = true.

Definition params_printable `{Console} (p : ContParams) : Prop :=
  encodable (record_str p) = true /\ encodable (file_name p) = true
  /\ encodable (tmb_file p) = true /\ encodable (pmpd_file p) = true.
(** ** Cases and vocabulary of the further properties *)

(** A clip recorded at 10:00:30 on a machine whose clock runs on UTC:
    the hours of the first three timestamps are 10 and the recording
    minute is 0. *)
Definition scenario_ten : ContParams :=
  {| file_name := pystr "00020.M2TS";
     tmb_file := pystr "00020.tmb";
     pmpd_file := pystr "00020.pmpd";
     file_size := 54321;
     record_dt := mkDatetime 2019 6 1 10 0 30 0;
     record_dt_utc := mkDatetime 2019 6 1 10 0 30 0;
     file_modified := mkDatetime 2019 6 1 10 20 0 0;
     file_created := mkDatetime 2019 6 1 10 0 30 0;
     audio_stream := 4352;
     audio_bitrate := 256000;
     audio_bitdepth := 16;
     audio_channels := 2;
     audio_frequency := 48000;
     record_str := pystr "01.06.2019";
     m2ts_creation_date := 1559383230 * one;
     tmb_creation_date := 1559383300 * one;
     pmpd_creation_date := 1559383301 * one |}.

(** The host that gives these parameters. *)
Definition host_ten : host :=
  {| h_path := pystr "clips/00020.M2TS";
     h_exists := true;
     h_fname := pystr "00020.M2TS";
     h_fbase := pystr "00020";
     h_creation_date := 1559383230 * one;
     h_file_created := mkDatetime 2019 6 1 10 0 30 0;
     h_file_modified := mkDatetime 2019 6 1 10 20 0 0;
     h_file_size := 54321;
     h_now := mkDatetime 2019 6 2 9 0 0 0;
     h_utcnow := mkDatetime 2019 6 2 9 0 0 0;
     h_strftime_dmy := fun _ => pystr "01.06.2019";
     h_tmb_template := true;
     h_pmpd_template := Some (pystr "<xml/>");
     h_tmb_creation_date := 1559383300 * one;
     h_pmpd_creation_date := 1559383301 * one |}.

(** The scenario with a video of 4 GiB. *)
Definition scenario_4gib : ContParams :=
  {| file_name := file_name scenario;
     tmb_file := tmb_file scenario;
     pmpd_file := pmpd_file scenario;
     file_size := 4294967296;
     record_dt := record_dt scenario;
     record_dt_utc := record_dt_utc scenario;
     file_modified := file_modified scenario;
     file_created := file_created scenario;
     audio_stream := audio_stream scenario;
     audio_bitrate := audio_bitrate scenario;
     audio_bitdepth := audio_bitdepth scenario;
     audio_channels := audio_channels scenario;
     audio_frequency := audio_frequency scenario;
     record_str := record_str scenario;
     m2ts_creation_date := m2ts_creation_date scenario;
     tmb_creation_date := tmb_creation_date scenario;
     pmpd_creation_date := pmpd_creation_date scenario |}.

(** Fields of text, each followed by a run of one NUL or more, as a
    fixed-width block holds them, and the lines they are printed as. *)
Definition padded (parts : list (str * nat)) : list Z :=
  flat_map (fun f => fst f ++ repeat 0 (S (snd f))) parts.

Definition lines (parts : list (str * nat)) : str :=
  flat_map (fun f => fst f ++ [10]) parts.

(** A text of a field: not empty, made of characters, not ended by a
    newline. *)
Definition is_text (s : str) : Prop :=
  s <> [] /\ Forall is_char s /\ last s <> Some 10.

(** What the host has to provide for [buildMetadata] to reach the
    encoder: the file, the two templates, and names the console can
    write. *)
Definition host_ready `{Console} (h : host) : Prop :=
  h_exists h = true /\ h_tmb_template h = true
  /\ h_pmpd_template h <> None
  /\ encodable (h_fname h) = true /\ encodable (h_fbase h) = true.

(** * Facts

    ** Binary64: the cases where rounding is exact *)
Section FloatFacts.

Lemma rhe_exact k d : 0 < d -> rhe (k * d) d = k.
Proof.
  intros Hd. unfold rhe.
  rewrite Z.div_mul by lia. rewrite Z.mod_mul by lia.
  destruct (2 * 0 <? d) eqn:E; [reflexivity|]. apply Z.ltb_ge in E. lia.
Qed.

Lemma round53_pos_exact b k j :
  0 < b -> 0 <= k < 2 ^ 53 -> 0 <= j ->
  round53_pos (b * k * 2 ^ j) b = k * 2 ^ j.
Proof.
  intros Hb Hk Hj. unfold round53_pos.
  replace (b * k * 2 ^ j) with (k * 2 ^ j * b) by ring.
  rewrite Z.div_mul by lia.
  set (s := Z.max (Z.log2 (k * 2 ^ j) - 52) 0).
  assert (Hs : 0 <= s <= j).
  { subst s. split; [lia|].
    destruct (Z.eq_dec k 0) as [->|Hk0].
    - rewrite Z.mul_0_l. simpl. lia.
    - rewrite Z.log2_mul_pow2 by lia.
      assert (Z.log2 k < 53) by (apply Z.log2_lt_pow2; lia). lia. }
  replace (k * 2 ^ j * b) with (k * 2 ^ (j - s) * (b * 2 ^ s)).
  - rewrite rhe_exact by (apply Z.mul_pos_pos; [lia | apply Z.pow_pos_nonneg; lia]).
    rewrite <- Z.mul_assoc, <- Z.pow_add_r by lia. f_equal. f_equal. lia.
  - replace j with ((j - s) + s) at 2 by lia. rewrite Z.pow_add_r by lia. ring.
Qed.

Lemma round53_exact b k j :
  0 < b -> Z.abs k < 2 ^ 53 -> 0 <= j ->
  round53 (b * k * 2 ^ j) b = k * 2 ^ j.
Proof.
  intros Hb Hk Hj. unfold round53.
  assert (Hp : 0 < 2 ^ j) by (apply Z.pow_pos_nonneg; lia).
  destruct (b * k * 2 ^ j <? 0) eqn:E.
  - apply Z.ltb_lt in E.
    replace (- (b * k * 2 ^ j)) with (b * (- k) * 2 ^ j) by ring.
    rewrite round53_pos_exact; [ring | lia | | lia].
    assert (k < 0) by nia. lia.
  - apply Z.ltb_ge in E.
    apply round53_pos_exact; [lia | | lia].
    assert (0 <= k) by nia. lia.
Qed.

Lemma of_rat_exact num den k j :
  0 < den -> Z.abs k < 2 ^ 53 -> 0 <= j -> j <= 2000 ->
  num * one = den * k * 2 ^ j ->
  of_rat num den = Some (k * 2 ^ j).
Proof.
  intros Hd Hk Hj Hj' E. unfold of_rat. rewrite E.
  rewrite round53_exact by assumption.
  assert (Z.abs (k * 2 ^ j) < huge); [|
    destruct (Z.abs (k * 2 ^ j) <? huge) eqn:F;
      [reflexivity | apply Z.ltb_ge in F; lia]].
  rewrite Z.abs_mul. rewrite (Z.abs_eq (2 ^ j)) by (apply Z.pow_nonneg; lia).
  assert (2 ^ j <= 2 ^ 2000) by (apply Z.pow_le_mono_r; lia).
  assert (2 ^ 53 * 2 ^ 2000 < huge) by (vm_compute; reflexivity).
  assert (0 < 2 ^ j) by (apply Z.pow_pos_nonneg; lia).
  nia.
Qed.
End FloatFacts.

Section RevengFacts.

Lemma truediv_half n :
  0 <= n < 2 ^ 53 -> truediv n 2 = Ok (n * 2 ^ 1073).
Proof.
  intros Hn. unfold truediv. simpl (0 <? 2).
  rewrite (of_rat_exact n 2 n 1073); try lia; [reflexivity|].
  unfold one, unit_exp. replace 1074 with (1 + 1073) by lia.
  rewrite Z.pow_add_r by lia. ring.
Qed.

Lemma floor_half n : floor (n * 2 ^ 1073) = n / 2.
Proof.
  unfold floor, one, unit_exp. replace 1074 with (1 + 1073) by lia.
  rewrite Z.pow_add_r by lia. change (2 ^ 1) with 2.
  rewrite Z.div_mul_cancel_r; [reflexivity | lia |].
  apply Z.pow_nonzero; lia.
Qed.

Lemma to_int_half n : 0 <= n -> to_int (n * 2 ^ 1073) = n / 2.
Proof.
  intros Hn. unfold to_int. rewrite Z.quot_div_nonneg.
  - apply floor_half.
  - apply Z.mul_nonneg_nonneg; [lia | apply Z.pow_nonneg; lia].
  - unfold one. apply Z.pow_pos_nonneg; unfold unit_exp; lia.
Qed.

Lemma list_pair_ind (P : list Z -> Prop) :
  P [] -> (forall x, P [x]) ->
  (forall x y l, P l -> P (x :: y :: l)) -> forall l, P l.
Proof.
  intros H0 H1 H2.
  fix IH 1. intros [|x [|y l]]; [exact H0 | apply H1 | apply H2, IH].
Qed.

Lemma fromfile_all sys unsigned file :
  fromfile sys unsigned (Nat.div2 (length file)) file
  = Ok (native_items sys unsigned file).
Proof.
  induction file as [|x|x y l IH] using list_pair_ind; try reflexivity.
  change (length (x :: y :: l)) with (S (S (length l))).
  cbn [Nat.div2 fromfile native_items]. rewrite IH. reflexivity.
Qed.

Lemma native_items_snoc sys unsigned file b :
  Nat.Even (length file) ->
  native_items sys unsigned (file ++ [b]) = native_items sys unsigned file.
Proof.
  induction file as [|x|x y l IH] using list_pair_ind; intros He.
  - reflexivity.
  - destruct He as [k Hk]. simpl in Hk. lia.
  - cbn [app native_items]. f_equal. apply IH.
    destruct He as [k Hk]. simpl in Hk. exists (k - 1)%nat. lia.
Qed.

Lemma length_native_items sys unsigned file :
  length (native_items sys unsigned file) = Nat.div2 (length file).
Proof.
  induction file as [|x|x y l IH] using list_pair_ind; try reflexivity.
  cbn [native_items length Nat.div2]. rewrite IH. reflexivity.
Qed.

Lemma readFile16_items sys file endian_ unsigned :
  Z.of_nat (length file) < 2 ^ 53 ->
  readFile16 sys file endian_ unsigned
  = Ok (if endian_eqb endian_ sys then native_items sys unsigned file
        else map (byteswap16 unsigned) (native_items sys unsigned file)).
Proof.
  intros Hlen. unfold readFile16.
  rewrite truediv_half by lia. cbn [bindR]. rewrite floor_half.
  replace (Z.to_nat (Z.of_nat (length file) / 2))
    with (Nat.div2 (length file)).
  - rewrite fromfile_all. reflexivity.
  - rewrite Nat.div2_div. rewrite <- (Nat2Z.id (length file / 2)).
    rewrite Nat2Z.inj_div. reflexivity.
Qed.

(** [array.byteswap] turns the items of one byte order into those of
    the other. *)
Lemma byteswap16_item16 unsigned b0 b1 :
  is_byte b0 -> is_byte b1 ->
  byteswap16 unsigned (item16 Big unsigned b0 b1)
  = item16 Little unsigned b0 b1
  /\ byteswap16 unsigned (item16 Little unsigned b0 b1)
     = item16 Big unsigned b0 b1.
Proof.
  unfold is_byte. intros H0 H1.
  assert (S : forall x y, 0 <= x < 256 -> 0 <= y < 256 ->
            forall v, v = x + 256 * y \/ v = x + 256 * y - 65536 ->
            (v mod 65536 mod 256) * 256 + v mod 65536 / 256
            = y + 256 * x).
  { intros x y Hx Hy v Hv.
    assert (E : v mod 65536 = x + 256 * y).
    { destruct Hv as [-> | ->].
      - apply Z.mod_small. lia.
      - replace (x + 256 * y - 65536) with (x + 256 * y + (-1) * 65536)
          by ring.
        rewrite Z.mod_add by lia. apply Z.mod_small. lia. }
    rewrite E. replace (x + 256 * y) with (x + y * 256) by ring.
    rewrite Z.mod_add, Z.div_add by lia.
    rewrite Z.mod_small, Z.div_small by lia. ring. }
  unfold byteswap16, item16. split.
  - rewrite (S b1 b0 H1 H0)
      by (destruct (unsigned || (b1 + 256 * b0 <? 32768)); auto).
    reflexivity.
  - rewrite (S b0 b1 H0 H1)
      by (destruct (unsigned || (b0 + 256 * b1 <? 32768)); auto).
    reflexivity.
Qed.

Lemma native_items_swap unsigned file :
  Forall is_byte file ->
  map (byteswap16 unsigned) (native_items Big unsigned file)
  = native_items Little unsigned file
  /\ map (byteswap16 unsigned) (native_items Little unsigned file)
     = native_items Big unsigned file.
Proof.
  induction file as [|x|x y l IH] using list_pair_ind; intros Hb;
    try (split; reflexivity).
  inversion Hb as [|? ? Hx Hb']; subst.
  inversion Hb' as [|? ? Hy Hl]; subst.
  destruct (IH Hl) as [IH1 IH2].
  destruct (byteswap16_item16 unsigned x y Hx Hy) as [E1 E2].
  cbn [native_items map]. rewrite E1, E2, IH1, IH2. split; reflexivity.
Qed.

(** What [readFile16] returns is the items of the file in the byte
    order asked for, whatever the byte order of the machine. *)
Lemma readFile16_endian sys file endian_ unsigned :
  Forall is_byte file -> Z.of_nat (length file) < 2 ^ 53 ->
  readFile16 sys file endian_ unsigned
  = Ok (native_items endian_ unsigned file).
Proof.
  intros Hb Hlen. rewrite readFile16_items by exact Hlen.
  destruct (native_items_swap unsigned file Hb) as [E1 E2].
  destruct sys, endian_; cbn [endian_eqb]; rewrite ?E1, ?E2; reflexivity.
Qed.

Lemma native_items_lookup sys unsigned file : forall k b0 b1,
  file !! (2 * k)%nat = Some b0 -> file !! (2 * k + 1)%nat = Some b1 ->
  native_items sys unsigned file !! k = Some (item16 sys unsigned b0 b1).
Proof.
  induction file as [|x|x y l IH] using list_pair_ind; intros k b0 b1 H0 H1.
  - discriminate.
  - destruct k as [|k]; [discriminate H1|].
    replace (2 * S k)%nat with (S (S (2 * k))) in H0 by lia.
    discriminate.
  - destruct k as [|k].
    + cbn in H0, H1. injection H0 as <-. injection H1 as <-. reflexivity.
    + replace (2 * S k)%nat with (S (S (2 * k))) in H0 by lia.
      replace (2 * S k + 1)%nat with (S (S (2 * k + 1))) in H1 by lia.
      cbn [native_items]. apply (IH k b0 b1 H0 H1).
Qed.

(** C10. A file of odd length is loaded without error.  [readFile16]
    returns floor(length / 2) words: word [k] is made of the bytes
    [2k] and [2k + 1] of the file in the byte order asked for (as a
    signed value when [unsigned] is off), whatever the byte order of the
    machine; the last byte is never looked at, and the result is that of
    the file without it.  (The count goes through a float division,
    exact for every file below 2^53 bytes.) *)
Theorem readFile16_odd_length sys file b endian_ unsigned :
  Forall is_byte file ->
  Nat.Even (length file) ->
  Z.of_nat (length (file ++ [b])) < 2 ^ 53 ->
  exists ws,
    readFile16 sys (file ++ [b]) endian_ unsigned = Ok ws
    /\ length ws = (length (file ++ [b]) / 2)%nat
    /\ (forall k b0 b1,
          file !! (2 * k)%nat = Some b0 ->
          file !! (2 * k + 1)%nat = Some b1 ->
          ws !! k
          = Some (let u := match endian_ with
                           | Little => b0 + 256 * b1
                           | Big => b1 + 256 * b0
                           end in
                  if unsigned || (u <? 32768) then u else u - 65536))
    /\ readFile16 sys file endian_ unsigned = Ok ws.
Proof.
  intros Hb He Hlen.
  assert (Hlen' : Z.of_nat (length file) < 2 ^ 53)
    by (rewrite length_app in Hlen; simpl in Hlen; lia).
  exists (native_items endian_ unsigned file).
  split; [|split; [|split]].
  - rewrite readFile16_items by exact Hlen.
    rewrite native_items_snoc by exact He.
    rewrite <- (readFile16_items sys file endian_ unsigned Hlen').
    apply readFile16_endian; assumption.
  - rewrite length_native_items, length_app. cbn [length].
    destruct He as [k Hk]. rewrite Hk, Nat.div2_div.
    replace (2 * k + 1)%nat with (1 + k * 2)%nat by lia.
    replace (2 * k)%nat with (k * 2)%nat by lia.
    rewrite Nat.div_add, Nat.div_mul by lia. reflexivity.
  - intros k b0 b1 H0 H1.
    exact (native_items_lookup endian_ unsigned file k b0 b1 H0 H1).
  - apply readFile16_endian; assumption.
Qed.

Lemma readFile16_odd_length_witness :
  (Forall is_byte [227; 7; 6; 128]
   /\ Nat.Even (length [227; 7; 6; 128])
   /\ Z.of_nat (length ([227; 7; 6; 128] ++ [5])) < 2 ^ 53)
  /\ exists ws,
       readFile16 Big ([227; 7; 6; 128] ++ [5]) Little false = Ok ws
       /\ length ws = (length ([227; 7; 6; 128] ++ [5]) / 2)%nat
       /\ (forall k b0 b1,
             [227; 7; 6; 128] !! (2 * k)%nat = Some b0 ->
             [227; 7; 6; 128] !! (2 * k + 1)%nat = Some b1 ->
             ws !! k
             = Some (let u := match Little with
                              | Little => b0 + 256 * b1
                              | Big => b1 + 256 * b0
                              end in
                     if false || (u <? 32768) then u else u - 65536))
       /\ readFile16 Big [227; 7; 6; 128] Little false = Ok ws.
Proof.
  assert (Hb : Forall is_byte [227; 7; 6; 128])
    by (repeat constructor; unfold is_byte; lia).
  assert (He : Nat.Even (length [227; 7; 6; 128]))
    by (exists 2%nat; reflexivity).
  assert (Hl : Z.of_nat (length ([227; 7; 6; 128] ++ [5])) < 2 ^ 53)
    by (vm_compute; reflexivity).
  split; [split; [|split]; assumption|].
  exact (readFile16_odd_length Big [227; 7; 6; 128] 5 Little false
           Hb He Hl).
Defined.

End RevengFacts.

Section FiletimeFacts.

Lemma item16_little sys b0 b1 :
  is_byte b0 -> is_byte b1 ->
  (if endian_eqb Little sys then item16 sys true b0 b1
   else byteswap16 true (item16 sys true b0 b1)) = b0 + 256 * b1.
Proof.
  unfold is_byte. intros H0 H1.
  destruct sys; cbn [endian_eqb item16 byteswap16 orb]; [reflexivity|].
  rewrite (Z.mod_small (b1 + 256 * b0) 65536) by lia.
  replace (b1 + 256 * b0) with (b1 + b0 * 256) by ring.
  rewrite Z.mod_add, Z.div_add by lia.
  rewrite Z.mod_small, Z.div_small by lia. ring.
Qed.

Lemma native_items_little sys file :
  Forall is_byte file ->
  (if endian_eqb Little sys then native_items sys true file
   else map (byteswap16 true) (native_items sys true file))
  = words_le file.
Proof.
  induction file as [|x|x y l IH] using list_pair_ind; intros Hb.
  - destruct sys; reflexivity.
  - destruct sys; reflexivity.
  - inversion Hb as [|? ? Hx Hb']; subst.
    inversion Hb' as [|? ? Hy Hl]; subst.
    specialize (IH Hl). pose proof (item16_little sys x y Hx Hy) as E.
    destruct sys; cbn [endian_eqb] in *; cbn [native_items map words_le];
      rewrite E, IH; reflexivity.
Qed.

Lemma readFile16_little sys file :
  Forall is_byte file -> Z.of_nat (length file) < 2 ^ 53 ->
  readFile16 sys file Little true = Ok (words_le file).
Proof.
  intros Hb Hlen. rewrite readFile16_items by assumption.
  rewrite native_items_little by assumption. reflexivity.
Qed.

Lemma le_bytes_is_byte n v : Forall is_byte (le_bytes n v).
Proof.
  revert v. induction n as [|n IH]; intros v; cbn [le_bytes]; constructor.
  - unfold is_byte. apply Z.mod_pos_bound. lia.
  - apply IH.
Qed.

Lemma length_le_bytes n v : length (le_bytes n v) = n.
Proof. revert v. induction n; intros; cbn [le_bytes length]; auto. Qed.

Lemma of_int_exact t : Z.abs t < 2 ^ 53 -> of_int t = Some (t * one).
Proof.
  intros Ht. unfold of_int.
  rewrite (of_rat_exact t 1 t 1074); try lia; [reflexivity|].
  unfold one, unit_exp. ring.
Qed.

Lemma makeWindowsFiletime_seconds t :
  Z.abs t * 78125 < 2 ^ 53 ->
  makeWindowsFiletime (t * one)
  = Ok (116444736000000000 + t * 10000000).
Proof.
  intros Ht. unfold makeWindowsFiletime, mul.
  replace (t * one * (10000000 * one))
    with (one * (t * 78125) * 2 ^ 1081).
  2:{ unfold one, unit_exp. replace 1081 with (7 + 1074) by lia.
      rewrite Z.pow_add_r by lia. change (2 ^ 7) with 128. ring. }
  rewrite round53_exact; [| unfold one; apply Z.pow_pos_nonneg;
                            unfold unit_exp; lia | | lia].
  2:{ rewrite Z.abs_mul. change (Z.abs 78125) with 78125. lia. }
  assert (E : t * 78125 * 2 ^ 1081 = t * 10000000 * one).
  { unfold one, unit_exp. replace 1081 with (7 + 1074) by lia.
    rewrite Z.pow_add_r by lia. change (2 ^ 7) with 128. ring. }
  rewrite E.
  assert (B : Z.abs (t * 10000000 * one) < huge).
  { rewrite !Z.abs_mul. change (Z.abs 10000000) with 10000000.
    assert (0 < one) by (vm_compute; reflexivity).
    rewrite (Z.abs_eq one) by lia.
    assert (2 ^ 53 * 10000000 * one < huge) by (vm_compute; reflexivity).
    nia. }
  apply Z.ltb_lt in B. rewrite B.
  unfold to_int. rewrite Z.quot_mul; [reflexivity|].
  vm_compute. discriminate.
Qed.
End FiletimeFacts.

Section FiletimeDecode.

Lemma filetimeToTimestamp_words ft :
  0 <= ft < 2 ^ 64 ->
  filetimeToTimestamp (words_le (le_bytes 8 ft))
  = (let! usecs := truediv ft 10 in
     add_usec (mkDatetime 1601 1 1 0 0 0 0) (round_int usecs)).
Proof.
  intros Hft. unfold filetimeToTimestamp.
  cbn [le_bytes words_le idx lookup list_lookup bindR].
  rewrite !Z.shiftl_mul_pow2 by lia.
  match goal with
  | |- context [truediv ?e 10] => replace e with ft
  end; [reflexivity|].
  change (2 ^ 48) with 281474976710656. change (2 ^ 32) with 4294967296.
  change (2 ^ 16) with 65536. change (2 ^ 64) with 18446744073709551616 in Hft.
  Z.div_mod_to_equations. lia.
Qed.

Lemma truediv_usecs s :
  0 <= s -> s * 15625 < 2 ^ 53 ->
  truediv (s * 10000000) 10 = Ok (s * 1000000 * one).
Proof.
  intros H0 Hs. unfold truediv. simpl (0 <? 10).
  assert (E : s * 15625 * 2 ^ 1080 = s * 1000000 * one).
  { unfold one, unit_exp.
    replace 1080 with (6 + 1074) by lia. rewrite Z.pow_add_r by lia.
    change (2 ^ 6) with 64. ring. }
  rewrite (of_rat_exact _ 10 (s * 15625) 1080);
    [rewrite E; reflexivity | lia | lia | lia | lia |].
  replace (10 * (s * 15625) * 2 ^ 1080)
    with (10 * (s * 15625 * 2 ^ 1080)) by ring.
  rewrite E. ring.
Qed.

Lemma round_int_whole z : round_int (z * one) = z.
Proof. apply rhe_exact. vm_compute. reflexivity. Qed.

Lemma add_usec_shift us :
  -11644473600 * 1000000 <= us <= 200000000000 * 1000000 ->
  add_usec (mkDatetime 1601 1 1 0 0 0 0) (us + 11644473600 * 1000000)
  = add_usec (mkDatetime 1970 1 1 0 0 0 0) us.
Proof.
  intros Hus. unfold add_usec.
  assert (Hd : usec_per_day = 86400000000) by reflexivity.
  assert (E1 : (999999999 <?
            Z.abs ((us + 11644473600 * 1000000) / usec_per_day)) = false).
  { apply Z.ltb_ge. rewrite Hd. apply Z.abs_le.
    split; [apply Z.le_trans with 0; [lia | apply Z.div_pos; lia]|].
    apply Z.div_le_upper_bound; lia. }
  assert (E2 : (999999999 <? Z.abs (us / usec_per_day)) = false).
  { apply Z.ltb_ge. rewrite Hd. apply Z.abs_le. split.
    - apply Z.div_le_lower_bound; lia.
    - apply Z.div_le_upper_bound; lia. }
  rewrite E1, E2.
  replace (to_usec (mkDatetime 1601 1 1 0 0 0 0)
           + (us + 11644473600 * 1000000))
    with (to_usec (mkDatetime 1970 1 1 0 0 0 0) + us);
    [reflexivity|].
  change (to_usec (mkDatetime 1970 1 1 0 0 0 0)) with 62135683200000000.
  change (to_usec (mkDatetime 1601 1 1 0 0 0 0)) with 50491209600000000.
  lia.
Qed.

Lemma utc_of_unix_defined t :
  -11644473600 <= t <= 115292150460 -> exists dt, utc_of_unix t = Ok dt.
Proof.
  intros Ht. unfold utc_of_unix, add_usec.
  assert (Hd : usec_per_day = 86400000000) by reflexivity.
  assert (E2 : (999999999 <? Z.abs (t * 1000000 / usec_per_day)) = false).
  { apply Z.ltb_ge. rewrite Hd. apply Z.abs_le. split.
    - apply Z.div_le_lower_bound; lia.
    - apply Z.div_le_upper_bound; lia. }
  rewrite E2.
  change (to_usec (mkDatetime 1970 1 1 0 0 0 0)) with 62135683200000000.
  set (days := (62135683200000000 + t * 1000000) / usec_per_day).
  assert (Hdays : 0 < days <= MAXORDINAL).
  { subst days. rewrite Hd. unfold MAXORDINAL. split.
    - apply Z.div_str_pos. lia.
    - apply Z.div_le_upper_bound; lia. }
  replace ((0 <? days) && (days <=? MAXORDINAL)) with true.
  - destruct (ord2ymd days) as [[y m] d]. eexists. reflexivity.
  - symmetry. apply andb_true_iff. split; [apply Z.ltb_lt | apply Z.leb_le]; lia.
Qed.

(** C4, as the code has it.  For a Unix time of whole seconds between
    1601-01-01 and 5623-06-18 the FILETIME is 116444736000000000 +
    10^7 t exactly, and packing it, loading it and converting it back
    gives the calendar reading of [t]; the FILETIME of the Unix epoch is
    116444736000000000.  Both directions compute in binary64, which is
    exact on this range. *)
Theorem filetime_roundtrip_seconds (sys : endian) (t : Z) :
  -11644473600 <= t <= 115292150460 ->
  of_int t = Some (t * one)
  /\ makeWindowsFiletime (t * one)
     = Ok (116444736000000000 + t * 10000000)
  /\ (exists dt, utc_of_unix t = Ok dt /\ unix_roundtrip sys t = Ok dt)
  /\ makeWindowsFiletime 0 = Ok 116444736000000000.
Proof.
  intros Ht.
  assert (E1 : of_int t = Some (t * one))
    by (apply of_int_exact; change (2 ^ 53) with 9007199254740992; lia).
  assert (E2 : makeWindowsFiletime (t * one)
               = Ok (116444736000000000 + t * 10000000))
    by (apply makeWindowsFiletime_seconds;
        change (2 ^ 53) with 9007199254740992; lia).
  split; [exact E1|]. split; [exact E2|]. split; [|reflexivity].
  destruct (utc_of_unix_defined t Ht) as [dt Hdt].
  exists dt. split; [exact Hdt|]. rewrite <- Hdt.
  unfold unix_roundtrip. rewrite E1, E2.
  cbn [bindR]. unfold struct_pack.
  set (ft := 116444736000000000 + t * 10000000).
  assert (Hft : 0 <= ft < 2 ^ 64)
    by (subst ft; change (2 ^ 64) with 18446744073709551616; lia).
  replace ((0 <=? ft) && (ft <? fmt_bound fmtl)) with true.
  2:{ symmetry. apply andb_true_iff.
      split; [apply Z.leb_le | apply Z.ltb_lt]; [lia|].
      change (fmt_bound fmtl) with (2 ^ 64). lia. }
  cbn [bindR fmt_size].
  rewrite readFile16_little;
    [| apply le_bytes_is_byte | rewrite length_le_bytes; reflexivity].
  cbn [bindR]. rewrite filetimeToTimestamp_words by exact Hft.
  replace ft with ((t + 11644473600) * 10000000) by (subst ft; lia).
  rewrite truediv_usecs
    by (change (2 ^ 53) with 9007199254740992; lia).
  cbn [bindR]. rewrite round_int_whole.
  replace ((t + 11644473600) * 1000000)
    with (t * 1000000 + 11644473600 * 1000000) by ring.
  apply add_usec_shift. lia.
Qed.

Lemma filetime_roundtrip_seconds_witness :
  -11644473600 <= 1559348130 <= 115292150460
  /\ (of_int 1559348130 = Some (1559348130 * one)
      /\ makeWindowsFiletime (1559348130 * one)
         = Ok (116444736000000000 + 1559348130 * 10000000)
      /\ (exists dt, utc_of_unix 1559348130 = Ok dt
                     /\ unix_roundtrip Little 1559348130 = Ok dt)
      /\ makeWindowsFiletime 0 = Ok 116444736000000000).
Proof.
  assert (H : -11644473600 <= 1559348130 <= 115292150460) by lia.
  split; [exact H|].
  exact (filetime_roundtrip_seconds Little 1559348130 H).
Defined.

(** C4 as stated fails on the code: the Unix time 115292150461 (an odd
    second of the year 5623) is not recovered.  The float product
    [unix_time * 10000000] is a tie between two binary64 numbers and
    loses 12.8 microseconds. *)
Lemma filetime_roundtrip_inexact :
  unix_roundtrip Little 115292150461
  = Ok (mkDatetime 5623 6 18 21 21 0 999984)
  /\ utc_of_unix 115292150461 = Ok (mkDatetime 5623 6 18 21 21 1 0)
  /\ unix_roundtrip Little 115292150461 <> utc_of_unix 115292150461.
Proof.
  assert (E1 : unix_roundtrip Little 115292150461
               = Ok (mkDatetime 5623 6 18 21 21 0 999984))
    by (vm_compute; reflexivity).
  assert (E2 : utc_of_unix 115292150461
               = Ok (mkDatetime 5623 6 18 21 21 1 0))
    by (vm_compute; reflexivity).
  split; [exact E1|]. split; [exact E2|].
  rewrite E1, E2. discriminate.
Qed.

End FiletimeDecode.

(** ** Header-length detection *)
Section DetectionFacts.
Local Open Scope nat_scope.

Lemma idx_Ok data k w : idx data k = Ok w <-> data !! k = Some w.
Proof. unfold idx. destruct (data !! k); split; congruence. Qed.

Lemma idx_Raise data k e :
  idx data k = Raise e <-> e = IndexError /\ length data <= k.
Proof.
  unfold idx. destruct (data !! k) eqn:E.
  - apply lookup_lt_Some in E. split; [discriminate | lia].
  - apply lookup_ge_None in E. split; [intros [= <-]; auto | intros [-> _]; auto].
Qed.

Lemma idx_lt data k : k < length data -> exists w, idx data k = Ok w /\ data !! k = Some w.
Proof.
  intros H. destruct (lookup_lt_is_Some_2 data k H) as [w Hw].
  exists w. split; [apply idx_Ok|]; exact Hw.
Qed.

Lemma idx_ge data k : length data <= k -> idx data k = Raise IndexError.
Proof. intros H. unfold idx. rewrite (lookup_ge_None_2 data k H). reflexivity. Qed.

Lemma header_test_true data n :
  header_test data n = Ok true <-> consistent data n.
Proof.
  unfold header_test, consistent, idx. split.
  - destruct (data !! n) as [a|]; [|discriminate].
    destruct (data !! (n + 8)) as [b|]; [|discriminate]. cbn [bindR].
    destruct (Z.eqb_spec a b) as [->|]; [|discriminate]. cbn [negb].
    destruct (data !! (n + 16)) as [c|]; [|discriminate]. cbn [bindR].
    destruct (Z.eqb_spec b c) as [->|]; [|discriminate]. cbn [negb].
    destruct (data !! (n + 24)) as [d|]; [|discriminate]. cbn [bindR].
    destruct (Z.eqb_spec c d) as [->|]; [|discriminate]. cbn [negb].
    destruct (data !! (n + 1)) as [e|]; [|discriminate].
    destruct (data !! (n + 9)) as [f|]; [|discriminate]. cbn [bindR].
    destruct (Z.eqb_spec e f) as [->|]; [|discriminate].
    intros _. exists d, f. tauto.
  - intros (a & e & -> & -> & -> & -> & -> & ->). cbn [bindR].
    rewrite !Z.eqb_refl. reflexivity.
Qed.

Lemma header_test_defined data n :
  n + 24 < length data -> exists b, header_test data n = Ok b.
Proof.
  intros H. unfold header_test.
  destruct (idx_lt data n) as (a & -> & _); [lia|].
  destruct (idx_lt data (n + 8)) as (b & -> & _); [lia|].
  destruct (idx_lt data (n + 16)) as (c & -> & _); [lia|].
  destruct (idx_lt data (n + 24)) as (d & -> & _); [lia|].
  destruct (idx_lt data (n + 1)) as (e & -> & _); [lia|].
  destruct (idx_lt data (n + 9)) as (f & -> & _); [lia|].
  cbn [bindR].
  destruct (negb (a =? b)%Z); [eauto|].
  destruct (negb (b =? c)%Z); [eauto|].
  destruct (negb (c =? d)%Z); eauto.
Qed.

Lemma header_test_error data n r :
  header_test data n = r ->
  match r with
  | Ok _ => True
  | Raise e => e = IndexError /\ length data <= n + 24
  | Diverge => False
  end.
Proof.
  intros <-. unfold header_test, idx.
  destruct (data !! n) as [a|] eqn:Ea;
    [| apply lookup_ge_None in Ea; cbn; split; [auto | lia]].
  destruct (data !! (n + 8)) as [b|] eqn:Eb;
    [| apply lookup_ge_None in Eb; cbn; split; [auto | lia]].
  cbn [bindR]. destruct (negb (a =? b)%Z); [exact I|].
  destruct (data !! (n + 16)) as [c|] eqn:Ec;
    [| apply lookup_ge_None in Ec; cbn; split; [auto | lia]].
  cbn [bindR]. destruct (negb (b =? c)%Z); [exact I|].
  destruct (data !! (n + 24)) as [d|] eqn:Ed;
    [| apply lookup_ge_None in Ed; cbn; split; [auto | lia]].
  cbn [bindR]. destruct (negb (c =? d)%Z); [exact I|].
  destruct (data !! (n + 1)) as [e|] eqn:Ee;
    [| apply lookup_ge_None in Ee; cbn; split; [auto | lia]].
  destruct (data !! (n + 9)) as [f|] eqn:Ef;
    [| apply lookup_ge_None in Ef; cbn; split; [auto | lia]].
  exact I.
Qed.

Lemma header_test_false data n :
  header_test data n = Ok false -> ~ consistent data n.
Proof.
  intros H C. apply header_test_true in C. congruence.
Qed.

(** The loop over [range(a, a + k)]. *)
Lemma header_loop_seq data k : forall a n0 n,
  header_loop data (seq a k) n0 = Ok n ->
  (a <= n < a + k /\ consistent data n
   /\ forall m, a <= m < n -> ~ consistent data m)
  \/ ((forall m, a <= m < a + k -> ~ consistent data m)
      /\ n = match k with O => n0 | S _ => a + k - 1 end).
Proof.
  induction k as [|k IH]; intros a n0 n H.
  - cbn in H. injection H as <-. right. split; [intros; lia | reflexivity].
  - cbn [seq header_loop] in H.
    destruct (header_test data a) as [[|]| |] eqn:T; cbn [bindR] in H;
      try discriminate.
    + injection H as <-. left. split; [lia|]. split.
      * apply header_test_true, T.
      * intros; lia.
    + apply header_test_false in T. apply IH in H.
      destruct H as [(Hn & Hc & Hm) | (Hm & ->)].
      * left. split; [lia|]. split; [exact Hc|].
        intros m Hr. destruct (Nat.eq_dec m a) as [->|]; [exact T|].
        apply Hm. lia.
      * right. split.
        -- intros m Hr. destruct (Nat.eq_dec m a) as [->|]; [exact T|].
           apply Hm. lia.
        -- destruct k; lia.
Qed.

Lemma header_loop_defined data k : forall a n0,
  a + k + 23 < length data \/ k = 0 ->
  exists n, header_loop data (seq a k) n0 = Ok n.
Proof.
  induction k as [|k IH]; intros a n0 H; [cbn; eauto|].
  cbn [seq header_loop].
  destruct (header_test_defined data a) as [b ->]; [lia|]. cbn [bindR].
  destruct b; [eauto|]. apply IH. lia.
Qed.

Lemma header_loop_error data k : forall a n0 e,
  header_loop data (seq a k) n0 = Raise e ->
  e = IndexError /\ length data <= a + k + 23.
Proof.
  induction k as [|k IH]; intros a n0 e H; [discriminate|].
  cbn [seq header_loop] in H.
  pose proof (header_test_error data a _ eq_refl) as T.
  destruct (header_test data a) as [[|]| |]; cbn [bindR] in H;
    try discriminate.
  - apply IH in H. destruct H as [-> H]. split; [reflexivity | lia].
  - destruct T as [-> T]. injection H as <-. split; [reflexivity | lia].
Qed.

Lemma header_loop_no_diverge data range : forall n0,
  header_loop data range n0 <> Diverge.
Proof.
  induction range as [|a range IH]; intros n0; [discriminate|].
  cbn [header_loop].
  pose proof (header_test_error data a _ eq_refl) as T.
  destruct (header_test data a) as [[|]| |]; cbn [bindR];
    try discriminate; [apply IH | contradiction].
Qed.

Lemma detect_short data :
  length data <= 37 -> detect_header_length data = Raise IndexError.
Proof.
  intros H. unfold detect_header_length. cbn [seq header_loop].
  unfold header_test.
  destruct (idx data 29) as [a| |] eqn:E; cbn [bindR].
  - rewrite (idx_ge data (29 + 8)) by (simpl; lia). reflexivity.
  - apply idx_Raise in E. destruct E as [-> _]. reflexivity.
  - unfold idx in E. destruct (data !! 29); discriminate.
Qed.

(** C3, as the code has it.  The first candidate of [29, 38) that
    passes the test is accepted; when none passes, the loop ends with
    its last candidate, 37, and that is the header length used; a stream
    of 62 words or more always yields a length; a shorter one may end the
    detection with [IndexError], and one of 37 words or fewer always
    does.  No other outcome exists. *)
Theorem detect_header_length_spec (data : list Z) :
  (forall n, detect_header_length data = Ok n ->
     29 <= n <= 37
     /\ (forall m, 29 <= m < n -> ~ consistent data m)
     /\ (consistent data n \/ n = 37))
  /\ (62 <= length data -> exists n, detect_header_length data = Ok n)
  /\ (62 <= length data ->
      (forall m, 29 <= m <= 37 -> ~ consistent data m) ->
      detect_header_length data = Ok 37)
  /\ (forall e, detect_header_length data = Raise e ->
        e = IndexError /\ length data < 62)
  /\ (length data <= 37 -> detect_header_length data = Raise IndexError)
  /\ detect_header_length data <> Diverge.
Proof.
  unfold detect_header_length. repeat split.
  - apply header_loop_seq in H. destruct H as [(? & ? & ?)|(? & ->)]; lia.
  - apply header_loop_seq in H. destruct H as [(? & ? & ?)|(? & ->)]; lia.
  - apply header_loop_seq in H. destruct H as [(? & ? & Hm)|(Hm & ->)].
    + exact Hm.
    + intros m Hr. apply Hm. lia.
  - apply header_loop_seq in H. destruct H as [(? & ? & ?)|(? & ->)]; auto.
  - intros H. apply header_loop_defined. lia.
  - intros H Hnone.
    destruct (header_loop_defined data 9 29 0) as [n Hn]; [lia|].
    rewrite Hn. apply header_loop_seq in Hn.
    destruct Hn as [(Hr & Hc & _)|(_ & ->)]; [|reflexivity].
    exfalso. apply (Hnone n); [lia | exact Hc].
  - apply header_loop_error in H. tauto.
  - apply header_loop_error in H. lia.
  - apply detect_short.
  - apply header_loop_no_diverge.
Qed.

Lemma header_test_agree d1 d2 n :
  (forall k, n <= k -> d1 !! k = d2 !! k) ->
  header_test d1 n = header_test d2 n.
Proof.
  intros H. unfold header_test, idx.
  rewrite !H by lia. reflexivity.
Qed.

Lemma header_loop_agree d1 d2 a : forall range n0,
  (forall k, a <= k -> d1 !! k = d2 !! k) ->
  Forall (fun n => a <= n) range ->
  header_loop d1 range n0 = header_loop d2 range n0.
Proof.
  induction range as [|c range IH]; intros n0 H F; [reflexivity|].
  inversion F as [|? ? Hc F']; subst. cbn [header_loop].
  rewrite (header_test_agree d1 d2 c) by (intros; apply H; lia).
  destruct (header_test d2 c) as [[|]| |]; cbn [bindR]; auto.
Qed.

(** C7, as the code has it.  The detection reads only words 29 and
    beyond: two streams that agree from word 29 on, whatever the first
    22 words of their preamble, get the same outcome. *)
Theorem detect_header_length_agree (d1 d2 : list Z) :
  (forall k, 29 <= k -> d1 !! k = d2 !! k) ->
  detect_header_length d1 = detect_header_length d2.
Proof.
  intros H. apply (header_loop_agree d1 d2 29); [exact H|].
  apply Forall_forall. intros n Hn. apply elem_of_seq in Hn. lia.
Qed.
End DetectionFacts.

Section DetectionCases.
Local Open Scope nat_scope.

Lemma scenario_detect : detect_header_length scenario_words = Ok 37.
Proof. vm_compute. reflexivity. Qed.

Lemma detect_header_length_spec_witness :
  29 <= 37 <= 37
  /\ (forall m, 29 <= m < 37 -> ~ consistent scenario_words m)
  /\ (consistent scenario_words 37 \/ 37 = 37).
Proof.
  exact (proj1 (detect_header_length_spec scenario_words) 37
           scenario_detect).
Defined.

(** C3 as stated fails on the code: when no candidate of the range
    passes the test, the detection does not fail; it answers 37. *)
Lemma detect_header_length_no_candidate :
  (forall n, 29 <= n < 38 -> ~ consistent ramp n)
  /\ length ramp = 62
  /\ detect_header_length ramp = Ok 37.
Proof.
  split; [|split; vm_compute; reflexivity].
  intros n Hn. apply header_test_false.
  assert (C : n = 29 \/ n = 30 \/ n = 31 \/ n = 32 \/ n = 33 \/ n = 34
              \/ n = 35 \/ n = 36 \/ n = 37) by lia.
  repeat destruct C as [->|C]; try subst n; vm_compute; reflexivity.
Qed.

Lemma detect_header_length_agree_witness :
  (forall k, 29 <= k ->
     scenario_words !! k = (<[10 := 999%Z]> scenario_words) !! k)
  /\ detect_header_length scenario_words
     = detect_header_length (<[10 := 999%Z]> scenario_words).
Proof.
  assert (H : forall k, 29 <= k ->
            scenario_words !! k = (<[10 := 999%Z]> scenario_words) !! k).
  { intros k Hk. symmetry. apply list_lookup_insert_ne. lia. }
  split; [exact H|].
  exact (detect_header_length_agree scenario_words
           (<[10 := 999%Z]> scenario_words) H).
Defined.

(** C7 as stated fails on the code: two streams with the same four
    timestamp records, which differ in one word of the preamble (word 30,
    where the second stream repeats the year), get different header
    lengths. *)
Lemma detect_header_length_preamble_dependent :
  slice scenario_words 37 69
    = slice (<[30 := 2019%Z]> scenario_words) 37 69
  /\ (forall k, k <> 30 ->
        scenario_words !! k = (<[30 := 2019%Z]> scenario_words) !! k)
  /\ detect_header_length scenario_words = Ok 37
  /\ detect_header_length (<[30 := 2019%Z]> scenario_words) = Ok 29.
Proof.
  split; [vm_compute; reflexivity|]. split.
  - intros k Hk. symmetry. apply list_lookup_insert_ne. lia.
  - split; vm_compute; reflexivity.
Qed.

End DetectionCases.

(** ** Timestamp records *)
Section TimestampFacts.
Local Open Scope nat_scope.

Lemma idx_slice data a b k :
  k < b - a -> idx (slice data a b) k = idx data (a + k).
Proof.
  intros H. unfold idx, slice.
  rewrite lookup_take_lt by exact H. rewrite lookup_drop. reflexivity.
Qed.

Lemma make_valid (t : datetime) :
  valid t ->
  make (year t) (month t) (day t) (hour t) (minute t) (second t)
  = Ok (mkDatetime (year t) (month t) (day t) (hour t) (minute t)
          (second t) 0).
Proof. intros [H _]. unfold make. rewrite H. reflexivity. Qed.

(** C6, as the code has it.  The decoder takes each timestamp record
    as the eight words [data[n : n + 8]] and builds the date from words
    1, 2, 4, 5, 6 and 7 of the record: the first word is leading padding
    and the fourth, the flag, is skipped.  This is the layout the encoder
    writes: two zero bytes, then year, month, flag, day, hour, minute,
    second. *)
Theorem readContTimestamp_layout :
  (forall pad y mo flag d hh mm ss : Z,
      readContTimestamp [pad; y; mo; flag; d; hh; mm; ss]
      = make y mo d hh mm ss)
  /\ (forall (data : list Z) (n : nat),
        readContTimestamp (slice data n (n + 8))
        = (let! y := idx data (n + 1) in
           let! mo := idx data (n + 2) in
           let! d := idx data (n + 4) in
           let! hh := idx data (n + 5) in
           let! mm := idx data (n + 6) in
           let! ss := idx data (n + 7) in
           make y mo d hh mm ss))
  /\ (forall (t : datetime) (flag : Z),
        valid t ->
        readContTimestamp (0%Z :: makeContTimestamp t flag)
        = Ok (mkDatetime (year t) (month t) (day t) (hour t) (minute t)
                (second t) 0)).
Proof.
  split; [reflexivity|]. split.
  - intros data n. unfold readContTimestamp.
    rewrite !idx_slice by lia. reflexivity.
  - intros t flag Ht. unfold readContTimestamp, makeContTimestamp.
    cbn [idx lookup list_lookup bindR]. apply make_valid, Ht.
Qed.

Lemma readContTimestamp_layout_witness :
  valid (mkDatetime 2019 6 1 10 15 30 0)
  /\ readContTimestamp
       (0%Z :: makeContTimestamp (mkDatetime 2019 6 1 10 15 30 0) 5)
     = Ok (mkDatetime 2019 6 1 10 15 30 0).
Proof.
  assert (H : valid (mkDatetime 2019 6 1 10 15 30 0))
    by (split; [reflexivity | cbn; lia]).
  split; [exact H|].
  exact (proj2 (proj2 readContTimestamp_layout)
           (mkDatetime 2019 6 1 10 15 30 0) 5%Z H).
Defined.

(** C6 as stated fails on the code: on the record the encoder writes
    for 2019-06-01 10:15:30 the decoder reads that date, whereas the first
    seven words, read as year, month, flag, day, hour, minute and second,
    give year 0 and month 2019, which is no date. *)
Lemma readContTimestamp_not_first_seven :
  readContTimestamp (ts_words (mkDatetime 2019 6 1 10 15 30 0))
  = Ok (mkDatetime 2019 6 1 10 15 30 0)
  /\ spec_timestamp_layout (ts_words (mkDatetime 2019 6 1 10 15 30 0))
     = Raise ValueError
  /\ readContTimestamp (ts_words (mkDatetime 2019 6 1 10 15 30 0))
     <> spec_timestamp_layout (ts_words (mkDatetime 2019 6 1 10 15 30 0)).
Proof.
  split; [reflexivity|]. split; [reflexivity|]. discriminate.
Qed.

End TimestampFacts.

(** ** The monad of the decoder *)
Section MonadFacts.
Context {A B : Type}.

Lemma outcome_bind (m : M A) (f : A -> M B) :
  outcome (bindM m f) = bindR (outcome m) (fun a => outcome (f a)).
Proof.
  destruct m as [o [a|e|]]; cbn; [destruct (f a); reflexivity | auto | auto].
Qed.

Lemma output_bind_ok (m : M A) (f : A -> M B) a :
  outcome m = Ok a -> output (bindM m f) = output m ++ output (f a).
Proof.
  destruct m as [o r]. cbn. intros ->. destruct (f a). reflexivity.
Qed.

Lemma outcome_lift (r : result A) : outcome (lift r) = r.
Proof. reflexivity. Qed.

Lemma outcome_ret (a : A) : outcome (ret a) = Ok a.
Proof. reflexivity. Qed.

Lemma bindR_no_diverge (r : result A) (f : A -> result B) :
  r <> Diverge -> (forall a, r = Ok a -> f a <> Diverge) ->
  bindR r f <> Diverge.
Proof. destruct r; cbn; auto; discriminate. Qed.

Lemma bindM_no_diverge (m : M A) (f : A -> M B) :
  outcome m <> Diverge ->
  (forall a, outcome m = Ok a -> outcome (f a) <> Diverge) ->
  outcome (bindM m f) <> Diverge.
Proof. rewrite outcome_bind. apply bindR_no_diverge. Qed.
End MonadFacts.

Lemma outcome_print `{Console} it :
  outcome (print it)
  = if printable it then Ok tt else Raise UnicodeEncodeError.
Proof. unfold print. destruct (printable it); reflexivity. Qed.

Lemma outcome_when b m :
  outcome (when b m) = if b then outcome m else Ok tt.
Proof. destruct b; reflexivity. Qed.

Section NoDiverge.
Context {stdout : Console}.
Local Open Scope nat_scope.

Lemma idx_no_diverge data k : idx data k <> Diverge.
Proof. unfold idx. destruct (data !! k); discriminate. Qed.

Lemma make_no_diverge y m d hh mm ss : make y m d hh mm ss <> Diverge.
Proof. unfold make. destruct valid_fields; discriminate. Qed.

Lemma truediv_no_diverge n d : truediv n d <> Diverge.
Proof. unfold truediv. destruct (0 <? d)%Z; destruct of_rat; discriminate. Qed.

Lemma add_usec_no_diverge t us : add_usec t us <> Diverge.
Proof.
  unfold add_usec. destruct (_ <? _)%Z; [discriminate|].
  destruct (_ && _); [|discriminate].
  destruct (ord2ymd _) as [[? ?] ?]. discriminate.
Qed.

Ltac nodiv :=
  repeat first
    [ apply bindR_no_diverge; [| intros ? _]
    | apply idx_no_diverge | apply make_no_diverge
    | apply truediv_no_diverge | apply add_usec_no_diverge
    | discriminate ].

Lemma readContTimestamp_no_diverge data : readContTimestamp data <> Diverge.
Proof. unfold readContTimestamp. nodiv. Qed.

Lemma filetimeToTimestamp_no_diverge data :
  filetimeToTimestamp data <> Diverge.
Proof. unfold filetimeToTimestamp. nodiv. Qed.

Lemma half_no_diverge w : half w <> Diverge.
Proof. unfold half. nodiv. Qed.

Lemma datestamp_loop_no_diverge rest : forall x dt,
  datestamp_loop rest x dt <> Diverge.
Proof.
  induction rest as [|w rest IH]; intros x dt; cbn; [discriminate|].
  destruct (w =? 0)%Z; [discriminate | apply IH].
Qed.

Lemma datestamp_loop_ge rest : forall x dt x' dt',
  datestamp_loop rest x dt = Ok (x', dt') -> x <= x'.
Proof.
  induction rest as [|w rest IH]; intros x dt x' dt' H; cbn in H;
    [discriminate|].
  destruct (w =? 0)%Z; [injection H as <- _; lia|].
  apply IH in H. lia.
Qed.

Ltac nodivM :=
  repeat first
    [ apply bindM_no_diverge; [| intros ? _]
    | rewrite outcome_lift | rewrite outcome_print | rewrite outcome_ret
    | rewrite outcome_when
    | apply idx_no_diverge | apply filetimeToTimestamp_no_diverge
    | apply readContTimestamp_no_diverge
    | apply half_no_diverge | apply datestamp_loop_no_diverge
    | discriminate
    | match goal with |- context [if ?b then _ else _] => destruct b end ].

Lemma scan_record_no_diverge data u i el :
  outcome (scan_record data u i el) <> Diverge.
Proof. unfold scan_record. nodivM. Qed.

Lemma scan_next_no_diverge data u i :
  outcome (scan_next data u i) <> Diverge.
Proof.
  unfold scan_next. nodivM. apply scan_record_no_diverge.
Qed.
End NoDiverge.

Section ScanFacts.
Context {stdout : Console}.
Local Open Scope nat_scope.

(** one step through a bind whose first action is a [lift] *)
Ltac ostep :=
  rewrite outcome_bind;
  first [ rewrite outcome_print; cbn [printable] | rewrite outcome_lift
        | rewrite outcome_when | idtac ];
  cbn [bindR].

Lemma when_print_ok b (m : M unit) :
  outcome m = Ok tt -> outcome (when b m) = Ok tt.
Proof. destruct b; auto. Qed.

Lemma outcome_scan_record_datestamp data u i :
  outcome (scan_record data u i 22)
  = (let! r := datestamp_loop (drop (i + 2) data) (i + 2) [] in
     let! _ := printed (extractChars (snd r)) in
     Ok (fst r)).
Proof.
  unfold scan_record, printed. cbn [Z.eqb Pos.eqb]. ostep.
  destruct (datestamp_loop _ _ _); [|reflexivity..].
  cbn [bindR]. ostep. destruct (encodable _); reflexivity.
Qed.

(** the end of a file record: the name is printed unless
    [unknown_fields], then the cursor is returned *)
Lemma outcome_name u date (name : list Z) (c : nat) (size : list item) :
  Forall (fun it => printable it = true) size ->
  outcome
    (when (negb u)
       (fold_right (fun it m => print it ;;; m)
          (print (Field "Creation Date" (VDate date)) ;;;
           print (Field "File Name" (VStr (extractChars name)))) size) ;;;
     ret c)
  = (let! _ := if u then Ok tt else printed (extractChars name) in Ok c).
Proof.
  intros F. rewrite outcome_bind, outcome_when.
  destruct u; cbn [negb bindR]; [reflexivity|].
  induction F as [|it size Hit F IH]; cbn [fold_right].
  - rewrite outcome_bind, outcome_print. cbn [printable bindR].
    rewrite outcome_print. cbn [printable]. unfold printed.
    destruct (encodable _); reflexivity.
  - rewrite outcome_bind, outcome_print, Hit. cbn [bindR]. exact IH.
Qed.

Lemma outcome_scan_record_video data u i :
  outcome (scan_record data u i 1)
  = (let! _ := idx data (i + 9) in
     let! _ := idx data (i + 8) in
     let! c := file_record_cursor data i 17 12 in
     let! _ := name_printed u data (i + 17) c in
     Ok c).
Proof.
  unfold scan_record, file_record_cursor, name_printed.
  cbn [Z.eqb Pos.eqb].
  do 2 ostep. ostep. destruct (idx data (i + 9)); [|reflexivity..].
  cbn [bindR]. ostep. destruct (idx data (i + 8)); [|reflexivity..].
  cbn [bindR]. ostep.
  replace (i + 12 + 4) with (i + 16) by lia.
  destruct (filetimeToTimestamp _); [|reflexivity..].
  cbn [bindR]. ostep. destruct (idx data (i + 17 - 1)); [|reflexivity..].
  cbn [bindR]. ostep. destruct (half _); [|reflexivity..].
  cbn [bindR].
  match goal with
  | |- context [Field "File Size" ?v] =>
      apply (outcome_name u _ _ _ [Field "File Size" v])
  end.
  repeat constructor.
Qed.

Lemma outcome_scan_record_thumbnail data u i :
  outcome (scan_record data u i 2)
  = (let! c := file_record_cursor data i 13 8 in
     let! _ := name_printed u data (i + 13) c in
     Ok c).
Proof.
  unfold scan_record, file_record_cursor, name_printed.
  cbn [Z.eqb Pos.eqb].
  do 2 ostep. ostep.
  replace (i + 8 + 4) with (i + 12) by lia.
  destruct (filetimeToTimestamp _); [|reflexivity..].
  cbn [bindR]. ostep. destruct (idx data (i + 13 - 1)); [|reflexivity..].
  cbn [bindR]. ostep. destruct (half _); [|reflexivity..].
  cbn [bindR]. apply (outcome_name u _ _ _ []). constructor.
Qed.

Lemma outcome_scan_record_xml data u i :
  outcome (scan_record data u i 4)
  = (let! c := file_record_cursor data i 7 2 in
     let! _ := name_printed u data (i + 7) c in
     Ok c).
Proof.
  unfold scan_record, file_record_cursor, name_printed.
  cbn [Z.eqb Pos.eqb].
  ostep. ostep.
  replace (i + 2 + 4) with (i + 6) by lia.
  destruct (filetimeToTimestamp _); [|reflexivity..].
  cbn [bindR]. ostep. destruct (idx data (i + 7 - 1)); [|reflexivity..].
  cbn [bindR]. ostep. destruct (half _); [|reflexivity..].
  cbn [bindR]. apply (outcome_name u _ _ _ []). constructor.
Qed.

Lemma outcome_scan_record_other data u i el :
  el <> 22%Z -> el <> 1%Z -> el <> 2%Z -> el <> 4%Z ->
  outcome (scan_record data u i el) = Ok i.
Proof.
  intros H22 H1 H2 H4. unfold scan_record.
  destruct (Z.eqb_spec el 22); [contradiction|].
  destruct (Z.eqb_spec el 1); [contradiction|].
  destruct (Z.eqb_spec el 2); [contradiction|].
  destruct (Z.eqb_spec el 4); [contradiction|]. reflexivity.
Qed.

Lemma outcome_scan_next data u i :
  outcome (scan_next data u i)
  = (let! el := idx data i in
     let! p := outcome (scan_record data u i el) in Ok (p + 1)).
Proof.
  unfold scan_next. ostep. destruct (idx data i); [|reflexivity..].
  cbn [bindR]. ostep. destruct (outcome (scan_record _ _ _ _)); reflexivity.
Qed.

Lemma file_record_cursor_ge data i hdr ft p :
  file_record_cursor data i hdr ft = Ok p -> i + hdr <= p.
Proof.
  unfold file_record_cursor.
  destruct (filetimeToTimestamp _); [|discriminate..]. cbn [bindR].
  destruct (idx _ _); [|discriminate..]. cbn [bindR].
  destruct (half _); [|discriminate..]. cbn [bindR].
  intros [= <-]. lia.
Qed.

(** a record that is handled gave its cursor and printed its text *)
Lemma file_record_Ok data u i hdr ft p :
  (let! c := file_record_cursor data i hdr ft in
   let! _ := name_printed u data (i + hdr) c in
   Ok c) = Ok p ->
  file_record_cursor data i hdr ft = Ok p
  /\ name_printed u data (i + hdr) p = Ok tt.
Proof.
  destruct (file_record_cursor data i hdr ft) as [c| |];
    [|discriminate..]. cbn [bindR].
  destruct (name_printed u data (i + hdr) c) as [[]| |] eqn:E;
    [|discriminate..]. cbn [bindR].
  intros [= <-]. split; [reflexivity | exact E].
Qed.

Lemma datestamp_Ok data i p :
  (let! r := datestamp_loop (drop (i + 2) data) (i + 2) [] in
   let! _ := printed (extractChars (snd r)) in
   Ok (fst r)) = Ok p ->
  exists dt,
    datestamp_loop (drop (i + 2) data) (i + 2) [] = Ok (p, dt)
    /\ printed (extractChars dt) = Ok tt.
Proof.
  destruct (datestamp_loop _ _ _) as [[x dt]| |]; [|discriminate..].
  cbn [bindR fst snd].
  destruct (printed (extractChars dt)) as [[]| |] eqn:E; [|discriminate..].
  cbn [bindR]. intros [= <-]. exists dt. split; [reflexivity | exact E].
Qed.

Lemma scan_record_ge data u i el p :
  outcome (scan_record data u i el) = Ok p -> i <= p.
Proof.
  destruct (Z.eq_dec el 22%Z) as [->|H22].
  { rewrite outcome_scan_record_datestamp. intros H.
    apply datestamp_Ok in H. destruct H as (dt & E & _).
    apply datestamp_loop_ge in E. lia. }
  destruct (Z.eq_dec el 1%Z) as [->|H1].
  { rewrite outcome_scan_record_video.
    destruct (idx _ _); [|discriminate..]. cbn [bindR].
    destruct (idx _ _); [|discriminate..]. cbn [bindR].
    intros H. apply file_record_Ok in H. destruct H as [H _].
    apply file_record_cursor_ge in H. lia. }
  destruct (Z.eq_dec el 2%Z) as [->|H2].
  { rewrite outcome_scan_record_thumbnail.
    intros H. apply file_record_Ok in H. destruct H as [H _].
    apply file_record_cursor_ge in H. lia. }
  destruct (Z.eq_dec el 4%Z) as [->|H4].
  { rewrite outcome_scan_record_xml.
    intros H. apply file_record_Ok in H. destruct H as [H _].
    apply file_record_cursor_ge in H. lia. }
  rewrite outcome_scan_record_other by assumption. intros [= <-]. lia.
Qed.

Lemma scan_next_gt data u i c :
  outcome (scan_next data u i) = Ok c -> i < c.
Proof.
  rewrite outcome_scan_next.
  destruct (idx data i); [|discriminate..]. cbn [bindR].
  destruct (outcome (scan_record _ _ _ _)) eqn:E; [|discriminate..].
  cbn [bindR]. intros [= <-]. apply scan_record_ge in E. lia.
Qed.

Lemma scan_no_diverge fuel : forall data u i,
  length data <= i + fuel -> outcome (scan fuel data u i) <> Diverge.
Proof.
  induction fuel as [|fuel IH]; intros data u i H; cbn [scan].
  - destruct (Nat.ltb_spec i (length data)); [lia | discriminate].
  - destruct (Nat.ltb_spec i (length data)); [|discriminate].
    apply bindM_no_diverge; [apply scan_next_no_diverge|].
    intros c Hc. apply scan_next_gt in Hc. apply IH. lia.
Qed.
End ScanFacts.


(** ** The cursor of the scan *)
Section CursorFacts.
Context {stdout : Console}.
Local Open Scope nat_scope.

Ltac ostep :=
  rewrite outcome_bind;
  first [ rewrite outcome_print; cbn [printable] | rewrite outcome_lift
        | rewrite outcome_when | idtac ];
  cbn [bindR].

Lemma datestamp_loop_spec rest : forall x dt x' dt',
  datestamp_loop rest x dt = Ok (x', dt') ->
  x <= x' /\ rest !! (x' - x) = Some 0%Z
  /\ (forall k, k < x' - x -> exists w, rest !! k = Some w /\ w <> 0%Z)
  /\ dt' = dt ++ take (x' - x) rest.
Proof.
  induction rest as [|w rest IH]; intros x dt x' dt' H; cbn in H;
    [discriminate|].
  destruct (Z.eqb_spec w 0) as [->|Hw].
  - injection H as <- <-. replace (x - x) with 0 by lia.
    split; [lia|]. split; [reflexivity|]. split; [intros; lia|].
    cbn. rewrite app_nil_r. reflexivity.
  - apply IH in H. destruct H as (Hx & Hz & Hk & ->).
    replace (x' - x) with (S (x' - S x)) by lia.
    split; [lia|]. split; [exact Hz|]. split.
    + intros [|k] Hlt; [exists w; auto|]. apply Hk. lia.
    + cbn. rewrite <- app_assoc. reflexivity.
Qed.

Lemma datestamp_loop_unterminated rest : forall x dt,
  Forall (fun w => w <> 0%Z) rest ->
  datestamp_loop rest x dt = Raise IndexError.
Proof.
  induction rest as [|w rest IH]; intros x dt F; cbn; [reflexivity|].
  inversion F as [|? ? Hw F']; subst.
  destruct (Z.eqb_spec w 0); [contradiction | apply IH, F'].
Qed.

Lemma half_word w :
  (0 <= w < 2 ^ 53)%Z -> half w = Ok (Z.to_nat (w / 2)).
Proof.
  intros Hw. unfold half. rewrite truediv_half by exact Hw.
  cbn [bindR]. rewrite to_int_half by lia. reflexivity.
Qed.

Lemma datestamp_cursor data i x dt :
  datestamp_loop (drop (i + 2) data) (i + 2) [] = Ok (x, dt) ->
  i + 2 <= x /\ data !! x = Some 0%Z
  /\ (forall k, i + 2 <= k < x -> exists w, data !! k = Some w /\ w <> 0%Z).
Proof.
  intros H. apply datestamp_loop_spec in H.
  destruct H as (Hx & Hz & Hk & _). split; [exact Hx|].
  rewrite lookup_drop in Hz. split.
  - replace x with (i + 2 + (x - (i + 2))) at 1 by lia. exact Hz.
  - intros k Hr. destruct (Hk (k - (i + 2))) as (w & Hw & Hn); [lia|].
    rewrite lookup_drop in Hw.
    replace (i + 2 + (k - (i + 2))) with k in Hw by lia. eauto.
Qed.

Lemma file_cursor_intro data i hdr w n :
  idx data (i + hdr - 1) = Ok w -> half w = Ok n ->
  file_cursor data i hdr (i + hdr + n + 1).
Proof.
  intros Hw Hn. exists w, n. apply idx_Ok in Hw.
  split; [exact Hw|]. split; [exact Hn|]. split; [|reflexivity].
  intros [H0 H1]. rewrite half_word in Hn.
  - injection Hn as <-. reflexivity.
  - change (2 ^ 53)%Z with 9007199254740992%Z. lia.
Qed.

Lemma file_record_cursor_spec data i hdr ft p :
  file_record_cursor data i hdr ft = Ok p ->
  file_cursor data i hdr (p + 1).
Proof.
  unfold file_record_cursor.
  destruct (filetimeToTimestamp _); [|discriminate..]. cbn [bindR].
  destruct (idx _ _) as [w| |] eqn:Ew; [|discriminate..]. cbn [bindR].
  destruct (half w) as [n| |] eqn:En; [|discriminate..]. cbn [bindR].
  intros [= <-]. eapply file_cursor_intro; eassumption.
Qed.

Lemma scan_record_cursor data u i el p :
  outcome (scan_record data u i el) = Ok p ->
  cursor_after data i el (p + 1).
Proof.
  intros H. unfold cursor_after. repeat split.
  - intros ->. rewrite outcome_scan_record_datestamp in H.
    apply datestamp_Ok in H. destruct H as (dt & E & _).
    apply datestamp_cursor in E.
    destruct E as (E1 & E2 & E3). exists p. auto.
  - intros ->. rewrite outcome_scan_record_video in H.
    destruct (idx _ _); [|discriminate..]. cbn [bindR] in H.
    destruct (idx _ _); [|discriminate..]. cbn [bindR] in H.
    apply file_record_Ok in H. eapply file_record_cursor_spec, H.
  - intros ->. rewrite outcome_scan_record_thumbnail in H.
    apply file_record_Ok in H. eapply file_record_cursor_spec, H.
  - intros ->. rewrite outcome_scan_record_xml in H.
    apply file_record_Ok in H. eapply file_record_cursor_spec, H.
  - intros H22 H1 H2 H4.
    rewrite outcome_scan_record_other in H by assumption.
    injection H as <-. reflexivity.
Qed.

Lemma prettyPrint_record_cursor printChars data i el p :
  outcome (prettyPrint_record printChars data i el) = Ok p ->
  cursor_after data i el (p + 1).
Proof.
  intros H. unfold cursor_after. repeat split.
  - intros ->. unfold prettyPrint_record in H. cbn [Z.eqb Pos.eqb] in H.
    rewrite outcome_bind, outcome_lift in H.
    destruct (datestamp_loop _ _ _) as [[x dt]| |] eqn:E; [|discriminate..].
    cbn [bindR] in H. rewrite outcome_bind, outcome_print in H.
    cbn [printable bindR] in H. rewrite outcome_bind in H.
    destruct (outcome (printChars _)); [|discriminate..].
    cbn in H. injection H as <-. apply datestamp_cursor in E.
    destruct E as (E1 & E2 & E3). exists x. auto.
  - intros ->. unfold prettyPrint_record in H. cbn [Z.eqb Pos.eqb] in H.
    do 2 (rewrite outcome_bind, outcome_print in H; cbn [printable bindR] in H).
    rewrite outcome_bind, outcome_lift in H.
    destruct (idx data (i + 9)); [|discriminate..]. cbn [bindR] in H.
    rewrite outcome_bind, outcome_lift in H.
    destruct (idx data (i + 8)); [|discriminate..]. cbn [bindR] in H.
    do 2 (rewrite outcome_bind, outcome_print in H; cbn [printable bindR] in H).
    rewrite outcome_bind, outcome_lift in H.
    destruct (idx data (i + 17 - 1)) as [w| |] eqn:Ew; [|discriminate..].
    cbn [bindR] in H. rewrite outcome_bind, outcome_lift in H.
    destruct (half w) as [n| |] eqn:En; [|discriminate..].
    cbn [bindR] in H. rewrite outcome_bind in H.
    destruct (outcome (printChars _)); [|discriminate..].
    cbn in H. injection H as <-. eapply file_cursor_intro; eassumption.
  - intros ->. unfold prettyPrint_record in H. cbn [Z.eqb Pos.eqb] in H.
    do 3 (rewrite outcome_bind, outcome_print in H; cbn [printable bindR] in H).
    rewrite outcome_bind, outcome_lift in H.
    destruct (idx data (i + 13 - 1)) as [w| |] eqn:Ew; [|discriminate..].
    cbn [bindR] in H. rewrite outcome_bind, outcome_lift in H.
    destruct (half w) as [n| |] eqn:En; [|discriminate..].
    cbn [bindR] in H. rewrite outcome_bind in H.
    destruct (outcome (printChars _)); [|discriminate..].
    cbn in H. injection H as <-. eapply file_cursor_intro; eassumption.
  - intros ->. unfold prettyPrint_record in H. cbn [Z.eqb Pos.eqb] in H.
    do 2 (rewrite outcome_bind, outcome_print in H; cbn [printable bindR] in H).
    rewrite outcome_bind, outcome_lift in H.
    destruct (idx data (i + 7 - 1)) as [w| |] eqn:Ew; [|discriminate..].
    cbn [bindR] in H. rewrite outcome_bind, outcome_lift in H.
    destruct (half w) as [n| |] eqn:En; [|discriminate..].
    cbn [bindR] in H. rewrite outcome_bind in H.
    destruct (outcome (printChars _)); [|discriminate..].
    cbn in H. injection H as <-. eapply file_cursor_intro; eassumption.
  - intros H22 H1 H2 H4. unfold prettyPrint_record in H.
    destruct (Z.eqb_spec el 22); [contradiction|].
    destruct (Z.eqb_spec el 1); [contradiction|].
    destruct (Z.eqb_spec el 2); [contradiction|].
    destruct (Z.eqb_spec el 4); [contradiction|].
    injection H as <-. reflexivity.
Qed.

(** C9, as the code has it.  After one turn of the scan, in
    [printCont] and in [prettyPrint] alike, the cursor stands one word
    beyond the pointer the tag computed: for tag 22, one word past the
    terminating zero word; for tags 1, 2 and 4, one word past the end of
    the slice [data[x : x + str_len]] of the name, that is two words past
    its last word; for any other tag, on the next word. *)
Theorem scan_cursor_advance (printChars : list Z -> M unit)
    (data : list Z) (unknown_fields : bool) (i c : nat) (element : Z) :
  data !! i = Some element ->
  outcome (scan_next data unknown_fields i) = Ok c
  \/ outcome (prettyPrint_next printChars data i) = Ok c ->
  cursor_after data i element c.
Proof.
  intros Hel [H|H].
  - rewrite outcome_scan_next in H. apply idx_Ok in Hel.
    rewrite Hel in H. cbn [bindR] in H.
    destruct (outcome (scan_record _ _ _ _)) as [p| |] eqn:E;
      [|discriminate..].
    cbn [bindR] in H. injection H as <-.
    eapply scan_record_cursor, E.
  - unfold prettyPrint_next in H. apply idx_Ok in Hel.
    rewrite outcome_bind, outcome_lift, Hel in H. cbn [bindR] in H.
    rewrite outcome_bind in H.
    destruct (outcome (prettyPrint_record _ _ _ _)) as [p| |] eqn:E;
      [|discriminate..].
    cbn in H. injection H as <-.
    eapply prettyPrint_record_cursor, E.
Qed.

End CursorFacts.

(** The cases below run the decoder on a console that encodes UTF-8. *)
Section CursorCases.
#[local] Existing Instance utf8.
Local Open Scope nat_scope.

Lemma scan_cursor_advance_witness :
  (scenario_words !! 383 = Some 1%Z
   /\ (outcome (scan_next scenario_words false 383) = Ok 412
       \/ outcome (prettyPrint_next (fun _ => ret tt) scenario_words 383)
          = Ok 412))
  /\ cursor_after scenario_words 383 1 412.
Proof.
  assert (H1 : scenario_words !! 383 = Some 1%Z)
    by (vm_compute; reflexivity).
  assert (H2 : outcome (scan_next scenario_words false 383) = Ok 412)
    by (vm_compute; reflexivity).
  split; [split; [exact H1 | left; exact H2]|].
  exact (scan_cursor_advance (fun _ => ret tt) scenario_words false
           383 412 1%Z H1 (or_introl H2)).
Defined.

(** C9 as stated fails on the code for the file records: in the
    buffer of the scenario the video record starts at word 383, its name
    is the slice of words 400 to 410, word 410 holding the last character;
    the turn leaves the cursor on word 412, two words past it, whereas
    the datestamp turn before leaves it on word 383, one word past the
    terminating zero word 382. *)
Lemma scan_cursor_two_past_name :
  slice scenario_words 400 411 = 0%Z :: pystr "00019.M2TS"
  /\ scenario_words !! 411 = Some 0%Z
  /\ outcome (scan_next scenario_words false 383) = Ok 412
  /\ spec_file_cursor 400 11 = 411
  /\ outcome (scan_next scenario_words false 383)
     <> Ok (spec_file_cursor 400 11)
  /\ scenario_words !! 382 = Some 0%Z
  /\ outcome (scan_next scenario_words false 370) = Ok 383.
Proof.
  assert (E : outcome (scan_next scenario_words false 383) = Ok 412)
    by (vm_compute; reflexivity).
  split; [vm_compute; reflexivity|].
  split; [vm_compute; reflexivity|].
  split; [exact E|].
  split; [vm_compute; reflexivity|].
  split; [rewrite E; vm_compute; discriminate|].
  split; vm_compute; reflexivity.
Qed.

End CursorCases.

(** ** Totality and bounds of the decoder *)
Section DecoderTotality.
Context {stdout : Console}.
Local Open Scope nat_scope.

Lemma filetimeToTimestamp_short l :
  length l < 4 -> filetimeToTimestamp l = Raise IndexError.
Proof.
  intros H. unfold filetimeToTimestamp.
  rewrite idx_ge by lia. reflexivity.
Qed.

Lemma length_slice data a b :
  length (slice data a b) = Nat.min (b - a) (length data - a).
Proof. unfold slice. rewrite length_take, length_drop. reflexivity. Qed.

Lemma file_record_cursor_truncated data i hdr ft :
  length data < i + ft + 4 ->
  file_record_cursor data i hdr ft = Raise IndexError.
Proof.
  intros H. unfold file_record_cursor.
  rewrite filetimeToTimestamp_short; [reflexivity|].
  rewrite length_slice. lia.
Qed.

Lemma idx_cases data k :
  (exists w, idx data k = Ok w) \/ idx data k = Raise IndexError.
Proof. unfold idx. destruct (data !! k); eauto. Qed.

Lemma printCont_no_diverge data u :
  outcome (printCont data u) <> Diverge.
Proof.
  unfold printCont.
  repeat first
    [ apply bindM_no_diverge; [| intros ? _]
    | rewrite outcome_lift | rewrite outcome_print | rewrite outcome_ret
    | rewrite outcome_when
    | apply idx_no_diverge | apply readContTimestamp_no_diverge
    | apply header_loop_no_diverge
    | apply scan_no_diverge; lia
    | discriminate
    | match goal with
      | |- context [if ?b then _ else _] => destruct b
      end ].
Qed.

(** *** The exceptions of the decoder *)

Lemma raises_only_bindR {A B} P (r : result A) (f : A -> result B) :
  raises_only P r -> (forall a, r = Ok a -> raises_only P (f a)) ->
  raises_only P (bindR r f).
Proof.
  intros Hr Hf. destruct r as [a|e|]; cbn [bindR].
  - apply Hf. reflexivity.
  - intros e' [= <-]. apply Hr. reflexivity.
  - discriminate.
Qed.

Lemma raises_only_bindM {A B} P (m : M A) (f : A -> M B) :
  raises_only P (outcome m) ->
  (forall a, outcome m = Ok a -> raises_only P (outcome (f a))) ->
  raises_only P (outcome (bindM m f)).
Proof. rewrite outcome_bind. apply raises_only_bindR. Qed.

Lemma raises_only_Ok {A} P (a : A) : raises_only P (Ok a).
Proof. discriminate. Qed.

Lemma raises_only_Raise {A} (P : exn -> Prop) e :
  P e -> raises_only (A := A) P (Raise e).
Proof. intros H e' [= <-]. exact H. Qed.

Lemma idx_exn data k : raises_only decoder_exn (idx data k).
Proof.
  unfold idx. destruct (data !! k);
    [apply raises_only_Ok | apply raises_only_Raise; left; reflexivity].
Qed.

Lemma make_exn y m d hh mm ss :
  raises_only decoder_exn (make y m d hh mm ss).
Proof.
  unfold make. destruct valid_fields;
    [apply raises_only_Ok
    | apply raises_only_Raise; right; left; reflexivity].
Qed.

Lemma truediv_exn n d : raises_only decoder_exn (truediv n d).
Proof.
  unfold truediv. destruct (if (0 <? d)%Z then _ else _);
    [apply raises_only_Ok
    | apply raises_only_Raise; right; right; left; reflexivity].
Qed.

Lemma add_usec_exn t us : raises_only decoder_exn (add_usec t us).
Proof.
  unfold add_usec.
  destruct (_ <? _)%Z;
    [apply raises_only_Raise; right; right; left; reflexivity|].
  destruct (_ && _);
    [|apply raises_only_Raise; right; right; left; reflexivity].
  destruct (ord2ymd _) as [[? ?] ?]. apply raises_only_Ok.
Qed.

Lemma print_exn it : raises_only decoder_exn (outcome (print it)).
Proof.
  rewrite outcome_print. destruct (printable it);
    [apply raises_only_Ok
    | apply raises_only_Raise; right; right; right; reflexivity].
Qed.

Ltac onlyR :=
  repeat first
    [ apply raises_only_bindR; [| intros ? _]
    | apply idx_exn | apply make_exn | apply truediv_exn
    | apply add_usec_exn | apply raises_only_Ok ].

Lemma readContTimestamp_exn data :
  raises_only decoder_exn (readContTimestamp data).
Proof. unfold readContTimestamp. onlyR. Qed.

Lemma filetimeToTimestamp_exn data :
  raises_only decoder_exn (filetimeToTimestamp data).
Proof. unfold filetimeToTimestamp. onlyR. Qed.

Lemma half_exn w : raises_only decoder_exn (half w).
Proof. unfold half. onlyR. Qed.

Lemma datestamp_loop_exn rest : forall x dt,
  raises_only decoder_exn (datestamp_loop rest x dt).
Proof.
  induction rest as [|w rest IH]; intros x dt; cbn [datestamp_loop].
  - apply raises_only_Raise. left. reflexivity.
  - destruct (w =? 0)%Z; [apply raises_only_Ok | apply IH].
Qed.

Lemma detect_header_length_exn data :
  raises_only decoder_exn (detect_header_length data).
Proof.
  intros e H. apply header_loop_error in H. destruct H as [-> _].
  left. reflexivity.
Qed.

Ltac onlyM :=
  repeat first
    [ apply raises_only_bindM; [| intros ? _]
    | rewrite outcome_lift | rewrite outcome_ret | rewrite outcome_when
    | apply print_exn
    | apply idx_exn | apply filetimeToTimestamp_exn
    | apply readContTimestamp_exn | apply detect_header_length_exn
    | apply half_exn | apply datestamp_loop_exn
    | apply raises_only_Ok
    | match goal with |- context [if ?b then _ else _] => destruct b end ].

Lemma scan_record_exn data u i el :
  raises_only decoder_exn (outcome (scan_record data u i el)).
Proof. unfold scan_record. onlyM. Qed.

Lemma scan_next_exn data u i :
  raises_only decoder_exn (outcome (scan_next data u i)).
Proof. unfold scan_next. onlyM. apply scan_record_exn. Qed.

Lemma scan_exn fuel : forall data u i,
  raises_only decoder_exn (outcome (scan fuel data u i)).
Proof.
  induction fuel as [|fuel IH]; intros data u i; cbn [scan];
    destruct (i <? length data); try apply raises_only_Ok.
  - discriminate.
  - apply raises_only_bindM; [apply scan_next_exn | intros c _; apply IH].
Qed.

Lemma printCont_exn data u :
  raises_only decoder_exn (outcome (printCont data u)).
Proof. unfold printCont. onlyM; apply scan_exn. Qed.

(** *** Streams that end too early *)

Lemma printCont_short data u :
  length data <= 37 ->
  outcome (printCont data u)
  = if u || encodable (extractChars (slice data 0 7))
    then Raise IndexError else Raise UnicodeEncodeError.
Proof.
  intros H. unfold printCont.
  rewrite outcome_bind, outcome_when.
  destruct u; cbn [negb orb].
  - cbn [bindR].
    rewrite outcome_bind, outcome_lift, detect_short by exact H.
    reflexivity.
  - rewrite outcome_print. cbn [printable].
    destruct (encodable _); cbn [bindR]; [|reflexivity].
    rewrite outcome_bind, outcome_lift, detect_short by exact H.
    reflexivity.
Qed.

Lemma scan_end fuel data u i :
  length data <= i -> scan fuel data u i = ret tt.
Proof.
  intros H. destruct fuel; cbn [scan];
    destruct (Nat.ltb_spec i (length data)); try lia; reflexivity.
Qed.

(** *** A name that runs past the end *)

Lemma file_record_name data u i el hdr ft w d :
  In (el, hdr, ft) file_records ->
  data !! (i + hdr - 1) = Some w -> is_word w ->
  filetimeToTimestamp (slice data (i + ft) (i + ft + 4)) = Ok d ->
  name_printed u data (i + hdr) (i + hdr + Z.to_nat (w / 2)) = Ok tt ->
  outcome (scan_record data u i el) = Ok (i + hdr + Z.to_nat (w / 2)).
Proof.
  intros Hin Hw Ww Hd Hn.
  assert (Hc : file_record_cursor data i hdr ft
               = Ok (i + hdr + Z.to_nat (w / 2))).
  { unfold file_record_cursor. rewrite Hd. cbn [bindR].
    apply idx_Ok in Hw. rewrite Hw. cbn [bindR].
    rewrite half_word; [reflexivity|].
    unfold is_word in Ww. change (2 ^ 53)%Z with 9007199254740992%Z. lia. }
  apply lookup_lt_Some in Hw.
  destruct Hin as [E|[E|[E|[]]]]; injection E as <- <- <-.
  - rewrite outcome_scan_record_video.
    destruct (idx_lt data (i + 9)) as (a & -> & _); [lia|].
    destruct (idx_lt data (i + 8)) as (b & -> & _); [lia|].
    cbn [bindR]. rewrite Hc. cbn [bindR]. rewrite Hn. reflexivity.
  - rewrite outcome_scan_record_thumbnail, Hc. cbn [bindR].
    rewrite Hn. reflexivity.
  - rewrite outcome_scan_record_xml, Hc. cbn [bindR].
    rewrite Hn. reflexivity.
Qed.

Lemma slice_clipped (data : list Z) a b :
  length data <= b -> slice data a b = drop a data.
Proof.
  intros H. unfold slice. apply take_ge. rewrite length_drop. lia.
Qed.

(** C2, as the code has it.  The decoder is total: on every finite
    word stream it ends, normally or with one of four Python exceptions
    ([IndexError], [ValueError], [OverflowError], [UnicodeEncodeError]).
    It has no [Truncated] error and no bounds check of its own.  An
    index read past the end raises [IndexError]: a stream of 37 words or
    fewer ends with it (after [UnicodeEncodeError] if the tag is printed
    and the console cannot write it), and so do a datestamp without its
    terminating zero and a file record cut before the end of its
    FILETIME.  A slice read past the end is clipped: a file record whose
    name runs past the end of the stream is handled like any other, the
    name being the words that are there, and the scan ends normally. *)
Theorem printCont_total (data : list Z) (unknown_fields : bool) :
  outcome (printCont data unknown_fields) <> Diverge
  /\ raises_only decoder_exn (outcome (printCont data unknown_fields))
  /\ (length data <= 37 ->
      outcome (printCont data unknown_fields)
      = if unknown_fields || encodable (extractChars (slice data 0 7))
        then Raise IndexError else Raise UnicodeEncodeError)
  /\ (forall i,
        (forall k, i + 2 <= k < length data ->
           exists w, data !! k = Some w /\ w <> 0%Z) ->
        outcome (scan_record data unknown_fields i 22) = Raise IndexError)
  /\ (forall i, length data <= i + 15 ->
        outcome (scan_record data unknown_fields i 1) = Raise IndexError)
  /\ (forall i, length data <= i + 11 ->
        outcome (scan_record data unknown_fields i 2) = Raise IndexError)
  /\ (forall i, length data <= i + 5 ->
        outcome (scan_record data unknown_fields i 4) = Raise IndexError)
  /\ (forall i el hdr ft w d fuel,
        In (el, hdr, ft) file_records ->
        data !! i = Some el ->
        data !! (i + hdr - 1) = Some w -> is_word w ->
        filetimeToTimestamp (slice data (i + ft) (i + ft + 4)) = Ok d ->
        name_printed unknown_fields data (i + hdr)
          (i + hdr + Z.to_nat (w / 2)) = Ok tt ->
        length data <= i + hdr + Z.to_nat (w / 2) ->
        slice data (i + hdr) (i + hdr + Z.to_nat (w / 2))
        = drop (i + hdr) data
        /\ outcome (scan_next data unknown_fields i)
           = Ok (i + hdr + Z.to_nat (w / 2) + 1)
        /\ outcome (scan (S fuel) data unknown_fields i) = Ok tt).
Proof.
  split; [apply printCont_no_diverge|].
  split; [apply printCont_exn|].
  split; [apply printCont_short|]. split; [|split; [|split; [|split]]].
  - intros i H. rewrite outcome_scan_record_datestamp.
    rewrite datestamp_loop_unterminated; [reflexivity|].
    apply Forall_lookup. intros k w Hk.
    rewrite lookup_drop in Hk.
    destruct (H (i + 2 + k)) as (w' & Hw' & Hn).
    + apply lookup_lt_Some in Hk. lia.
    + congruence.
  - intros i H. rewrite outcome_scan_record_video.
    destruct (idx_cases data (i + 9)) as [[w ->]| ->]; [|reflexivity].
    cbn [bindR].
    destruct (idx_cases data (i + 8)) as [[w' ->]| ->]; [|reflexivity].
    cbn [bindR]. rewrite file_record_cursor_truncated by lia. reflexivity.
  - intros i H. rewrite outcome_scan_record_thumbnail.
    rewrite file_record_cursor_truncated by lia. reflexivity.
  - intros i H. rewrite outcome_scan_record_xml.
    rewrite file_record_cursor_truncated by lia. reflexivity.
  - intros i el hdr ft w d fuel Hin Hel Hw Ww Hd Hn Hlen.
    assert (Hr : outcome (scan_record data unknown_fields i el)
                 = Ok (i + hdr + Z.to_nat (w / 2)))
      by (eapply file_record_name; eassumption).
    assert (Hs : outcome (scan_next data unknown_fields i)
                 = Ok (i + hdr + Z.to_nat (w / 2) + 1)).
    { rewrite outcome_scan_next. apply idx_Ok in Hel. rewrite Hel.
      cbn [bindR]. rewrite Hr. reflexivity. }
    split; [apply slice_clipped; exact Hlen|]. split; [exact Hs|].
    cbn [scan]. apply lookup_lt_Some in Hel.
    destruct (Nat.ltb_spec i (length data)); [|lia].
    rewrite outcome_bind, Hs. cbn [bindR].
    rewrite scan_end by lia. reflexivity.
Qed.

End DecoderTotality.

(** The cases below run the decoder on a console that encodes UTF-8. *)
Section DecoderCases.
#[local] Existing Instance utf8.
Local Open Scope nat_scope.

Lemma printCont_total_witness :
  (length (take 30 scenario_words) <= 37
   /\ outcome (printCont (take 30 scenario_words) false)
      = if false || encodable (extractChars
                                 (slice (take 30 scenario_words) 0 7))
        then Raise IndexError else Raise UnicodeEncodeError)
  /\ (In (4%Z, 7, 2) file_records
      /\ take 450 scenario_words !! 436 = Some 4%Z
      /\ take 450 scenario_words !! (436 + 7 - 1) = Some 22%Z
      /\ is_word 22
      /\ filetimeToTimestamp
           (slice (take 450 scenario_words) (436 + 2) (436 + 2 + 4))
         = Ok (mkDatetime 2019 6 1 0 16 41 0)
      /\ name_printed false (take 450 scenario_words) (436 + 7)
           (436 + 7 + Z.to_nat (22 / 2)) = Ok tt
      /\ length (take 450 scenario_words) <= 436 + 7 + Z.to_nat (22 / 2))
  /\ slice (take 450 scenario_words) (436 + 7) (436 + 7 + Z.to_nat (22 / 2))
     = drop (436 + 7) (take 450 scenario_words)
  /\ outcome (scan_next (take 450 scenario_words) false 436)
     = Ok (436 + 7 + Z.to_nat (22 / 2) + 1)
  /\ outcome (scan 1 (take 450 scenario_words) false 436) = Ok tt.
Proof.
  assert (H : length (take 30 scenario_words) <= 37)
    by (vm_compute; lia).
  assert (H1 : In (4%Z, 7, 2) file_records)
    by (right; right; left; reflexivity).
  assert (H2 : take 450 scenario_words !! 436 = Some 4%Z)
    by (vm_compute; reflexivity).
  assert (H3 : take 450 scenario_words !! (436 + 7 - 1) = Some 22%Z)
    by (vm_compute; reflexivity).
  assert (H4 : is_word 22) by (unfold is_word; lia).
  assert (H5 : filetimeToTimestamp
                 (slice (take 450 scenario_words) (436 + 2) (436 + 2 + 4))
               = Ok (mkDatetime 2019 6 1 0 16 41 0))
    by (vm_compute; reflexivity).
  assert (H6 : name_printed false (take 450 scenario_words) (436 + 7)
                 (436 + 7 + Z.to_nat (22 / 2)) = Ok tt)
    by (vm_compute; reflexivity).
  assert (H7 : length (take 450 scenario_words)
               <= 436 + 7 + Z.to_nat (22 / 2))
    by (vm_compute; lia).
  split; [split; [exact H|]|].
  - exact (proj1 (proj2 (proj2
             (printCont_total (take 30 scenario_words) false))) H).
  - split; [exact (conj H1 (conj H2 (conj H3 (conj H4
                     (conj H5 (conj H6 H7))))))|].
    exact (proj2 (proj2 (proj2 (proj2 (proj2 (proj2 (proj2
             (printCont_total (take 450 scenario_words) false)))))))
             436 4%Z 7 2 22%Z _ 0 H1 H2 H3 H4 H5 H6 H7).
Defined.

(** C2 as stated fails on the code.  The buffer of the scenario cut
    after 450 of its 455 words stops inside the name of the last record:
    the decoder ends normally, with the name clipped to "00019.".  An
    invalid month ends it with [ValueError], an oversized FILETIME with
    [OverflowError]. *)
Lemma printCont_truncated_name_accepted :
  length scenario_words = 455
  /\ outcome (printCont (take 450 scenario_words) false) = Ok tt
  /\ fields "File Name" (output (printCont (take 450 scenario_words) false))
     = [VStr (pystr "00019.M2TS"); VStr (pystr "00019.tmb");
        VStr (pystr "00019.")]
  /\ outcome (printCont (<[39 := 13%Z]> scenario_words) false)
     = Raise ValueError
  /\ outcome (printCont (<[398 := 65535%Z]> scenario_words) false)
     = Raise OverflowError.
Proof.
  split; [vm_compute; reflexivity|].
  split; [vm_compute; reflexivity|].
  split; [vm_compute; reflexivity|].
  split; vm_compute; reflexivity.
Qed.

(** A tag of seven surrogate words cannot be printed: the decoder ends
    with [UnicodeEncodeError] before it looks for the header, and with
    [IndexError] when the tag is not printed. *)
Lemma printCont_surrogate_tag :
  outcome (printCont (repeat 55296%Z 7) false) = Raise UnicodeEncodeError
  /\ output (printCont (repeat 55296%Z 7) false) = []
  /\ outcome (printCont (repeat 55296%Z 7) true) = Raise IndexError.
Proof.
  split; [vm_compute; reflexivity|].
  split; vm_compute; reflexivity.
Qed.

End DecoderCases.

(** ** The assembler of the encoder *)
Section AssemblerFacts.
Local Open Scope nat_scope.

Lemma struct_pack_ok f v :
  (0 <= v < fmt_bound f)%Z ->
  struct_pack f v = Ok (le_bytes (fmt_size f) v).
Proof.
  intros [H0 H1]. unfold struct_pack.
  destruct (Z.leb_spec 0 v); [|lia].
  destruct (Z.ltb_spec v (fmt_bound f)); [reflexivity | lia].
Qed.

Lemma struct_pack_overflow f v :
  (fmt_bound f <= v)%Z -> struct_pack f v = Raise StructError.
Proof.
  intros H. unfold struct_pack.
  destruct (Z.ltb_spec v (fmt_bound f)); [lia|].
  rewrite andb_false_r. reflexivity.
Qed.

Lemma struct_pack_no_diverge f v : struct_pack f v <> Diverge.
Proof. unfold struct_pack. destruct (_ && _); discriminate. Qed.

Lemma pack_each_app f l : forall data,
  pack_each f l data = (let! b := pack_each f l [] in Ok (data ++ b)).
Proof.
  induction l as [|c l IH]; intros data; cbn [pack_each bindR].
  - rewrite app_nil_r. reflexivity.
  - destruct (struct_pack f c) as [b| |]; cbn [bindR]; try reflexivity.
    rewrite (IH (data ++ b)), (IH ([] ++ b)).
    destruct (pack_each f l []) as [t| |]; cbn [bindR]; try reflexivity.
    rewrite app_nil_l, app_assoc. reflexivity.
Qed.

Lemma pack_each_no_diverge f l : forall data,
  pack_each f l data <> Diverge.
Proof.
  induction l as [|c l IH]; intros data; cbn [pack_each]; [discriminate|].
  pose proof (struct_pack_no_diverge f c).
  destruct (struct_pack f c); cbn [bindR]; [apply IH | discriminate | auto].
Qed.

Lemma pack_each_ok f l :
  Forall (fun v => (0 <= v < fmt_bound f)%Z) l ->
  pack_each f l [] = Ok (flat_map (le_bytes (fmt_size f)) l).
Proof.
  induction l as [|c l IH]; intros F; [reflexivity|].
  inversion F as [|? ? Hc F']; subst. cbn [pack_each flat_map].
  rewrite struct_pack_ok by exact Hc. cbn [bindR].
  rewrite pack_each_app, IH by exact F'. reflexivity.
Qed.

Lemma emit_content data el :
  emit data el
  = (let! c := block_content el in
     Ok (data ++ c
         ++ match elength el with
            | Some len => repeat 0%Z (len - length c)
            | None => []
            end)).
Proof.
  unfold emit, block_content.
  assert (P : forall f s,
    (let! d := pack_each f s (data ++ repeat 0%Z (prenul el)) in
     Ok match elength el with
        | Some len =>
            if length d - length data <? len
            then d ++ repeat 0%Z (len - (length d - length data))
            else d
        | None => d
        end)
    = (let! c := (let! b := pack_each f s [] in
                  Ok (repeat 0%Z (prenul el) ++ b)) in
       Ok (data ++ c
           ++ match elength el with
              | Some len => repeat 0%Z (len - length c)
              | None => []
              end))).
  { intros f s. rewrite pack_each_app.
    destruct (pack_each f s []) as [b| |]; cbn [bindR]; try reflexivity.
    f_equal. rewrite <- !app_assoc.
    destruct (elength el) as [len|]; [|rewrite app_nil_r; reflexivity].
    rewrite !length_app.
    replace (length data + (length (repeat 0%Z (prenul el)) + length b)
             - length data)
      with (length (repeat 0%Z (prenul el)) + length b) by lia.
    destruct (Nat.ltb_spec (length (repeat 0%Z (prenul el)) + length b) len)
      as [Hlt|Hge].
    - rewrite <- !app_assoc. reflexivity.
    - replace (len - (length (repeat 0%Z (prenul el)) + length b)) with 0
        by lia.
      cbn [repeat]. rewrite app_nil_r. reflexivity. }
  destruct (edata el) as [b|f s|f s|f z]; try apply P.
  - cbn [bindR]. f_equal. rewrite <- !app_assoc.
    destruct (elength el) as [len|]; [|rewrite app_nil_r; reflexivity].
    rewrite !length_app.
    replace (length data + (length (repeat 0%Z (prenul el)) + length b)
             - length data)
      with (length (repeat 0%Z (prenul el)) + length b) by lia.
    destruct (Nat.ltb_spec (length (repeat 0%Z (prenul el)) + length b) len)
      as [Hlt|Hge].
    + rewrite <- !app_assoc. reflexivity.
    + replace (len - (length (repeat 0%Z (prenul el)) + length b)) with 0
        by lia.
      cbn [repeat]. rewrite app_nil_r. reflexivity.
  - destruct (struct_pack f z) as [b| |]; cbn [bindR]; try reflexivity.
    f_equal. rewrite <- !app_assoc.
    destruct (elength el) as [len|]; [|rewrite app_nil_r; reflexivity].
    rewrite !length_app.
    replace (length data + (length (repeat 0%Z (prenul el)) + length b)
             - length data)
      with (length (repeat 0%Z (prenul el)) + length b) by lia.
    destruct (Nat.ltb_spec (length (repeat 0%Z (prenul el)) + length b) len)
      as [Hlt|Hge].
    + rewrite <- !app_assoc. reflexivity.
    + replace (len - (length (repeat 0%Z (prenul el)) + length b)) with 0
        by lia.
      cbn [repeat]. rewrite app_nil_r. reflexivity.
Qed.
End AssemblerFacts.

Section LengthFields.
Local Open Scope nat_scope.

Lemma block_content_no_diverge el : block_content el <> Diverge.
Proof.
  unfold block_content. destruct (edata el) as [b|f s|f s|f z].
  - discriminate.
  - pose proof (pack_each_no_diverge f s []).
    destruct (pack_each f s []); cbn [bindR]; auto; discriminate.
  - pose proof (pack_each_no_diverge f s []).
    destruct (pack_each f s []); cbn [bindR]; auto; discriminate.
  - pose proof (struct_pack_no_diverge f z).
    destruct (struct_pack f z); cbn [bindR]; auto; discriminate.
Qed.

Lemma emit_no_diverge data el : emit data el <> Diverge.
Proof.
  rewrite emit_content. pose proof (block_content_no_diverge el).
  destruct (block_content el); cbn [bindR]; auto; discriminate.
Qed.

Lemma assemble_raise_In el els :
  In el els -> (forall d, is_raise (emit d el)) ->
  forall d, is_raise (assemble els d).
Proof.
  intros Hin Hel. induction els as [|a els IH]; [destruct Hin|].
  intros d. cbn [assemble].
  destruct Hin as [->|Hin].
  - destruct (Hel d) as [e ->]. exists e. reflexivity.
  - pose proof (emit_no_diverge d a).
    destruct (emit d a) as [d'|e|]; cbn [bindR];
      [apply IH, Hin | exists e; reflexivity | contradiction].
Qed.

Lemma makeWindowsFiletime_no_diverge x : makeWindowsFiletime x <> Diverge.
Proof. unfold makeWindowsFiletime. destruct (mul _ _); discriminate. Qed.

End LengthFields.

(** ** The buffer of the encoder, word by word *)
Section EncodeImage.
Local Open Scope nat_scope.

Lemma assemble_contents blocks : forall data,
  assemble blocks data = (let! r := contents blocks in Ok (data ++ r)).
Proof.
  induction blocks as [|el rest IH]; intros data; cbn [assemble contents bindR].
  - rewrite app_nil_r. reflexivity.
  - rewrite emit_content.
    destruct (block_content el) as [c| |]; cbn [bindR]; try reflexivity.
    rewrite IH. destruct (contents rest) as [r| |]; cbn [bindR]; try reflexivity.
    rewrite <- !app_assoc. reflexivity.
Qed.

Lemma block_content_fits el :
  payload_fits (edata el) ->
  block_content el
  = Ok (repeat 0%Z (prenul el) ++ payload_bytes (edata el)).
Proof.
  unfold block_content, payload_fits, payload_bytes.
  destruct (edata el) as [b|f s|f s|f z]; intros H.
  - reflexivity.
  - rewrite pack_each_ok by exact H. reflexivity.
  - rewrite pack_each_ok by exact H. reflexivity.
  - rewrite struct_pack_ok by exact H. reflexivity.
Qed.

Lemma contents_fits blocks :
  Forall (fun el => payload_fits (edata el)) blocks ->
  contents blocks = Ok (flat_map block_bytes blocks).
Proof.
  induction blocks as [|el rest IH]; intros F; [reflexivity|].
  inversion F as [|? ? Hel F']; subst. cbn [contents flat_map].
  rewrite block_content_fits by exact Hel. cbn [bindR].
  rewrite IH by exact F'. cbn [bindR]. unfold block_bytes.
  rewrite <- !app_assoc. reflexivity.
Qed.

Lemma valid_ranges t :
  valid t ->
  (1 <= year t <= 9999 /\ 1 <= month t <= 12 /\ 1 <= day t <= 31
   /\ 0 <= hour t <= 23 /\ 0 <= minute t <= 59 /\ 0 <= second t <= 59)%Z.
Proof.
  intros [H _]. unfold valid_fields in H.
  repeat (apply andb_true_iff in H; destruct H as [H ?]).
  repeat match goal with
         | H : (_ <=? _)%Z = true |- _ => apply Z.leb_le in H
         end.
  assert (days_in_month (year t) (month t) <= 31)%Z.
  { unfold days_in_month, days_in_month_table.
    repeat match goal with |- context [if ?b then _ else _] => destruct b end; lia. }
  lia.
Qed.

Lemma is_char_range s :
  Forall is_char s -> Forall (fun v => (0 <= v < fmt_bound fmts)%Z) s.
Proof.
  intros H. eapply Forall_impl; [exact H|].
  intros c [H0 H1]. change (fmt_bound fmts) with 65536%Z. lia.
Qed.

Lemma le16_app a b : le16 (a ++ b) = le16 a ++ le16 b.
Proof. apply flat_map_app. Qed.

Lemma le16_cons w ws : le16 (w :: ws) = le_bytes 2 w ++ le16 ws.
Proof. reflexivity. Qed.

Lemma le_bytes_words n v :
  le16 (words_le (le_bytes (2 * n) v)) = le_bytes (2 * n) v.
Proof.
  revert v. induction n as [|n IH]; intros v; [reflexivity|].
  replace (2 * S n) with (S (S (2 * n))) by lia.
  cbn [le_bytes words_le le16 flat_map].
  change (flat_map (le_bytes 2)) with le16. rewrite IH.
  cbn [app]. f_equal; [|f_equal].
  - pose proof (Z.mod_pos_bound v 256). pose proof (Z.mod_pos_bound (v / 256) 256).
    Z.div_mod_to_equations. lia.
  - pose proof (Z.mod_pos_bound v 256). pose proof (Z.mod_pos_bound (v / 256) 256).
    Z.div_mod_to_equations. lia.
Qed.

Lemma le16_size_words v : le16 (size_words v) = le_bytes 4 v.
Proof. exact (le_bytes_words 2 v). Qed.

Lemma le16_filetime_words ft : le16 (filetime_words ft) = le_bytes 8 ft.
Proof. exact (le_bytes_words 4 ft). Qed.

Lemma range_forallb f l :
  forallb (fun v => (0 <=? v)%Z && (v <? fmt_bound f)%Z) l = true ->
  Forall (fun v => (0 <= v < fmt_bound f)%Z) l.
Proof.
  intros H. apply Forall_forall. intros v Hv.
  rewrite forallb_forall in H. apply list_elem_of_In in Hv.
  specialize (H v Hv). apply andb_true_iff in H. destruct H as [H0 H1].
  apply Z.leb_le in H0. apply Z.ltb_lt in H1. lia.
Qed.

Ltac range :=
  lazymatch goal with
  | |- True => exact I
  | |- Forall _ _ =>
      first [ solve [repeat (constructor; [cbn [fmt_bound]; lia|]); constructor]
            | apply is_char_range; assumption
            | apply range_forallb; vm_compute; reflexivity ]
  | |- _ => cbn [fmt_bound]; lia
  end.

Lemma encode_image p ft1 ft2 ft3 :
  wf_params p ->
  makeWindowsFiletime (m2ts_creation_date p) = Ok ft1 ->
  makeWindowsFiletime (tmb_creation_date p) = Ok ft2 ->
  makeWindowsFiletime (pmpd_creation_date p) = Ok ft3 ->
  (0 <= ft1 < 18446744073709551616)%Z ->
  (0 <= ft2 < 18446744073709551616)%Z ->
  (0 <= ft3 < 18446744073709551616)%Z ->
  encode p = Ok (le16 (cont_words p ft1 ft2 ft3)).
Proof.
  intros W E1 E2 E3 B1 B2 B3.
  destruct W as [V1 V2 V3 V4 Hfs Has Hbr Hbd Hch Hfr Srs Sfn Stn Spn
                   Lrs Lfn Ltn Lpn].
  destruct (valid_ranges _ V1) as (? & ? & ? & ? & ? & ?).
  destruct (valid_ranges _ V2) as (? & ? & ? & ? & ? & ?).
  destruct (valid_ranges _ V3) as (? & ? & ? & ? & ? & ?).
  destruct (valid_ranges _ V4) as (? & ? & ? & ? & ? & ?).
  unfold is_word in *.
  unfold encode, file_structure. rewrite E1, E2, E3. cbn [bindR].
  rewrite assemble_contents.
  rewrite contents_fits.
  2:{ unfold makeContTimestamp.
      repeat (constructor; [cbn [payload_fits edata]; range|]).
      constructor. }
  cbn [bindR app]. f_equal.
  unfold cont_words, header_words, fixed_words, datestamp_words,
    video_words, tmb_words, pmpd_words, stream_words, name_field.
  rewrite ?le16_app.
  rewrite ?le16_size_words, ?le16_filetime_words.
  rewrite ?app_nil_r, <- ?app_assoc.
  cbn [flat_map].
  cbv [block_bytes payload_bytes edata prenul elength fmt_size].
  rewrite ?app_nil_r, <- ?app_assoc.
  reflexivity.
Qed.
End EncodeImage.
(** ** Fields with a declared length, and values that do not fit *)
Section LengthFields.
Local Open Scope nat_scope.

Lemma fits_dec f v :
  (0 <= v < fmt_bound f)%Z \/ ~ (0 <= v < fmt_bound f)%Z.
Proof. lia. Qed.

Lemma struct_pack_unfit f v :
  ~ (0 <= v < fmt_bound f)%Z -> struct_pack f v = Raise StructError.
Proof.
  intros H. unfold struct_pack.
  destruct (Z.leb_spec 0 v); [|reflexivity].
  destruct (Z.ltb_spec v (fmt_bound f)); [lia | reflexivity].
Qed.

Lemma pack_each_unfit f l :
  Exists (fun v => ~ (0 <= v < fmt_bound f)%Z) l ->
  forall data, pack_each f l data = Raise StructError.
Proof.
  induction l as [|c l IH]; intros E data; [inversion E|].
  cbn [pack_each]. destruct (fits_dec f c) as [Hc|Hc].
  - rewrite struct_pack_ok by exact Hc. cbn [bindR]. apply IH.
    inversion E as [? ? Hn|? ? Ht]; subst; [contradiction | exact Ht].
  - rewrite struct_pack_unfit by exact Hc. reflexivity.
Qed.

Lemma block_content_unfit el :
  payload_overflows (edata el) -> block_content el = Raise StructError.
Proof.
  unfold payload_overflows, block_content.
  destruct (edata el) as [b|f s|f s|f z]; intros H.
  - contradiction.
  - rewrite pack_each_unfit by exact H. reflexivity.
  - rewrite pack_each_unfit by exact H. reflexivity.
  - rewrite struct_pack_unfit by exact H. reflexivity.
Qed.

Lemma payload_fits_dec d : payload_fits d \/ payload_overflows d.
Proof.
  assert (L : forall f s,
            Forall (fun v => (0 <= v < fmt_bound f)%Z) s
            \/ Exists (fun v => ~ (0 <= v < fmt_bound f)%Z) s).
  { intros f s. induction s as [|c s IH]; [left; constructor|].
    destruct (fits_dec f c) as [Hc|Hc];
      [|right; apply Exists_cons_hd; exact Hc].
    destruct IH as [IH|IH];
      [left; constructor; assumption
      | right; apply Exists_cons_tl; exact IH]. }
  destruct d as [b|f s|f s|f z]; cbn.
  - left. exact I.
  - apply L.
  - apply L.
  - apply fits_dec.
Qed.

Lemma contents_unfit blocks :
  Exists (fun el => payload_overflows (edata el)) blocks ->
  contents blocks = Raise StructError.
Proof.
  induction blocks as [|el rest IH]; intros E; [inversion E|].
  cbn [contents].
  destruct (payload_fits_dec (edata el)) as [Hf|Ho].
  - rewrite block_content_fits by exact Hf. cbn [bindR].
    rewrite IH; [reflexivity|].
    inversion E as [? ? Hn|? ? Ht]; subst; [|exact Ht].
    exfalso. clear - Hf Hn.
    unfold payload_fits, payload_overflows in *.
    destruct (edata el) as [b|f s|f s|f z]; try contradiction;
      try (induction Hf; inversion Hn; subst; auto).
  - rewrite block_content_unfit by exact Ho. reflexivity.
Qed.

Lemma contents_Ok_fits blocks r :
  contents blocks = Ok r ->
  Forall (fun el => payload_fits (edata el)) blocks.
Proof.
  revert r. induction blocks as [|el rest IH]; intros r H; [constructor|].
  destruct (payload_fits_dec (edata el)) as [Hf|Ho].
  - constructor; [exact Hf|]. cbn [contents] in H.
    rewrite block_content_fits in H by exact Hf. cbn [bindR] in H.
    destruct (contents rest) as [r'| |]; [|discriminate..].
    eapply IH. reflexivity.
  - rewrite contents_unfit in H; [discriminate|].
    apply Exists_cons_hd. exact Ho.
Qed.

Lemma file_structure_Ok p blocks :
  file_structure p = Ok blocks ->
  exists ft1 ft2 ft3,
    makeWindowsFiletime (m2ts_creation_date p) = Ok ft1
    /\ makeWindowsFiletime (tmb_creation_date p) = Ok ft2
    /\ makeWindowsFiletime (pmpd_creation_date p) = Ok ft3.
Proof.
  unfold file_structure. intros H.
  destruct (makeWindowsFiletime (m2ts_creation_date p)) as [ft1| |];
    [|discriminate..].
  destruct (makeWindowsFiletime (tmb_creation_date p)) as [ft2| |];
    [|discriminate..].
  destruct (makeWindowsFiletime (pmpd_creation_date p)) as [ft3| |];
    [|discriminate..].
  exists ft1, ft2, ft3. auto.
Qed.




End LengthFields.

Section LoadImage.
Local Open Scope nat_scope.

Lemma words_le_le16 ws : Forall is_word ws -> words_le (le16 ws) = ws.
Proof.
  unfold le16.
  induction ws as [|w ws IH]; intros F; [reflexivity|].
  inversion F as [|? ? Hw F']; subst.
  cbn [flat_map].
  change (le_bytes 2 w) with [w mod 256; (w / 256) mod 256]%Z.
  cbn [app words_le]. rewrite IH by exact F'.
  f_equal. unfold is_word in Hw. Z.div_mod_to_equations. lia.
Qed.

Lemma le16_is_byte ws : Forall is_byte (le16 ws).
Proof.
  unfold le16. induction ws as [|w ws IH]; [constructor|].
  cbn [flat_map]. apply Forall_app. split; [apply le_bytes_is_byte | exact IH].
Qed.

Lemma length_le16 ws : length (le16 ws) = 2 * length ws.
Proof.
  unfold le16. induction ws as [|w ws IH]; [reflexivity|].
  cbn [flat_map]. rewrite length_app, length_le_bytes, IH.
  cbn [length]. lia.
Qed.

Lemma readFile16_le16 sys ws :
  Forall is_word ws -> (Z.of_nat (length ws) < 2 ^ 52)%Z ->
  readFile16 sys (le16 ws) Little true = Ok ws.
Proof.
  intros F L. rewrite readFile16_little.
  - rewrite words_le_le16 by exact F. reflexivity.
  - apply le16_is_byte.
  - rewrite length_le16. change (2 ^ 53)%Z with (2 * 2 ^ 52)%Z. lia.
Qed.

Lemma words_le_is_word bs : Forall is_byte bs -> Forall is_word (words_le bs).
Proof.
  induction bs as [|x|x y l IH] using list_pair_ind; intros F;
    try constructor.
  - inversion F as [|? ? Hx F']; subst. inversion F' as [|? ? Hy F'']; subst.
    unfold is_byte, is_word in *. lia.
  - apply IH. inversion F as [|? ? Hx F']; subst. inversion F'; assumption.
Qed.

Lemma is_char_word s : Forall is_char s -> Forall is_word s.
Proof.
  intros H. eapply Forall_impl; [exact H|]. unfold is_char, is_word. lia.
Qed.

Lemma word_forallb l :
  forallb (fun v => (0 <=? v)%Z && (v <? 65536)%Z) l = true ->
  Forall is_word l.
Proof. apply (range_forallb fmts). Qed.

Lemma cont_words_is_word p ft1 ft2 ft3 :
  wf_params p -> Forall is_word (cont_words p ft1 ft2 ft3).
Proof.
  intros W.
  destruct W as [V1 V2 V3 V4 Hfs Has Hbr Hbd Hch Hfr Srs Sfn Stn Spn
                   Lrs Lfn Ltn Lpn].
  destruct (valid_ranges _ V1) as (? & ? & ? & ? & ? & ?).
  destruct (valid_ranges _ V2) as (? & ? & ? & ? & ? & ?).
  destruct (valid_ranges _ V3) as (? & ? & ? & ? & ? & ?).
  destruct (valid_ranges _ V4) as (? & ? & ? & ? & ? & ?).
  unfold cont_words, header_words, fixed_words, datestamp_words,
    video_words, tmb_words, pmpd_words, stream_words, name_field,
    ts_words, makeContTimestamp, size_words, filetime_words.
  unfold is_word in *.
  repeat (apply Forall_app; split);
    lazymatch goal with
    | |- Forall _ (words_le _) =>
        apply words_le_is_word, le_bytes_is_byte
    | |- Forall _ (record_str _) => apply is_char_word; assumption
    | |- Forall _ (file_name _) => apply is_char_word; assumption
    | |- Forall _ (tmb_file _) => apply is_char_word; assumption
    | |- Forall _ (pmpd_file _) => apply is_char_word; assumption
    | |- Forall _ preamble_words =>
        apply word_forallb; vm_compute; reflexivity
    | |- Forall _ brand_block =>
        apply word_forallb; vm_compute; reflexivity
    | |- Forall _ device_block =>
        apply word_forallb; vm_compute; reflexivity
    | |- _ =>
        first [ solve [repeat (constructor; [lia|]); constructor]
              | apply word_forallb; vm_compute; reflexivity ]
    end.
Qed.

Lemma length_cont_words p ft1 ft2 ft3 :
  length (cont_words p ft1 ft2 ft3)
  = 416 + length (record_str p) + length (file_name p)
    + length (tmb_file p) + length (pmpd_file p).
Proof.
  unfold cont_words, datestamp_words, video_words, tmb_words, pmpd_words,
    name_field.
  rewrite !length_app.
  change (length (header_words p)) with 370.
  change (length (size_words (file_size p))) with 2.
  change (length (filetime_words ft1)) with 4.
  change (length (filetime_words ft2)) with 4.
  change (length (filetime_words ft3)) with 4.
  cbn [length]. lia.
Qed.
End LoadImage.
(** ** Decoding the buffer the encoder writes

    [printCont] is run on the word image [cont_words] of the encoder's
    buffer: the header length is detected, the header is read field by
    field, and the scan walks the datestamp and the three file records to
    the end of the buffer. *)
Section DecodeImage.
Context {stdout : Console}.
Hypothesis Hascii : writes_ascii.
Local Open Scope nat_scope.

Lemma bindM_print {B} it (f : unit -> M B) :
  printable it = true -> bindM (print it) f = prepend [it] (f tt).
Proof.
  intros H. unfold bindM, print, prepend. rewrite H.
  destruct (f tt). reflexivity.
Qed.

Lemma ascii_encodable s :
  forallb (fun c => (0 <=? c)%Z && (c <? 128)%Z) s = true ->
  encodable s = true.
Proof.
  unfold encodable. rewrite !forallb_forall. intros H c Hc.
  specialize (H c Hc). apply andb_true_iff in H. destruct H as [H0 H1].
  apply Hascii. apply Z.leb_le in H0. apply Z.ltb_lt in H1. lia.
Qed.

(** a text is printed once its value is known: a hypothesis says that
    the console writes it, or it is a constant in ASCII *)
Ltac text_ok s :=
  cbn [printable];
  first [ assumption
        | lazymatch s with
          | context [slice] => fail
          | context [extractChars] => fail
          | _ => apply ascii_encodable; vm_compute; reflexivity
          end ].

Ltac printable_ok :=
  lazymatch goal with
  | |- printable (Text ?s) = true => text_ok s
  | |- printable (Field _ (VStr ?s)) = true => text_ok s
  | |- _ => reflexivity
  end.

Lemma bindM_lift_Ok {A B} (a : A) (f : A -> M B) :
  bindM (lift (Ok a)) f = f a.
Proof. unfold bindM, lift. destruct (f a). reflexivity. Qed.

Lemma bindM_ret {A B} (a : A) (f : A -> M B) : bindM (ret a) f = f a.
Proof. unfold bindM, ret. destruct (f a). reflexivity. Qed.

Lemma bindM_assoc {A B C} (m : M A) (f : A -> M B) (g : B -> M C) :
  bindM (bindM m f) g = bindM m (fun a => bindM (f a) g).
Proof.
  destruct m as [o [a | e |]]; cbn; try reflexivity.
  destruct (f a) as [o' [b | e |]]; cbn; try reflexivity.
  destruct (g b) as [o'' r]. rewrite app_assoc. reflexivity.
Qed.

Lemma prepend_prepend {A} o o' (m : M A) :
  prepend o (prepend o' m) = prepend (o ++ o') m.
Proof. unfold prepend. cbn. rewrite app_assoc. reflexivity. Qed.

Lemma bindM_prepend {A B} o (m : M A) (f : A -> M B) :
  bindM (prepend o m) f = prepend o (bindM m f).
Proof.
  destruct m as [o' [a | e |]]; unfold prepend; cbn; try reflexivity.
  destruct (f a). cbn. rewrite app_assoc. reflexivity.
Qed.

Lemma size_join v :
  (0 <= v < 4294967296)%Z ->
  (Z.shiftl (v / 256 / 256 mod 256 + 256 * (v / 256 / 256 / 256 mod 256)) 16
   + (v mod 256 + 256 * (v / 256 mod 256)) = v)%Z.
Proof.
  intros H. rewrite Z.shiftl_mul_pow2 by lia.
  change (2 ^ 16)%Z with 65536%Z.
  pose proof (Z.div_mod v 256 ltac:(lia)).
  pose proof (Z.div_mod (v / 256) 256 ltac:(lia)).
  pose proof (Z.div_mod (v / 256 / 256) 256 ltac:(lia)).
  assert (0 <= v / 256 / 256 / 256 < 256)%Z.
  { rewrite !Z.div_div by lia. cbn [Z.mul Pos.mul].
    split; [apply Z.div_pos; lia | apply Z.div_lt_upper_bound; lia]. }
  rewrite (Z.mod_small (v / 256 / 256 / 256)) by lia. lia.
Qed.

Ltac eval_idx :=
  repeat match goal with
  | |- context [idx ?d ?k] =>
      let r := eval lazy [idx lookup list_lookup app fixed_words
                            preamble_words ts_words makeContTimestamp
                            stream_words size_words words_le le_bytes
                            slice take drop Nat.sub
                            Nat.add]
               in (idx d k) in
      change (idx d k) with r
  end.

Lemma read_ts t pre post :
  valid t ->
  readContTimestamp (slice (pre ++ ts_words t ++ post)
                       (length pre) (length pre + 8))
  = Ok (whole_seconds t).
Proof.
  intros V. unfold slice.
  rewrite drop_app_length.
  replace (length pre + 8 - length pre) with 8 by lia.
  unfold readContTimestamp. eval_idx. cbn [bindR].
  apply make_valid, V.
Qed.

Ltac test_candidate :=
  unfold header_test; eval_idx; cbn [bindR];
  repeat match goal with
  | |- context [Z.eqb ?a ?b] =>
      destruct (Z.eqb_spec a b); cbn [negb];
      try reflexivity; try lia
  end.

Lemma detect_fixed p tail :
  wf_params p -> header_found p ->
  detect_header_length (fixed_words p ++ tail) = Ok 37.
Proof.
  intros W [Hy Hh].
  destruct W as [V1 V2 V3 V4 _ _ _ _ _ _ _ _ _ _ _ _ _ _].
  destruct (valid_ranges _ V1) as (? & ? & ? & ? & ? & ?).
  destruct (valid_ranges _ V2) as (? & ? & ? & ? & ? & ?).
  destruct (valid_ranges _ V3) as (? & ? & ? & ? & ? & ?).
  destruct (valid_ranges _ V4) as (? & ? & ? & ? & ? & ?).
  set (data := fixed_words p ++ tail).
  assert (T29 : header_test data 29 = Ok false) by (subst data; test_candidate).
  assert (T30 : header_test data 30 = Ok false) by (subst data; test_candidate).
  assert (T31 : header_test data 31 = Ok false) by (subst data; test_candidate).
  assert (T32 : header_test data 32 = Ok false) by (subst data; test_candidate).
  assert (T33 : header_test data 33 = Ok false) by (subst data; test_candidate).
  assert (T34 : header_test data 34 = Ok false) by (subst data; test_candidate).
  assert (T35 : header_test data 35 = Ok false) by (subst data; test_candidate).
  assert (T36 : header_test data 36 = Ok false) by (subst data; test_candidate).
  assert (T37 : exists b, header_test data 37 = Ok b).
  { subst data. unfold header_test. eval_idx. cbn [bindR].
    repeat match goal with
    | |- context [if ?c then _ else _] => destruct c
    end; eauto. }
  destruct T37 as [b T37].
  unfold detect_header_length. cbn [seq header_loop].
  rewrite T29, T30, T31, T32, T33, T34, T35, T36, T37. cbn [bindR].
  destruct b; reflexivity.
Qed.

Ltac eval_idx_in data :=
  repeat match goal with
  | |- context [idx data ?k] =>
      let r := eval lazy [data header_words idx lookup list_lookup app fixed_words
                            preamble_words ts_words makeContTimestamp
                            stream_words size_words words_le le_bytes
                            Nat.add]
               in (idx data k) in
      change (idx data k) with r
  end.

Ltac mstep :=
  first [ rewrite bindM_print by printable_ok
        | rewrite bindM_lift_Ok | rewrite bindM_ret
        | rewrite bindM_prepend | rewrite prepend_prepend
        | rewrite bindM_assoc ]; cbv beta.

Lemma printCont_header p tail :
  wf_params p -> header_found p ->
  let data := header_words p ++ tail in
  printCont data false
  = prepend (header_report p) (scan (length data) data false 370).
Proof.
  intros W Hf data. unfold printCont.
  assert (D : data = fixed_words p
                     ++ (brand_block ++ (device_block ++ [0%Z]) ++ tail)).
  { unfold data, header_words. rewrite <- !app_assoc. reflexivity. }
  replace (detect_header_length data) with (Ok (A:=nat) 37)
    by (rewrite D; symmetry; apply (detect_fixed p _ W Hf)).
  destruct W as [V1 V2 V3 V4 Hs _ Hb _ _ _ _ _ _ _ _ _ _ _].
  cbn [negb when Nat.add].
  assert (T1 : readContTimestamp (slice data 37 45)
               = Ok (whole_seconds (record_dt p))).
  { subst data. unfold readContTimestamp. eval_idx. cbn [bindR].
    apply make_valid, V1. }
  assert (T2 : readContTimestamp (slice data 45 53)
               = Ok (whole_seconds (record_dt_utc p))).
  { subst data. unfold readContTimestamp. eval_idx. cbn [bindR].
    apply make_valid, V2. }
  assert (T3 : readContTimestamp (slice data 53 61)
               = Ok (whole_seconds (file_modified p))).
  { subst data. unfold readContTimestamp. eval_idx. cbn [bindR].
    apply make_valid, V3. }
  assert (T4 : readContTimestamp (slice data 61 69)
               = Ok (whole_seconds (file_created p))).
  { subst data. unfold readContTimestamp. eval_idx. cbn [bindR].
    apply make_valid, V4. }
  assert (L : length (fixed_words p) = 114) by reflexivity.
  assert (S0 : extractChars (slice data 0 7) = pystr "P_Cont_")
    by (rewrite D; reflexivity).
  assert (S1 : extractChars (slice data 114 242) = (brand ++ [10%Z])).
  { unfold slice. rewrite D, drop_app_length' by exact L.
    change (242 - 114) with (length brand_block).
    rewrite take_app_length. reflexivity. }
  assert (S2 : extractChars (slice data 242 370)
               = (pystr "01" ++ [10%Z] ++ pystr "HC-V210/V110" ++ [10%Z]
                  ++ pystr "00" ++ [10%Z] ++ pystr "00" ++ [10%Z])).
  { unfold slice. rewrite D, app_assoc.
    rewrite drop_app_length' by (rewrite length_app, L; reflexivity).
    change (370 - 242) with (length (device_block ++ [0%Z])).
    rewrite take_app_length. reflexivity. }
  repeat first
    [ mstep
    | progress cbn [Nat.add negb when]
    | rewrite T1 | rewrite T2 | rewrite T3 | rewrite T4
    | rewrite S0 | rewrite S1 | rewrite S2
    | progress eval_idx_in data ].
  rewrite !size_join by assumption.
  reflexivity.
Qed.

(** *** The four records after the header *)

Lemma extractChars_fold s : forall acc,
  Forall is_char s -> fold_left extractChars_step s acc = acc ++ s.
Proof.
  induction s as [|c s IH]; intros acc F; cbn [fold_left].
  - rewrite app_nil_r. reflexivity.
  - inversion F as [|? ? Hc F']; subst. unfold is_char in Hc.
    rewrite IH by exact F'. unfold extractChars_step.
    destruct (Z.eqb_spec c 0); [lia|].
    destruct (Z.leb_spec 0 c); [|lia].
    destruct (Z.ltb_spec c 1114112); [|lia].
    cbn [andb]. rewrite <- app_assoc. reflexivity.
Qed.

Lemma extractChars_name s :
  Forall is_char s -> extractChars (0%Z :: s) = s.
Proof.
  intros F. unfold extractChars. cbn [fold_left].
  change (extractChars_step [] 0) with (@nil Z).
  apply (extractChars_fold s []), F.
Qed.

Lemma extractChars_chars s : Forall is_char s -> extractChars s = s.
Proof. intros F. apply (extractChars_fold s []), F. Qed.

Lemma datestamp_loop_chars s rest : forall x dt,
  Forall is_char s ->
  datestamp_loop (s ++ 0%Z :: rest) x dt = Ok (x + length s, dt ++ s).
Proof.
  induction s as [|c s IH]; intros x dt F; cbn [app datestamp_loop].
  - change (0 =? 0)%Z with true. cbv iota. rewrite app_nil_r.
    f_equal. f_equal. cbn. lia.
  - inversion F as [|? ? Hc F']; subst. unfold is_char in Hc.
    destruct (Z.eqb_spec c 0); [lia|].
    rewrite IH by exact F'. rewrite <- app_assoc. cbn [length app].
    f_equal. f_equal. lia.
Qed.

Lemma idx_app_at pre l i k :
  i = length pre + k -> idx (pre ++ l) i = idx l k.
Proof.
  intros ->. unfold idx. rewrite lookup_app_r by lia.
  replace (length pre + k - length pre) with k by lia. reflexivity.
Qed.

Lemma drop_app_at (pre l : list Z) i k :
  i = length pre + k -> drop i (pre ++ l) = drop k l.
Proof.
  intros ->. rewrite drop_app_ge by lia.
  replace (length pre + k - length pre) with k by lia. reflexivity.
Qed.

Lemma slice_app_at pre l a b a' b' :
  a = length pre + a' -> b = length pre + b' ->
  slice (pre ++ l) a b = slice l a' b'.
Proof.
  intros -> ->. unfold slice. rewrite (drop_app_at pre l _ a') by reflexivity.
  f_equal. lia.
Qed.

Lemma half_name (name : str) :
  (Z.of_nat (length name) < 32767)%Z ->
  half (2 * Z.of_nat (length name) + 2) = Ok (length name + 1).
Proof.
  intros H. rewrite half_word.
  - f_equal.
    replace (2 * Z.of_nat (length name) + 2)%Z
      with ((Z.of_nat (length name) + 1) * 2)%Z by lia.
    rewrite Z.div_mul by lia. lia.
  - change (2 ^ 53)%Z with 9007199254740992%Z. lia.
Qed.

Lemma scan_next_datestamp pre s post u :
  Forall is_char s -> encodable s = true ->
  scan_next (pre ++ datestamp_words s ++ post) u (length pre)
  = ([Field "Datestamp detected"%string (VStr s)],
     Ok (length pre + length (datestamp_words s))).
Proof.
  intros F He. unfold scan_next.
  rewrite (idx_app_at pre _ _ 0) by lia.
  change (idx (datestamp_words s ++ post) 0) with (Ok 22%Z).
  rewrite bindM_lift_Ok. unfold scan_record.
  change (22 =? 22)%Z with true. cbv iota.
  rewrite (drop_app_at pre _ _ 2) by lia.
  change (drop 2 (datestamp_words s ++ post))
    with ((s ++ [0%Z]) ++ post).
  rewrite <- app_assoc. cbn [app].
  rewrite datestamp_loop_chars by exact F.
  rewrite bindM_lift_Ok. cbn [fst snd app].
  rewrite extractChars_chars by exact F.
  repeat mstep.
  unfold prepend, ret. cbn [fst snd app]. f_equal. f_equal.
  unfold datestamp_words. rewrite !length_app. cbn [length]. lia.
Qed.

Lemma take_name (name rest : list Z) :
  take (length name + 1) (0%Z :: (name ++ [0%Z]) ++ rest) = 0%Z :: name.
Proof.
  replace (length name + 1) with (S (length name)) by lia.
  cbn [take]. rewrite <- app_assoc, take_app_length. reflexivity.
Qed.

Ltac eval_rec :=
  repeat match goal with
  | |- context [idx (?pre ++ ?l) (length ?pre + ?k)] =>
      rewrite (idx_app_at pre l (length pre + k) k) by reflexivity
  | |- context [slice (?pre ++ ?l) (length ?pre + ?a) (length ?pre + ?b)] =>
      rewrite (slice_app_at pre l (length pre + a) (length pre + b) a b)
        by reflexivity
  | |- context [idx ?d ?k] =>
      let r := eval lazy [idx lookup list_lookup app video_words tmb_words
                            pmpd_words name_field filetime_words
                            size_words words_le le_bytes]
               in (idx d k) in
      progress change (idx d k) with r
  end.

Lemma scan_next_video pre size ft d name post :
  (0 <= size < 4294967296)%Z ->
  filetimeToTimestamp (filetime_words ft) = Ok d ->
  Forall is_char name -> (Z.of_nat (length name) < 32767)%Z ->
  encodable name = true ->
  scan_next (pre ++ video_words size ft name ++ post) false (length pre)
  = ([Heading "Video File"; HexDump [0; 774; 0; 0; 0; 0; 0]%Z;
      Field "File Size" (VInt size); Field "Creation Date" (VDate d);
      Field "File Name" (VStr name)],
     Ok (length pre + length (video_words size ft name))).
Proof.
  intros Hs Hd F Hn He. unfold scan_next.
  rewrite (idx_app_at pre _ _ 0) by lia.
  change (idx (video_words size ft name ++ post) 0) with (Ok 1%Z).
  rewrite bindM_lift_Ok. unfold scan_record.
  change (1 =? 22)%Z with false. change (1 =? 1)%Z with true.
  cbv iota zeta. cbn [negb when].
  replace (length pre + 17 - 1) with (length pre + 16) by lia.
  eval_rec.
  change (slice (video_words size ft name ++ post) 12 16)
    with (filetime_words ft).
  rewrite Hd.
  repeat mstep.
  rewrite half_name by exact Hn.
  repeat mstep. rewrite size_join by exact Hs.
  rewrite (slice_app_at pre _ _ _ 17 (17 + (length name + 1))) by lia.
  unfold slice at 2.
  replace (17 + (length name + 1) - 17) with (length name + 1) by lia.
  change (drop 17 (video_words size ft name ++ post))
    with (0%Z :: (name ++ [0%Z]) ++ post).
  rewrite take_name, extractChars_name by exact F.
  repeat mstep.
  unfold prepend, ret. cbn [fst snd app]. f_equal. f_equal.
  unfold video_words, name_field, filetime_words, size_words.
  rewrite !length_app. cbn [length le_bytes words_le]. lia.
Qed.

Lemma scan_next_tmb pre ft d name post :
  filetimeToTimestamp (filetime_words ft) = Ok d ->
  Forall is_char name -> (Z.of_nat (length name) < 32767)%Z ->
  encodable name = true ->
  scan_next (pre ++ tmb_words ft name ++ post) false (length pre)
  = ([Heading "Thumbnail file"; HexDump [0; 0; 0; 0; 0; 0; 0]%Z;
      Field "Creation Date" (VDate d); Field "File Name" (VStr name)],
     Ok (length pre + length (tmb_words ft name))).
Proof.
  intros Hd F Hn He. unfold scan_next.
  rewrite (idx_app_at pre _ _ 0) by lia.
  change (idx (tmb_words ft name ++ post) 0) with (Ok 2%Z).
  rewrite bindM_lift_Ok. unfold scan_record.
  change (2 =? 22)%Z with false. change (2 =? 1)%Z with false.
  change (2 =? 2)%Z with true.
  cbv iota zeta. cbn [negb when].
  replace (length pre + 13 - 1) with (length pre + 12) by lia.
  eval_rec.
  change (slice (tmb_words ft name ++ post) 8 12)
    with (filetime_words ft).
  rewrite Hd.
  repeat mstep.
  rewrite half_name by exact Hn.
  repeat mstep.
  rewrite (slice_app_at pre _ _ _ 13 (13 + (length name + 1))) by lia.
  unfold slice at 2.
  replace (13 + (length name + 1) - 13) with (length name + 1) by lia.
  change (drop 13 (tmb_words ft name ++ post))
    with (0%Z :: (name ++ [0%Z]) ++ post).
  rewrite take_name, extractChars_name by exact F.
  repeat mstep.
  unfold prepend, ret. cbn [fst snd app]. f_equal. f_equal.
  unfold tmb_words, name_field, filetime_words.
  rewrite !length_app. cbn [length le_bytes words_le]. lia.
Qed.

Lemma scan_next_pmpd pre ft d name post :
  filetimeToTimestamp (filetime_words ft) = Ok d ->
  Forall is_char name -> (Z.of_nat (length name) < 32767)%Z ->
  encodable name = true ->
  scan_next (pre ++ pmpd_words ft name ++ post) false (length pre)
  = ([Heading "XML file";
      Field "Creation Date" (VDate d); Field "File Name" (VStr name)],
     Ok (length pre + length (pmpd_words ft name))).
Proof.
  intros Hd F Hn He. unfold scan_next.
  rewrite (idx_app_at pre _ _ 0) by lia.
  change (idx (pmpd_words ft name ++ post) 0) with (Ok 4%Z).
  rewrite bindM_lift_Ok. unfold scan_record.
  change (4 =? 22)%Z with false. change (4 =? 1)%Z with false.
  change (4 =? 2)%Z with false. change (4 =? 4)%Z with true.
  cbv iota zeta. cbn [negb when].
  replace (length pre + 7 - 1) with (length pre + 6) by lia.
  eval_rec.
  change (slice (pmpd_words ft name ++ post) 2 6)
    with (filetime_words ft).
  rewrite Hd.
  repeat mstep.
  rewrite half_name by exact Hn.
  repeat mstep.
  rewrite (slice_app_at pre _ _ _ 7 (7 + (length name + 1))) by lia.
  unfold slice.
  replace (7 + (length name + 1) - 7) with (length name + 1) by lia.
  change (drop 7 (pmpd_words ft name ++ post))
    with (0%Z :: (name ++ [0%Z]) ++ post).
  rewrite take_name, extractChars_name by exact F.
  repeat mstep.
  unfold prepend, ret. cbn [fst snd app]. f_equal. f_equal.
  unfold pmpd_words, name_field, filetime_words.
  rewrite !length_app. cbn [length le_bytes words_le]. lia.
Qed.

(** *** The whole buffer *)

Lemma scan_step fuel data u i :
  i < length data ->
  scan (S fuel) data u i = bindM (scan_next data u i) (scan fuel data u).
Proof.
  intros H. cbn [scan]. destruct (Nat.ltb_spec i (length data)); [|lia].
  reflexivity.
Qed.

Lemma bindM_Ok {A B} o (a : A) (f : A -> M B) :
  bindM (o, Ok a) f = prepend o (f a).
Proof. unfold bindM, prepend. destruct (f a). reflexivity. Qed.

Lemma scan_records p ft1 ft2 ft3 d1 d2 d3 pre fuel :
  wf_params p -> params_printable p ->
  filetimeToTimestamp (filetime_words ft1) = Ok d1 ->
  filetimeToTimestamp (filetime_words ft2) = Ok d2 ->
  filetimeToTimestamp (filetime_words ft3) = Ok d3 ->
  scan (4 + fuel)
    (pre ++ datestamp_words (record_str p)
     ++ video_words (file_size p) ft1 (file_name p)
     ++ tmb_words ft2 (tmb_file p)
     ++ pmpd_words ft3 (pmpd_file p)) false (length pre)
  = (records_report p d1 d2 d3, Ok tt).
Proof.
  intros W (Prs & Pfn & Ptn & Ppn) E1 E2 E3.
  destruct W as [_ _ _ _ Hfs _ _ _ _ _ Srs Sfn Stn Spn _ Lfn Ltn Lpn].
  set (r1 := datestamp_words (record_str p)).
  set (r2 := video_words (file_size p) ft1 (file_name p)).
  set (r3 := tmb_words ft2 (tmb_file p)).
  set (r4 := pmpd_words ft3 (pmpd_file p)).
  assert (L1 : 0 < length r1) by (unfold r1, datestamp_words; cbn; lia).
  assert (L2 : 0 < length r2) by (unfold r2, video_words; cbn; lia).
  assert (L3 : 0 < length r3) by (unfold r3, tmb_words; cbn; lia).
  assert (L4 : 0 < length r4) by (unfold r4, pmpd_words; cbn; lia).
  change (4 + fuel) with (S (S (S (S fuel)))).
  rewrite scan_step by (rewrite !length_app; lia).
  unfold r1 at 1. rewrite scan_next_datestamp by assumption.
  rewrite bindM_Ok. fold r1.
  replace (pre ++ r1 ++ r2 ++ r3 ++ r4)
    with ((pre ++ r1) ++ r2 ++ r3 ++ r4) by (rewrite <- !app_assoc; reflexivity).
  rewrite <- length_app.
  rewrite scan_step by (rewrite !length_app; lia).
  unfold r2 at 1. rewrite (scan_next_video _ _ _ d1) by assumption.
  rewrite bindM_Ok. fold r2.
  replace ((pre ++ r1) ++ r2 ++ r3 ++ r4)
    with (((pre ++ r1) ++ r2) ++ r3 ++ r4) by (rewrite <- !app_assoc; reflexivity).
  rewrite <- length_app.
  rewrite scan_step by (rewrite !length_app; lia).
  unfold r3 at 1. rewrite (scan_next_tmb _ _ d2) by assumption.
  rewrite bindM_Ok. fold r3.
  replace (((pre ++ r1) ++ r2) ++ r3 ++ r4)
    with ((((pre ++ r1) ++ r2) ++ r3) ++ r4 ++ [])
    by (rewrite app_nil_r, <- !app_assoc; reflexivity).
  rewrite <- length_app.
  rewrite scan_step by (rewrite !length_app; lia).
  unfold r4 at 1. rewrite (scan_next_pmpd _ _ d3) by assumption.
  rewrite bindM_Ok. fold r4.
  rewrite scan_end by (rewrite !length_app; cbn [length]; lia).
  reflexivity.
Qed.

Lemma printCont_cont_words p ft1 ft2 ft3 d1 d2 d3 :
  wf_params p -> params_printable p -> header_found p ->
  filetimeToTimestamp (filetime_words ft1) = Ok d1 ->
  filetimeToTimestamp (filetime_words ft2) = Ok d2 ->
  filetimeToTimestamp (filetime_words ft3) = Ok d3 ->
  printCont (cont_words p ft1 ft2 ft3) false
  = (header_report p ++ records_report p d1 d2 d3, Ok tt).
Proof.
  intros W Pp Hf E1 E2 E3. unfold cont_words.
  rewrite (printCont_header p _ W Hf).
  change 370 with (length (header_words p)).
  assert (L : length (header_words p
     ++ datestamp_words (record_str p)
     ++ video_words (file_size p) ft1 (file_name p)
     ++ tmb_words ft2 (tmb_file p)
     ++ pmpd_words ft3 (pmpd_file p))
     = 4 + (412 + length (record_str p) + length (file_name p)
    + length (tmb_file p) + length (pmpd_file p))).
  { pose proof (length_cont_words p ft1 ft2 ft3) as E.
    unfold cont_words in E. rewrite E. lia. }
  rewrite L.
  rewrite (scan_records p ft1 ft2 ft3 d1 d2 d3) by assumption.
  reflexivity.
Qed.

Lemma analyseCont_encode sys p ft1 ft2 ft3 d1 d2 d3 :
  wf_params p -> params_printable p -> header_found p ->
  filetime_ok (m2ts_creation_date p) ft1 d1 ->
  filetime_ok (tmb_creation_date p) ft2 d2 ->
  filetime_ok (pmpd_creation_date p) ft3 d3 ->
  exists file,
    encode p = Ok file
    /\ analyseCont sys file false
       = (header_report p ++ records_report p d1 d2 d3, Ok tt).
Proof.
  intros W Pp Hf (M1 & B1 & E1) (M2 & B2 & E2) (M3 & B3 & E3).
  exists (le16 (cont_words p ft1 ft2 ft3)). split.
  - apply encode_image; assumption.
  - unfold analyseCont. rewrite readFile16_le16.
    + rewrite bindM_lift_Ok. apply printCont_cont_words; assumption.
    + apply cont_words_is_word, W.
    + rewrite length_cont_words.
      destruct W as [_ _ _ _ _ _ _ _ _ _ _ _ _ _ Lrs Lfn Ltn Lpn].
      change (2 ^ 52)%Z with 4503599627370496%Z. lia.
Qed.

(** *** A header taken for a shorter one *)

Lemma detect_fixed_year p tail :
  year (record_dt p) = 6%Z ->
  detect_header_length (fixed_words p ++ tail) = Ok 29.
Proof.
  intros Hy. unfold detect_header_length. cbn [seq header_loop].
  unfold header_test. eval_idx. rewrite Hy. reflexivity.
Qed.

Lemma detect_fixed_hour p tail :
  wf_params p -> year (record_dt p) <> 6%Z ->
  hour (record_dt p) = 10%Z -> hour (record_dt_utc p) = 10%Z ->
  hour (file_modified p) = 10%Z -> minute (record_dt p) = 0%Z ->
  detect_header_length (fixed_words p ++ tail) = Ok 34.
Proof.
  intros W Hy H1 H2 H3 Hm.
  destruct W as [V1 V2 V3 V4 _ _ _ _ _ _ _ _ _ _ _ _ _ _].
  destruct (valid_ranges _ V1) as (? & ? & ? & ? & ? & ?).
  destruct (valid_ranges _ V2) as (? & ? & ? & ? & ? & ?).
  destruct (valid_ranges _ V3) as (? & ? & ? & ? & ? & ?).
  destruct (valid_ranges _ V4) as (? & ? & ? & ? & ? & ?).
  set (data := fixed_words p ++ tail).
  assert (T29 : header_test data 29 = Ok false) by (subst data; test_candidate).
  assert (T30 : header_test data 30 = Ok false) by (subst data; test_candidate).
  assert (T31 : header_test data 31 = Ok false) by (subst data; test_candidate).
  assert (T32 : header_test data 32 = Ok false) by (subst data; test_candidate).
  assert (T33 : header_test data 33 = Ok false) by (subst data; test_candidate).
  assert (T34 : header_test data 34 = Ok true).
  { subst data. unfold header_test. eval_idx. rewrite H1, H2, H3, Hm.
    reflexivity. }
  unfold detect_header_length. cbn [seq header_loop].
  rewrite T29, T30, T31, T32, T33, T34. reflexivity.
Qed.

Lemma bindM_lift_Raise {A B} e (f : A -> M B) :
  bindM (lift (Raise e)) f = ([], Raise e).
Proof. reflexivity. Qed.

Lemma printCont_misdetected p tail :
  wf_params p -> ~ header_found p ->
  outcome (printCont (header_words p ++ tail) false) = Raise ValueError.
Proof.
  intros W Hn.
  set (data := header_words p ++ tail).
  assert (D : data = fixed_words p
                     ++ (brand_block ++ (device_block ++ [0%Z]) ++ tail)).
  { unfold data, header_words. rewrite <- !app_assoc. reflexivity. }
  assert (C : year (record_dt p) = 6%Z
              \/ (year (record_dt p) <> 6%Z
                  /\ hour (record_dt p) = 10%Z
                  /\ hour (record_dt_utc p) = 10%Z
                  /\ hour (file_modified p) = 10%Z
                  /\ minute (record_dt p) = 0%Z))
    by (unfold header_found in Hn; lia).
  assert (S0 : extractChars (slice data 0 7) = pystr "P_Cont_")
    by (rewrite D; reflexivity).
  unfold printCont. cbn [negb when]. rewrite S0.
  destruct C as [Hy | (Hy & H1 & H2 & H3 & Hm)].
  - replace (detect_header_length data) with (Ok (A:=nat) 29)
      by (rewrite D; symmetry; apply (detect_fixed_year p _ Hy)).
    assert (T : readContTimestamp (slice data 29 37) = Raise ValueError).
    { subst data. unfold readContTimestamp. eval_idx. reflexivity. }
    repeat first [ mstep | progress cbn [Nat.add] | rewrite T ].
    rewrite bindM_lift_Raise. reflexivity.
  - replace (detect_header_length data) with (Ok (A:=nat) 34)
      by (rewrite D; symmetry;
          apply (detect_fixed_hour p _ W Hy H1 H2 H3 Hm)).
    assert (T : readContTimestamp (slice data 34 42) = Raise ValueError).
    { subst data. unfold readContTimestamp. eval_idx. reflexivity. }
    repeat first [ mstep | progress cbn [Nat.add] | rewrite T ].
    rewrite bindM_lift_Raise. reflexivity.
Qed.

End DecodeImage.
(** ** Further properties of the encoder, the loader and the decoder *)

Section FiletimeSeconds.

Lemma filetime_ok_seconds t :
  -11644473600 <= t <= 115292150460 ->
  exists d,
    utc_of_unix t = Ok d
    /\ filetime_ok (t * one) (116444736000000000 + t * 10000000) d.
Proof.
  intros Ht. destruct (utc_of_unix_defined t Ht) as [d Hd].
  exists d. split; [exact Hd|]. unfold filetime_ok.
  split; [apply makeWindowsFiletime_seconds;
          change (2 ^ 53) with 9007199254740992; lia|].
  split; [lia|]. rewrite <- Hd. unfold filetime_words.
  rewrite filetimeToTimestamp_words
    by (change (2 ^ 64) with 18446744073709551616; lia).
  replace (116444736000000000 + t * 10000000)
    with ((t + 11644473600) * 10000000) by lia.
  rewrite truediv_usecs
    by (change (2 ^ 53) with 9007199254740992; lia).
  cbn [bindR]. rewrite round_int_whole.
  replace ((t + 11644473600) * 1000000)
    with (t * 1000000 + 11644473600 * 1000000) by ring.
  apply add_usec_shift. lia.
Qed.

Lemma wf_scenario : wf_params scenario.
Proof.
  constructor;
    try (split; [reflexivity | cbn; lia]);
    try (unfold is_word; cbn; lia);
    try (cbn; lia);
    try (apply Forall_forall; intros c Hc; apply list_elem_of_In in Hc;
         cbn in Hc; unfold is_char; lia).
Qed.

Lemma wf_scenario_ten : wf_params scenario_ten.
Proof.
  constructor;
    try (split; [reflexivity | cbn; lia]);
    try (unfold is_word; cbn; lia);
    try (cbn; lia);
    try (apply Forall_forall; intros c Hc; apply list_elem_of_In in Hc;
         cbn in Hc; unfold is_char; lia).
Qed.

Lemma header_found_scenario : header_found scenario.
Proof. split; cbn; lia. Qed.

Lemma not_header_found_scenario_ten : ~ header_found scenario_ten.
Proof. intros [_ H]. apply H. cbn. lia. Qed.

Lemma utf8_writes_ascii : @writes_ascii utf8.
Proof.
  intros c Hc. unfold encodes, utf8.
  destruct (Z.ltb_spec c 55296); [reflexivity | lia].
Qed.

End FiletimeSeconds.

Section RoundTrip.
Context {stdout : Console}.


Lemma encode_misdetected p t1 t2 t3 :
  writes_ascii -> wf_params p -> ~ header_found p ->
  m2ts_creation_date p = t1 * one ->
  tmb_creation_date p = t2 * one ->
  pmpd_creation_date p = t3 * one ->
  -11644473600 <= t1 <= 115292150460 ->
  -11644473600 <= t2 <= 115292150460 ->
  -11644473600 <= t3 <= 115292150460 ->
  exists ws,
    encode p = Ok (le16 ws) /\ Forall is_word ws
    /\ Z.of_nat (length ws) < 2 ^ 52
    /\ outcome (printCont ws false) = Raise ValueError.
Proof.
  intros Ha W Hn E1 E2 E3 H1 H2 H3.
  destruct (filetime_ok_seconds t1 H1) as (d1 & _ & M1 & B1 & _).
  destruct (filetime_ok_seconds t2 H2) as (d2 & _ & M2 & B2 & _).
  destruct (filetime_ok_seconds t3 H3) as (d3 & _ & M3 & B3 & _).
  rewrite <- E1 in M1. rewrite <- E2 in M2. rewrite <- E3 in M3.
  eexists. split; [apply (encode_image p _ _ _ W M1 M2 M3 B1 B2 B3)|].
  split; [apply cont_words_is_word, W|]. split.
  - rewrite length_cont_words.
    destruct W as [_ _ _ _ _ _ _ _ _ _ _ _ _ _ Lrs Lfn Ltn Lpn].
    change (2 ^ 52) with 4503599627370496. lia.
  - unfold cont_words. apply printCont_misdetected; assumption.
Qed.


End RoundTrip.

Section RoundTripCases.
#[local] Existing Instance utf8.

Lemma printable_scenario : params_printable scenario.
Proof. repeat split; vm_compute; reflexivity. Qed.



End RoundTripCases.

Section BuildMetadataProperties.
Context {stdout : Console}.
Local Open Scope nat_scope.

Ltac osimp :=
  repeat first
    [ rewrite outcome_bind | rewrite outcome_print | rewrite outcome_lift
    | rewrite outcome_ret | rewrite outcome_when
    | progress cbn [bindR negb printable] ].

(** X3.  [debug] only adds a check: [buildMetadata] with [debug]
    returns a buffer exactly when it returns it without [debug] and the
    decoder accepts that buffer, read as [printCont] reads a [bytes]
    object.  A buffer the decoder rejects is never written in debug
    mode, and the flag never changes the bytes. *)
Theorem buildMetadata_debug sys h data :
  outcome (buildMetadata sys h true) = Ok data
  <-> outcome (buildMetadata sys h false) = Ok data
      /\ outcome (printCont_bytes sys data false) = Ok tt.
Proof.
  unfold buildMetadata.
  destruct (h_exists h); osimp;
    [|destruct (encodable _); cbn [bindR];
      (split; [discriminate | intros [? ?]; discriminate])].
  destruct (encodable _); osimp;
    [|split; [discriminate | intros [? ?]; discriminate]].
  destruct (build_params h) as [params| |]; osimp;
    try (split; [discriminate | intros [? ?]; discriminate]).
  destruct (h_tmb_template h); osimp;
    try (split; [discriminate | intros [? ?]; discriminate]).
  destruct (encodable (tmb_file params)); osimp;
    try (split; [discriminate | intros [? ?]; discriminate]).
  destruct (h_pmpd_template h) as [t|]; osimp;
    try (split; [discriminate | intros [? ?]; discriminate]).
  destruct (encodable (pmpd_file params)); osimp;
    try (split; [discriminate | intros [? ?]; discriminate]).
  destruct (encode params) as [file| |]; osimp;
    try (split; [discriminate | intros [? ?]; discriminate]).
  destruct (encodable _) eqn:Ec; osimp.
  - split.
    + destruct (outcome (printCont_bytes sys file false)) as [[]| |] eqn:E;
        osimp; try discriminate.
      intros [= <-]. split; [reflexivity | exact E].
    + intros [[= <-] E]. rewrite E. osimp. reflexivity.
  - split; [|intros [? ?]; discriminate].
    destruct (outcome (printCont_bytes sys file false)) as [[]| |];
      osimp; discriminate.
Qed.

End BuildMetadataProperties.

Section DebugDecode.
Context {stdout : Console}.
Local Open Scope nat_scope.

Ltac osimp :=
  repeat first
    [ rewrite outcome_bind | rewrite outcome_print | rewrite outcome_lift
    | rewrite outcome_ret | rewrite outcome_when
    | progress cbn [bindR negb printable] ].

Lemma array_H_even sys file :
  Nat.Even (length file) ->
  array_H sys file = Ok (native_items sys true file).
Proof.
  induction file as [|x|x y l IH] using list_pair_ind; intros He.
  - reflexivity.
  - destruct He as [k Hk]. cbn in Hk. lia.
  - cbn [array_H native_items]. rewrite IH; [reflexivity|].
    destruct He as [k Hk]. cbn [length] in Hk. exists (k - 1). lia.
Qed.

Lemma array_H_odd sys file :
  Nat.Odd (length file) -> array_H sys file = Raise ValueError.
Proof.
  induction file as [|x|x y l IH] using list_pair_ind; intros Ho.
  - destruct Ho as [k Hk]. cbn in Hk. lia.
  - reflexivity.
  - cbn [array_H]. rewrite IH; [reflexivity|].
    destruct Ho as [k Hk]. cbn [length] in Hk. exists (k - 1). lia.
Qed.

(** X4.  The debug decode of [buildMetadata] and [analyseCont] read
    the same words on a little-endian machine: [printCont] given a
    [bytes] object of even length prints what [analyseCont] prints for a
    file with these bytes.  A [bytes] object of odd length is refused
    with [ValueError], where the loader drops the last byte. *)
Theorem printCont_bytes_little sys file unknown_fields :
  Forall is_byte file -> (Z.of_nat (length file) < 2 ^ 53)%Z ->
  (Nat.Even (length file) ->
     printCont_bytes Little file unknown_fields
     = analyseCont sys file unknown_fields)
  /\ (Nat.Odd (length file) ->
        printCont_bytes sys file unknown_fields = ([], Raise ValueError)).
Proof.
  intros Hb Hlen. split.
  - intros He. unfold printCont_bytes, analyseCont.
    rewrite array_H_even by exact He.
    rewrite readFile16_little by assumption.
    pose proof (native_items_little Little file Hb) as E.
    cbn [endian_eqb] in E. rewrite E. reflexivity.
  - intros Ho. unfold printCont_bytes.
    rewrite array_H_odd by exact Ho. reflexivity.
Qed.

Lemma printCont_bytes_le16 ws u :
  Forall is_word ws -> printCont_bytes Little (le16 ws) u = printCont ws u.
Proof.
  intros F. unfold printCont_bytes.
  rewrite array_H_even
    by (rewrite length_le16; exists (length ws); lia).
  pose proof (native_items_little Little (le16 ws) (le16_is_byte ws)) as E.
  cbn [endian_eqb] in E. rewrite E, words_le_le16 by exact F.
  exact (bindM_lift_Ok ws (fun data => printCont data u)).
Qed.

Lemma encodable_app s t :
  encodable (s ++ t) = encodable s && encodable t.
Proof. unfold encodable. apply forallb_app. Qed.

Lemma build_params_names h p :
  build_params h = Ok p ->
  tmb_file p = h_fbase h ++ pystr ".tmb"
  /\ pmpd_file p = h_fbase h ++ pystr ".pmpd".
Proof.
  unfold build_params. destruct (add_usec _ _); [|discriminate..].
  cbn [bindR]. intros [= <-]. split; reflexivity.
Qed.

Lemma buildMetadata_outcome sys h debug p :
  writes_ascii -> host_ready h -> build_params h = Ok p ->
  outcome (buildMetadata sys h debug)
  = (let! data := encode p in
     let! _ := (if debug then outcome (printCont_bytes sys data false)
                else Ok tt) in
     Ok data).
Proof.
  intros Ha (X1 & X2 & X3 & Pn & Pb) Hp.
  destruct (build_params_names h p Hp) as [Et Ep].
  assert (A : forall s, forallb (fun c => (0 <=? c)%Z && (c <? 128)%Z) s
                        = true -> encodable s = true)
    by (apply ascii_encodable; exact Ha).
  unfold buildMetadata. rewrite X1, X2, Hp.
  destruct (h_pmpd_template h) as [t|]; [|contradiction].
  osimp.
  rewrite !encodable_app, Pn, Et, Ep, !encodable_app, Pb.
  rewrite !A by (vm_compute; reflexivity).
  assert (Ec : encodable (h_fbase h ++ pystr ".cont") = true)
    by (rewrite encodable_app, Pb, A by (vm_compute; reflexivity);
        reflexivity).
  cbn [andb bindR]. destruct debug; osimp;
    (destruct (encode p) as [data| |]; osimp; try reflexivity).
  - destruct (outcome (printCont_bytes sys data false)) as [[]| |];
      osimp; rewrite ?Ec; reflexivity.
  - rewrite Ec. reflexivity.
Qed.


End DebugDecode.

Section DebugDecodeCases.
#[local] Existing Instance utf8.

Lemma printCont_bytes_little_witness :
  (Forall is_byte [80; 0; 95; 0] /\ (Z.of_nat (length [80; 0; 95; 0]) < 2 ^ 53)%Z)
  /\ (Nat.Even (length [80; 0; 95; 0]) ->
        printCont_bytes Little [80; 0; 95; 0] false
        = analyseCont Big [80; 0; 95; 0] false)
  /\ (Nat.Odd (length [80; 0; 95; 0]) ->
        printCont_bytes Big [80; 0; 95; 0] false = ([], Raise ValueError)).
Proof.
  assert (Hb : Forall is_byte [80; 0; 95; 0])
    by (repeat constructor; unfold is_byte; lia).
  assert (Hl : (Z.of_nat (length [80; 0; 95; 0]) < 2 ^ 53)%Z)
    by (vm_compute; reflexivity).
  split; [exact (conj Hb Hl)|].
  exact (printCont_bytes_little Big [80; 0; 95; 0] false Hb Hl).
Defined.

Lemma host_ten_ready : host_ready host_ten.
Proof.
  split; [reflexivity|]. split; [reflexivity|]. split; [discriminate|].
  split; vm_compute; reflexivity.
Qed.

Lemma build_params_host_ten : build_params host_ten = Ok scenario_ten.
Proof. vm_compute. reflexivity. Qed.


End DebugDecodeCases.

Section UnknownFields.
Context {stdout : Console}.
Local Open Scope nat_scope.

Lemma scan_record_unknown data i el p :
  outcome (scan_record data false i el) = Ok p ->
  outcome (scan_record data true i el) = Ok p.
Proof.
  destruct (Z.eq_dec el 22%Z) as [->|H22];
    [rewrite !outcome_scan_record_datestamp; auto|].
  destruct (Z.eq_dec el 1%Z) as [->|H1].
  { rewrite !outcome_scan_record_video.
    destruct (idx data (i + 9)); [|discriminate..]. cbn [bindR].
    destruct (idx data (i + 8)); [|discriminate..]. cbn [bindR].
    intros H. apply file_record_Ok in H. destruct H as [-> _].
    reflexivity. }
  destruct (Z.eq_dec el 2%Z) as [->|H2].
  { rewrite !outcome_scan_record_thumbnail.
    intros H. apply file_record_Ok in H. destruct H as [-> _].
    reflexivity. }
  destruct (Z.eq_dec el 4%Z) as [->|H4].
  { rewrite !outcome_scan_record_xml.
    intros H. apply file_record_Ok in H. destruct H as [-> _].
    reflexivity. }
  rewrite !outcome_scan_record_other by assumption. auto.
Qed.

Lemma scan_next_unknown data i c :
  outcome (scan_next data false i) = Ok c ->
  outcome (scan_next data true i) = Ok c.
Proof.
  rewrite !outcome_scan_next. destruct (idx data i); [|discriminate..].
  cbn [bindR].
  destruct (outcome (scan_record data false i a)) as [p| |] eqn:E;
    [|discriminate..].
  rewrite (scan_record_unknown _ _ _ _ E). auto.
Qed.

Lemma scan_unknown fuel : forall data i,
  outcome (scan fuel data false i) = Ok tt ->
  outcome (scan fuel data true i) = Ok tt.
Proof.
  induction fuel as [|fuel IH]; intros data i; cbn [scan]; [auto|].
  destruct (i <? length data); [|auto].
  rewrite !outcome_bind.
  destruct (outcome (scan_next data false i)) as [c| |] eqn:E;
    [|discriminate..].
  rewrite (scan_next_unknown _ _ _ E). cbn [bindR]. apply IH.
Qed.

Ltac hstep H :=
  first
    [ rewrite outcome_bind in H | rewrite outcome_lift in H
    | rewrite outcome_print in H | rewrite outcome_ret in H
    | progress cbn [bindR printable] in H
    | match type of H with
      | context [bindR ?r _] =>
          lazymatch r with
          | outcome _ => fail
          | _ => destruct r eqn:?; cbn [bindR] in H; [|discriminate H..]
          end
      end ].

Ltac gstep :=
  first
    [ rewrite outcome_bind | rewrite outcome_lift
    | rewrite outcome_print | rewrite outcome_ret
    | progress cbn [bindR printable]
    | match goal with
      | E : ?r = Ok _ |- context [bindR ?r _] => rewrite E
      end ].

(** X6.  The flag [unknown_fields] never makes a stream fail: a
    stream that [printCont] decodes in full is decoded with the flag,
    which skips the timestamps, the stream fields and the names and
    reads the same records. *)
Theorem printCont_unknown_fields data :
  outcome (printCont data false) = Ok tt ->
  outcome (printCont data true) = Ok tt.
Proof.
  unfold printCont. cbn [negb when]. intros H.
  repeat hstep H.
  match goal with
  | E : bindR (readContTimestamp _) _ = Ok ?n |- _ =>
      repeat hstep E; injection E as <-
  end.
  match goal with
  | E : detect_header_length data = Ok ?n |- _ =>
      replace (n + 33 + 2) with (n + 35) in * by lia
  end.
  repeat gstep.
  apply scan_unknown. exact H.
Qed.

End UnknownFields.

Section UnknownFieldsCases.
#[local] Existing Instance utf8.

Lemma printCont_unknown_fields_witness :
  outcome (printCont scenario_words false) = Ok tt
  /\ outcome (printCont scenario_words true) = Ok tt.
Proof.
  assert (H : outcome (printCont scenario_words false) = Ok tt)
    by (vm_compute; reflexivity).
  split; [exact H|].
  exact (printCont_unknown_fields scenario_words H).
Defined.

End UnknownFieldsCases.

Section EncoderProperties.
Local Open Scope nat_scope.

(** X7.  The layout of the CONT file.  For parameters the encoder
    accepts, the buffer is the little-endian image of [cont_words]: the
    370 words of the header, then the datestamp and the three file
    records; it holds 832 bytes and two more for each character of the
    date string and of the three names. *)
Theorem encode_layout p ft1 ft2 ft3 :
  wf_params p ->
  makeWindowsFiletime (m2ts_creation_date p) = Ok ft1 ->
  makeWindowsFiletime (tmb_creation_date p) = Ok ft2 ->
  makeWindowsFiletime (pmpd_creation_date p) = Ok ft3 ->
  (0 <= ft1 < 18446744073709551616)%Z ->
  (0 <= ft2 < 18446744073709551616)%Z ->
  (0 <= ft3 < 18446744073709551616)%Z ->
  exists file,
    encode p = Ok file
    /\ Forall is_byte file
    /\ words_le file = cont_words p ft1 ft2 ft3
    /\ Z.of_nat (length file)
       = (832 + 2 * Z.of_nat (length (record_str p) + length (file_name p)
                              + length (tmb_file p)
                              + length (pmpd_file p)))%Z.
Proof.
  intros W E1 E2 E3 B1 B2 B3.
  exists (le16 (cont_words p ft1 ft2 ft3)).
  split; [apply encode_image; assumption|].
  split; [apply le16_is_byte|].
  split; [apply words_le_le16, cont_words_is_word, W|].
  rewrite length_le16, length_cont_words. lia.
Qed.

Lemma encode_layout_witness :
  (wf_params scenario
   /\ makeWindowsFiletime (m2ts_creation_date scenario)
      = Ok 132038217300000000%Z
   /\ makeWindowsFiletime (tmb_creation_date scenario)
      = Ok 132038218000000000%Z
   /\ makeWindowsFiletime (pmpd_creation_date scenario)
      = Ok 132038218010000000%Z)
  /\ exists file,
       encode scenario = Ok file
       /\ Forall is_byte file
       /\ words_le file
          = cont_words scenario 132038217300000000 132038218000000000
              132038218010000000
       /\ Z.of_nat (length file)
          = (832 + 2 * Z.of_nat (length (record_str scenario)
                                 + length (file_name scenario)
                                 + length (tmb_file scenario)
                                 + length (pmpd_file scenario)))%Z.
Proof.
  assert (E1 : makeWindowsFiletime (m2ts_creation_date scenario)
               = Ok 132038217300000000%Z) by (vm_compute; reflexivity).
  assert (E2 : makeWindowsFiletime (tmb_creation_date scenario)
               = Ok 132038218000000000%Z) by (vm_compute; reflexivity).
  assert (E3 : makeWindowsFiletime (pmpd_creation_date scenario)
               = Ok 132038218010000000%Z) by (vm_compute; reflexivity).
  split; [exact (conj wf_scenario (conj E1 (conj E2 E3)))|].
  apply (encode_layout scenario _ _ _ wf_scenario E1 E2 E3); lia.
Defined.

Lemma file_structure_exn p e :
  file_structure p = Raise e -> e = OverflowError.
Proof.
  unfold file_structure, makeWindowsFiletime.
  destruct (mul (m2ts_creation_date p) _); cbn [bindR];
    [|intros [= <-]; reflexivity].
  destruct (mul (tmb_creation_date p) _); cbn [bindR];
    [|intros [= <-]; reflexivity].
  destruct (mul (pmpd_creation_date p) _); cbn [bindR];
    [discriminate | intros [= <-]; reflexivity].
Qed.

(** X8.  What the encoder cannot encode.  A video of 4 GiB or more,
    whose size does not fit the 32-bit size fields, and a file name
    with a character outside the Basic Multilingual Plane, which does
    not fit a 16-bit word, make [encode] fail: with [struct.error],
    unless a creation time is too large for a float and
    [OverflowError] comes first.  No CONT file is written. *)
Theorem encode_rejects p :
  (4294967296 <= file_size p)%Z
  \/ (exists c, In c (file_name p) /\ (65536 <= c)%Z) ->
  encode p = Raise StructError \/ encode p = Raise OverflowError.
Proof.
  intros H. unfold encode.
  destruct (file_structure p) as [blocks|e|] eqn:E; cbn [bindR].
  - left. rewrite assemble_contents, contents_unfit; [reflexivity|].
    unfold file_structure in E.
    destruct (makeWindowsFiletime (m2ts_creation_date p));
      cbn [bindR] in E; try discriminate.
    destruct (makeWindowsFiletime (tmb_creation_date p));
      cbn [bindR] in E; try discriminate.
    destruct (makeWindowsFiletime (pmpd_creation_date p));
      cbn [bindR] in E; try discriminate.
    injection E as <-.
    destruct H as [H | (c & Hin & Hc)].
    + do 7 apply Exists_cons_tl. apply Exists_cons_hd.
      cbn [edata payload_overflows]. change (fmt_bound fmti) with 4294967296%Z.
      lia.
    + do 42 apply Exists_cons_tl. apply Exists_cons_hd.
      cbn [edata payload_overflows]. apply Exists_exists.
      exists c. split; [apply list_elem_of_In; exact Hin|].
      change (fmt_bound fmts) with 65536%Z. lia.
  - right. apply file_structure_exn in E. subst e. reflexivity.
  - exfalso. unfold file_structure in E.
    pose proof (makeWindowsFiletime_no_diverge (m2ts_creation_date p)).
    pose proof (makeWindowsFiletime_no_diverge (tmb_creation_date p)).
    pose proof (makeWindowsFiletime_no_diverge (pmpd_creation_date p)).
    destruct (makeWindowsFiletime (m2ts_creation_date p));
      cbn [bindR] in E; try congruence.
    destruct (makeWindowsFiletime (tmb_creation_date p));
      cbn [bindR] in E; try congruence.
    destruct (makeWindowsFiletime (pmpd_creation_date p));
      cbn [bindR] in E; congruence.
Qed.

Lemma encode_rejects_witness :
  ((4294967296 <= file_size scenario_4gib)%Z
   \/ (exists c, In c (file_name scenario_4gib) /\ (65536 <= c)%Z))
  /\ (encode scenario_4gib = Raise StructError
      \/ encode scenario_4gib = Raise OverflowError).
Proof.
  assert (H : (4294967296 <= file_size scenario_4gib)%Z
              \/ (exists c, In c (file_name scenario_4gib)
                            /\ (65536 <= c)%Z))
    by (left; cbn; lia).
  split; [exact H|].
  exact (encode_rejects scenario_4gib H).
Defined.

(** X9.  The assembler only appends.  What it adds to the buffer does
    not depend on what the buffer holds, and the bytes already there are
    never changed. *)
Theorem assemble_append_only blocks data out :
  assemble blocks data = Ok out ->
  exists r, assemble blocks [] = Ok r /\ out = data ++ r.
Proof.
  rewrite (assemble_contents blocks data), (assemble_contents blocks []).
  destruct (contents blocks) as [r| |]; cbn [bindR]; try discriminate.
  intros [= <-]. exists r. split; reflexivity.
Qed.

Lemma assemble_append_only_witness :
  assemble [mkElement (Int fmts 258) 1 (Some 4)] [7%Z]
  = Ok [7; 0; 2; 1; 0]%Z
  /\ exists r, assemble [mkElement (Int fmts 258) 1 (Some 4)] [] = Ok r
               /\ [7; 0; 2; 1; 0]%Z = [7%Z] ++ r.
Proof.
  assert (H : assemble [mkElement (Int fmts 258) 1 (Some 4)] [7%Z]
              = Ok [7; 0; 2; 1; 0]%Z) by reflexivity.
  split; [exact H|].
  exact (assemble_append_only _ _ _ H).
Defined.

(** X10.  A timestamp record is read back as it was written: for a
    date that is a date, [readContTimestamp] on the record the encoder
    builds from [makeContTimestamp], whatever the leading word and the
    flag, gives the date without its microseconds. *)
Theorem timestamp_roundtrip dt pad x :
  valid dt ->
  readContTimestamp (pad :: makeContTimestamp dt x) = Ok (whole_seconds dt).
Proof.
  intros V. unfold readContTimestamp, makeContTimestamp.
  cbn [idx lookup list_lookup bindR]. apply make_valid, V.
Qed.

Lemma timestamp_roundtrip_witness :
  valid (mkDatetime 2019 6 1 10 15 30 250000)
  /\ readContTimestamp
       (0%Z :: makeContTimestamp (mkDatetime 2019 6 1 10 15 30 250000) 5)
     = Ok (whole_seconds (mkDatetime 2019 6 1 10 15 30 250000)).
Proof.
  assert (V : valid (mkDatetime 2019 6 1 10 15 30 250000))
    by (split; [reflexivity | cbn; lia]).
  split; [exact V|].
  exact (timestamp_roundtrip _ 0%Z 5%Z V).
Defined.

End EncoderProperties.

Section LoaderProperties.

(** X11.  The words [readFile16] returns do not depend on the byte
    order of the machine that runs it. *)
Theorem readFile16_host_independent sys sys' file endian_ unsigned :
  Forall is_byte file -> Z.of_nat (length file) < 2 ^ 53 ->
  readFile16 sys file endian_ unsigned
  = readFile16 sys' file endian_ unsigned.
Proof.
  intros Hb Hlen.
  rewrite (readFile16_endian sys), (readFile16_endian sys') by assumption.
  reflexivity.
Qed.

Lemma readFile16_host_independent_witness :
  (Forall is_byte [227; 7; 6; 0; 255]
   /\ Z.of_nat (length [227; 7; 6; 0; 255]) < 2 ^ 53)
  /\ readFile16 Little [227; 7; 6; 0; 255] Big false
     = readFile16 Big [227; 7; 6; 0; 255] Big false.
Proof.
  assert (Hb : Forall is_byte [227; 7; 6; 0; 255])
    by (repeat constructor; unfold is_byte; lia).
  assert (Hl : Z.of_nat (length [227; 7; 6; 0; 255]) < 2 ^ 53)
    by (vm_compute; reflexivity).
  split; [split; [exact Hb | exact Hl]|].
  exact (readFile16_host_independent Little Big _ Big false Hb Hl).
Defined.

End LoaderProperties.

Section ExtractChars.
Local Open Scope nat_scope.

Lemma extractChars_zeros k : forall acc,
  last acc = Some 10%Z \/ acc = [] ->
  fold_left extractChars_step (repeat 0%Z k) acc = acc.
Proof.
  induction k as [|k IH]; intros acc H; [reflexivity|].
  cbn [repeat fold_left].
  assert (E : extractChars_step acc 0 = acc).
  { unfold extractChars_step. change (0 =? 0)%Z with true. cbv iota.
    destruct H as [-> | ->]; reflexivity. }
  rewrite E. apply IH, H.
Qed.

Lemma extractChars_field s k acc :
  is_text s ->
  fold_left extractChars_step (s ++ repeat 0%Z (S k)) acc
  = acc ++ s ++ [10%Z].
Proof.
  intros (Hne & Hc & Hl).
  rewrite fold_left_app, (extractChars_fold s acc Hc).
  cbn [repeat fold_left].
  assert (E : extractChars_step (acc ++ s) 0 = acc ++ s ++ [10%Z]).
  { unfold extractChars_step. change (0 =? 0)%Z with true. cbv iota.
    assert (L : last (acc ++ s) = last s).
    { destruct s as [|c s] using rev_ind; [contradiction|].
      rewrite app_assoc, !last_snoc. reflexivity. }
    rewrite L. destruct (last s) as [c|] eqn:E.
    - destruct (Z.eqb_spec c 10); [congruence|].
      rewrite app_assoc. reflexivity.
    - apply last_None in E. contradiction. }
  rewrite E. apply extractChars_zeros. left.
  rewrite app_assoc. apply last_snoc.
Qed.

(** X12.  How a block of NUL-padded fields prints.  [extractChars]
    drops the NULs before the first field and turns the run of NULs
    after each field into one newline: the fields come out one per
    line, whatever the lengths of the runs. *)
Theorem extractChars_padded_fields j parts :
  Forall (fun f => is_text (fst f)) parts ->
  extractChars (repeat 0%Z j ++ padded parts) = lines parts.
Proof.
  intros F. unfold extractChars.
  rewrite fold_left_app, extractChars_zeros by (right; reflexivity).
  change (lines parts) with ([] ++ lines parts).
  generalize (@nil Z) as acc.
  induction F as [|[s k] parts Hs F IH]; intros acc.
  - cbn. rewrite app_nil_r. reflexivity.
  - unfold padded, lines in *. cbn [flat_map fst snd].
    rewrite fold_left_app, extractChars_field by exact Hs.
    rewrite IH, <- !app_assoc. reflexivity.
Qed.

Lemma extractChars_padded_fields_witness :
  Forall (fun f => is_text (fst f))
    [(pystr "01", 0); (pystr "HC-V210/V110", 2); (pystr "00", 105)]
  /\ extractChars
       (repeat 0%Z 1
        ++ padded [(pystr "01", 0); (pystr "HC-V210/V110", 2);
                   (pystr "00", 105)])
     = lines [(pystr "01", 0); (pystr "HC-V210/V110", 2);
              (pystr "00", 105)].
Proof.
  assert (H : Forall (fun f => is_text (fst f))
                [(pystr "01", 0); (pystr "HC-V210/V110", 2);
                 (pystr "00", 105)]).
  { repeat constructor; cbn; try discriminate; unfold is_char; lia. }
  split; [exact H|].
  exact (extractChars_padded_fields 1 _ H).
Defined.

Lemma extractChars_step_spec acc a :
  Forall (fun c => c <> 0%Z) acc ->
  Forall (fun c => c <> 0%Z) (extractChars_step acc a)
  /\ length (extractChars_step acc a) <= S (length acc).
Proof.
  intros F. unfold extractChars_step.
  destruct (Z.eqb_spec a 0) as [->|Ha].
  - destruct (last acc) as [c|]; [|split; [exact F | lia]].
    destruct (c =? 10)%Z; [split; [exact F | lia]|].
    split; [apply Forall_app; split; [exact F | repeat constructor; lia]|].
    rewrite length_app. cbn. lia.
  - destruct (_ && _).
    + split; [apply Forall_app; split;
                [exact F | repeat constructor; exact Ha]|].
      rewrite length_app. cbn. lia.
    + split; [apply Forall_app; split; [exact F | repeat constructor; lia]|].
      rewrite length_app. cbn. lia.
Qed.


End ExtractChars.
